(** * The OpenAI agent worker of LlamaIndexTS, embedded in Rocq

    Source: [packages/core/src/agent/openai/worker.ts].

    The worker runs an agent task step by step.  One step builds a chat
    request from the prefix messages, the task's persistent memory and its
    scratch memory, sends it to the LLM, appends the reply to the scratch
    memory, and dispatches the tool calls the reply asks for.  The code is
    imperative JavaScript: a [Task] object is mutated in place and
    exceptions leave whatever was mutated before the throw.  It is embedded
    here with explicit state passing and an exception result: a
    computation is a function [World -> (exn + A) * World], where the
    world is the task together with the log of the requests the LLM
    received.

    What the embedding leaves out: [console.log] output under [verbose],
    the callback manager (stored by the constructor, never read by the
    worker), and the asynchrony of [await] (every await of the worker is
    sequential, so the order of effects is the order of the statements). *)

From Stdlib Require Import ZArith List String Ascii Bool Lia.
From Stdlib Require Import DecimalString.
Import ListNotations.
Set Warnings "-register-all".
Local Open Scope string_scope.
Local Open Scope Z_scope.

(** ** JSON values, [JSON.parse] and [String(...)]

    Argument payloads of tool calls are JSON text; the worker parses them
    with the built-in [JSON.parse] and stringifies tool results with the
    built-in [String].  [JSON_parse] accepts the JSON grammar of ECMA-404
    and no other text.  Numbers are kept exact: an integer value below
    10^21 in magnitude is [JNumber n], any other value is
    [JDecimal m e], that is [m * 10^e] with [m] not a multiple of ten.
    JavaScript rounds a number to the nearest IEEE double, which changes
    neither whether a text parses nor, for integers below 2^53 and for
    decimals of up to 15 significant digits in the range of normal
    doubles, what [String] prints.  Strings are byte strings: a character
    beyond ASCII is its UTF-8 encoding. *)

Module JSON.

Inductive JSONValue : Type :=
| JNull
| JBool (b : bool)
| JNumber (n : Z)
| JDecimal (mantissa exponent : Z)
| JString (s : string)
| JArray (elements : list JSONValue)
| JObject (members : list (string * JSONValue)).

(** The double quote character, code 34. *)
Definition dquote : ascii := "034"%char.

(** [quoted s] is [s] between double quotes, as a JSON string literal of a
    text without special characters. *)
Definition quoted (s : string) : string :=
  String dquote (s ++ String dquote EmptyString).

Definition is_ws (c : ascii) : bool :=
  match nat_of_ascii c with
  | 32%nat | 9%nat | 10%nat | 13%nat => true
  | _ => false
  end.

Fixpoint skip_ws (s : string) : string :=
  match s with
  | String c r => if is_ws c then skip_ws r else s
  | EmptyString => EmptyString
  end.

Definition digit_of (c : ascii) : option Z :=
  let n := nat_of_ascii c in
  if andb (Nat.leb 48 n) (Nat.leb n 57) then Some (Z.of_nat (n - 48)) else None.

(** Reads the longest run of digits, accumulating its value. *)
Fixpoint parse_digits (acc : Z) (s : string) : Z * string :=
  match s with
  | String c r =>
      match digit_of c with
      | Some d => parse_digits (10 * acc + d) r
      | None => (acc, s)
      end
  | EmptyString => (acc, s)
  end.

(** The integer part of a number: [0], or a non-zero digit followed by
    digits.  After a leading [0] the number ends; a digit that follows it
    is left in the text, where nothing accepts it. *)
Definition parse_nat (s : string) : option (Z * string) :=
  match s with
  | String c r =>
      match digit_of c with
      | Some 0 => Some (0, r)
      | Some d => Some (parse_digits d r)
      | None => None
      end
  | EmptyString => None
  end.

(** Reads the longest run of digits of a fraction: the mantissa grows by
    each digit and [count] counts them. *)
Fixpoint parse_fraction (acc count : Z) (s : string) : Z * Z * string :=
  match s with
  | String c r =>
      match digit_of c with
      | Some d => parse_fraction (10 * acc + d) (count + 1) r
      | None => (acc, count, s)
      end
  | EmptyString => (acc, count, s)
  end.

Definition starts_with_digit (s : string) : bool :=
  match s with
  | String c _ => match digit_of c with Some _ => true | None => false end
  | EmptyString => false
  end.

(** After [e] or [E]: an optional sign and at least one digit. *)
Definition parse_exponent (s : string) : option (Z * string) :=
  match s with
  | String c r =>
      let negative := Ascii.eqb c "-" in
      let digits := if orb negative (Ascii.eqb c "+") then r else s in
      if starts_with_digit digits then
        let '(v, rest) := parse_digits 0 digits in
        Some (if negative then - v else v, rest)
      else None
  | EmptyString => None
  end.

(** Divides [m] by ten while it is a multiple of ten, counting in [e]. *)
Fixpoint strip_zeros (fuel : nat) (m e : Z) : Z * Z :=
  match fuel with
  | O => (m, e)
  | S fuel' =>
      if Z.eqb (m mod 10) 0 then strip_zeros fuel' (m / 10) (e + 1) else (m, e)
  end.

(** The value [m * 10^e]. *)
Definition number_of (m e : Z) : JSONValue :=
  if Z.eqb m 0 then JNumber 0
  else
    let '(m', e') := strip_zeros (S (Z.to_nat (Z.log2 (Z.abs m)))) m e in
    if Z.ltb e' 0 then JDecimal m' e'
    else if Z.ltb e' 21 then
      if Z.ltb (Z.abs (m' * 10 ^ e')) (10 ^ 21) then JNumber (m' * 10 ^ e')
      else JDecimal m' e'
    else JDecimal m' e'.

(** A number: an optional minus sign, the integer part, an optional
    fraction of at least one digit, an optional exponent. *)
Definition parse_number (s : string) : option (JSONValue * string) :=
  let negative := match s with String "-" _ => true | _ => false end in
  let unsigned := match s with String "-" r => r | _ => s end in
  match parse_nat unsigned with
  | None => None
  | Some (int_part, r1) =>
      let fraction :=
        match r1 with
        | String "." r2 =>
            if starts_with_digit r2 then Some (parse_fraction int_part 0 r2)
            else None
        | _ => Some (int_part, 0, r1)
        end in
      match fraction with
      | None => None
      | Some (m, count, r3) =>
          let exponent :=
            match r3 with
            | String c r4 =>
                if orb (Ascii.eqb c "e") (Ascii.eqb c "E")
                then parse_exponent r4
                else Some (0, r3)
            | EmptyString => Some (0, r3)
            end in
          match exponent with
          | None => None
          | Some (ev, r5) =>
              Some (number_of (if negative then - m else m) (ev - count), r5)
          end
      end
  end.

(** A hexadecimal digit of a [\uXXXX] escape. *)
Definition hex_of (c : ascii) : option N :=
  let n := N_of_ascii c in
  if andb (N.leb 48 n) (N.leb n 57) then Some (n - 48)%N
  else if andb (N.leb 65 n) (N.leb n 70) then Some (n - 55)%N
  else if andb (N.leb 97 n) (N.leb n 102) then Some (n - 87)%N
  else None.

Definition hex4 (a b c d : ascii) : option N :=
  match hex_of a, hex_of b, hex_of c, hex_of d with
  | Some x, Some y, Some z, Some w =>
      Some (((x * 16 + y) * 16 + z) * 16 + w)%N
  | _, _, _, _ => None
  end.

(** The UTF-8 encoding of a code point, put in front of [rest]; a lone
    surrogate is encoded like any code point of three bytes. *)
Definition utf8 (cp : N) (rest : string) : string :=
  let byte n := ascii_of_N n in
  if N.ltb cp 128 then String (byte cp) rest
  else if N.ltb cp 2048 then
    String (byte (192 + cp / 64)%N) (String (byte (128 + cp mod 64)%N) rest)
  else if N.ltb cp 65536 then
    String (byte (224 + cp / 4096)%N)
      (String (byte (128 + (cp / 64) mod 64)%N)
         (String (byte (128 + cp mod 64)%N) rest))
  else
    String (byte (240 + cp / 262144)%N)
      (String (byte (128 + (cp / 4096) mod 64)%N)
         (String (byte (128 + (cp / 64) mod 64)%N)
            (String (byte (128 + cp mod 64)%N) rest))).

Definition is_high_surrogate (cu : N) : bool :=
  andb (N.leb 55296 cu) (N.leb cu 56319).

Definition is_low_surrogate (cu : N) : bool :=
  andb (N.leb 56320 cu) (N.leb cu 57343).

(** The body of a string literal, after the opening quote.  A raw control
    character is refused, as [JSON.parse] refuses it.  An escape
    [\uXXXX] is its code unit; a high surrogate followed by the escape of
    a low surrogate is the code point of the pair. *)
Fixpoint parse_chars (s : string) : option (string * string) :=
  match s with
  | EmptyString => None
  | String c r =>
      if Ascii.eqb c dquote then Some (EmptyString, r)
      else if Ascii.eqb c "\" then
        match r with
        | String e r' =>
            if Ascii.eqb e "u" then
              match r' with
              | String h1 (String h2 (String h3 (String h4 r4))) =>
                  match hex4 h1 h2 h3 h4 with
                  | None => None
                  | Some cu =>
                      let alone :=
                        match parse_chars r4 with
                        | Some (body, rest) => Some (utf8 cu body, rest)
                        | None => None
                        end in
                      if is_high_surrogate cu then
                        match r4 with
                        | String b1 (String b2 (String l1 (String l2
                            (String l3 (String l4 r10))))) =>
                            if andb (Ascii.eqb b1 "\") (Ascii.eqb b2 "u") then
                              match hex4 l1 l2 l3 l4 with
                              | Some lo =>
                                  if is_low_surrogate lo then
                                    match parse_chars r10 with
                                    | Some (body, rest) =>
                                        Some (utf8 (65536 + (cu - 55296) * 1024
                                                    + (lo - 56320))%N body, rest)
                                    | None => None
                                    end
                                  else alone
                              | None => alone
                              end
                            else alone
                        | _ => alone
                        end
                      else alone
                  end
              | _ => None
              end
            else
              let unescaped :=
                if Ascii.eqb e dquote then Some dquote
                else if Ascii.eqb e "\" then Some "\"%char
                else if Ascii.eqb e "/" then Some "/"%char
                else if Ascii.eqb e "b" then Some "008"%char
                else if Ascii.eqb e "f" then Some "012"%char
                else if Ascii.eqb e "n" then Some "010"%char
                else if Ascii.eqb e "r" then Some "013"%char
                else if Ascii.eqb e "t" then Some "009"%char
                else None in
              match unescaped, parse_chars r' with
              | Some u, Some (body, rest) => Some (String u body, rest)
              | _, _ => None
              end
        | EmptyString => None
        end
      else if Nat.ltb (nat_of_ascii c) 32 then None
      else
        match parse_chars r with
        | Some (body, rest) => Some (String c body, rest)
        | None => None
        end
  end.

Fixpoint strip_prefix (p s : string) : option string :=
  match p, s with
  | EmptyString, _ => Some s
  | String a p', String b s' => if Ascii.eqb a b then strip_prefix p' s' else None
  | String _ _, EmptyString => None
  end.

(** The members of an object are listed in the order of its own property
    keys: the array indices first, in ascending order, then the other
    keys in the order in which they were created.  An array index is the
    canonical decimal text of an integer from 0 to 2^32 - 2. *)
Definition array_index (k : string) : option Z :=
  match parse_nat k with
  | Some (n, EmptyString) => if Z.ltb n 4294967295 then Some n else None
  | _ => None
  end.

Definition comes_before (k k' : string) : bool :=
  match array_index k, array_index k' with
  | Some n, Some n' => Z.ltb n n'
  | Some _, None => true
  | None, _ => false
  end.

Fixpoint replace_member (k : string) (v : JSONValue)
    (members : list (string * JSONValue)) : option (list (string * JSONValue)) :=
  match members with
  | [] => None
  | (k', v') :: rest =>
      if String.eqb k k' then Some ((k', v) :: rest)
      else option_map (cons (k', v')) (replace_member k v rest)
  end.

Fixpoint insert_member (k : string) (v : JSONValue)
    (members : list (string * JSONValue)) : list (string * JSONValue) :=
  match members with
  | [] => [(k, v)]
  | (k', v') :: rest =>
      if comes_before k k' then (k, v) :: members
      else (k', v') :: insert_member k v rest
  end.

(** Assigning a property: an existing key keeps its place and takes the new
    value; a new key takes its place in the order of the keys. *)
Definition set_member (k : string) (v : JSONValue)
    (members : list (string * JSONValue)) : list (string * JSONValue) :=
  match replace_member k v members with
  | Some members' => members'
  | None => insert_member k v members
  end.

Fixpoint get_member (k : string) (members : list (string * JSONValue))
    : option JSONValue :=
  match members with
  | [] => None
  | (k', v) :: rest => if String.eqb k k' then Some v else get_member k rest
  end.

(** Recursive descent with fuel; every call that spends fuel sits behind at
    least one consumed character of the enclosing construct, and
    [JSON_parse] gives more fuel than the text has characters to spend. *)
Fixpoint parse_value (fuel : nat) (s : string) : option (JSONValue * string) :=
  match fuel with
  | O => None
  | S fuel' =>
      match skip_ws s with
      | EmptyString => None
      | String c r =>
          if Ascii.eqb c "{" then
            match skip_ws r with
            | String "}" rest => Some (JObject [], rest)
            | _ => parse_members fuel' [] r
            end
          else if Ascii.eqb c "[" then
            match skip_ws r with
            | String "]" rest => Some (JArray [], rest)
            | _ => parse_elements fuel' [] r
            end
          else if Ascii.eqb c dquote then
            match parse_chars r with
            | Some (str, rest) => Some (JString str, rest)
            | None => None
            end
          else if Ascii.eqb c "t" then
            option_map (fun rest => (JBool true, rest)) (strip_prefix "rue" r)
          else if Ascii.eqb c "f" then
            option_map (fun rest => (JBool false, rest)) (strip_prefix "alse" r)
          else if Ascii.eqb c "n" then
            option_map (fun rest => (JNull, rest)) (strip_prefix "ull" r)
          else
            parse_number (String c r)
      end
  end

with parse_elements (fuel : nat) (acc : list JSONValue) (s : string)
    : option (JSONValue * string) :=
  match fuel with
  | O => None
  | S fuel' =>
      match parse_value fuel' s with
      | Some (v, rest) =>
          match skip_ws rest with
          | String "," rest' => parse_elements fuel' (acc ++ [v]) rest'
          | String "]" rest' => Some (JArray (acc ++ [v]), rest')
          | _ => None
          end
      | None => None
      end
  end

with parse_members (fuel : nat) (acc : list (string * JSONValue)) (s : string)
    : option (JSONValue * string) :=
  match fuel with
  | O => None
  | S fuel' =>
      match skip_ws s with
      | String c r =>
          if Ascii.eqb c dquote then
            match parse_chars r with
            | Some (key, rest) =>
                match skip_ws rest with
                | String ":" rest' =>
                    match parse_value fuel' rest' with
                    | Some (v, rest'') =>
                        match skip_ws rest'' with
                        | String "," rest3 =>
                            parse_members fuel' (set_member key v acc) rest3
                        | String "}" rest3 =>
                            Some (JObject (set_member key v acc), rest3)
                        | _ => None
                        end
                    | None => None
                    end
                | _ => None
                end
            | None => None
            end
          else None
      | EmptyString => None
      end
  end.

(** [JSON.parse(text)]: [None] stands for the [SyntaxError] it throws. *)
Definition JSON_parse (text : string) : option JSONValue :=
  match parse_value (4 * String.length text + 4) text with
  | Some (v, rest) =>
      match skip_ws rest with
      | EmptyString => Some v
      | String _ _ => None
      end
  | None => None
  end.

Definition Z_to_string (n : Z) : string :=
  NilZero.string_of_int (Z.to_int n).

Fixpoint zeros (n : nat) : string :=
  match n with
  | O => ""
  | S n' => String "0" (zeros n')
  end.

(** The first [n] characters of a string, and the rest. *)
Fixpoint split_at (n : nat) (s : string) : string * string :=
  match n, s with
  | S n', String c r => let '(front, back) := split_at n' r in (String c front, back)
  | _, _ => ("", s)
  end.

(** [String(x)] of the number [m * 10^e], [m] not a multiple of ten, by
    Number::toString of ECMA-262: with [k] digits and the decimal point
    after [n = k + e] of them, plain digits when [0 < n <= 21], a leading
    [0.] when [-6 < n <= 0], exponent notation otherwise. *)
Definition decimal_to_string (m e : Z) : string :=
  let digits := Z_to_string (Z.abs m) in
  let k := Z.of_nat (String.length digits) in
  let n := k + e in
  let sign := if Z.ltb m 0 then "-" else "" in
  sign ++
  (if andb (Z.leb k n) (Z.leb n 21) then digits ++ zeros (Z.to_nat (n - k))
   else if andb (Z.ltb 0 n) (Z.leb n 21) then
     let '(front, back) := split_at (Z.to_nat n) digits in
     front ++ "." ++ back
   else if andb (Z.ltb (-6) n) (Z.leb n 0) then
     "0." ++ zeros (Z.to_nat (- n)) ++ digits
   else
     let '(front, back) := split_at 1 digits in
     front ++ (if Z.eqb k 1 then "" else "." ++ back)
       ++ "e" ++ (if Z.ltb (n - 1) 0 then "-" else "+")
       ++ Z_to_string (Z.abs (n - 1))).

(** [String(v)], the ToString conversion of JavaScript: a string is itself,
    an array joins its elements with commas ([null] elements print as
    nothing), any other object prints as [[object Object]]. *)
Fixpoint toString (v : JSONValue) : string :=
  match v with
  | JNull => "null"
  | JBool true => "true"
  | JBool false => "false"
  | JNumber n => Z_to_string n
  | JDecimal m e => decimal_to_string m e
  | JString s => s
  | JArray elements =>
      (fix join (l : list JSONValue) : string :=
         match l with
         | [] => ""
         | x :: r =>
             let sx := match x with JNull => "" | _ => toString x end in
             match r with
             | [] => sx
             | _ :: _ => sx ++ "," ++ join r
             end
         end) elements
  | JObject _ => "[object Object]"
  end.

End JSON.
Export JSON.

(** ** Data model

    The types the worker imports ([ChatMessage], [BaseTool], [ToolOutput],
    [Task], [TaskStep], [TaskStepOutput], [ChatMemoryBuffer]) are declared
    outside [worker.ts]; their shapes follow the uses the worker makes of
    them and the data model of the specification. *)

(** A thrown JavaScript value.  [Error] is [new Error(message)];
    [SyntaxError] is what [JSON.parse] throws; [TypeError] is a property
    read on [undefined]. *)
Inductive exn : Type :=
| Error (message : string)
| SyntaxError (message : string)
| TypeError (message : string).

Inductive MessageType : Type :=
| system
| user
| assistant
| tool.

(** [toolCall.function]: the target name and the serialized arguments. *)
Record FunctionCall : Type := {
  name : string;
  arguments : string
}.

(** A tool call request of the assistant message.  [function] is optional
    in the embedding because the worker guards against its absence. *)
Record OpenAIToolCall : Type := {
  id : string;
  function : option FunctionCall
}.

(** [additionalKwargs] of a message: an assistant message carries
    [toolCalls], a tool message carries [name] and [tool_call_id]. *)
Record AdditionalKwargs : Type := {
  toolCalls : option (list OpenAIToolCall);
  kw_name : option string;
  tool_call_id : option string
}.

Record ChatMessage : Type := {
  content : string;
  role : MessageType;
  additionalKwargs : option AdditionalKwargs
}.

Record ChatResponse : Type := {
  message : ChatMessage
}.

Record ToolMetadata : Type := {
  tool_name : string;
  description : string;
  parameters : option JSONValue
}.

(** A tool: its advertisement and one invoke operation on a parsed
    argument object, which returns a result or throws. *)
Record BaseTool : Type := {
  metadata : ToolMetadata;
  call : JSONValue -> exn + JSONValue
}.

(** Modelled from the spec: [ToolOutput] of [tools/types.ts] is not among
    the sources.  Section 3: a tool output is the raw tool result, a
    success/error indicator and a human-readable summary; [String(output)]
    is that summary. *)
Record ToolOutput : Type := {
  summary : string;
  toolName : string;
  rawInput : JSONValue;
  rawOutput : option JSONValue;
  isError : bool
}.

Definition ToolOutput_toString (output : ToolOutput) : string :=
  summary output.

(** Modelled from the spec: [OpenAiFunction] and [toOpenAiTool] of
    [agent/openai/utils.ts] are not among the sources.  Section 4.2, step
    3: a tool schema is the name, the description and the JSON parameter
    schema of the tool. *)
Record OpenAiFunction : Type := {
  schema_name : string;
  schema_description : string;
  schema_parameters : option JSONValue
}.

Definition toOpenAiTool (name_ description_ : string)
    (parameters_ : option JSONValue) : OpenAiFunction :=
  {| schema_name := name_;
     schema_description := description_;
     schema_parameters := parameters_ |}.

(** [toolChoice: string | { [key: string]: any }]. *)
Inductive ToolChoice : Type :=
| ChoiceString (s : string)
| ChoiceObject (o : JSONValue).

(** The object [_getLlmChatKwargs] builds: [tools] and [toolChoice] are
    keys that may be absent. *)
Record LlmChatKwargs : Type := {
  messages : list ChatMessage;
  tools : option (list OpenAiFunction);
  toolChoice : option ToolChoice
}.

(** The argument of [llm.chat]: [{ stream: false, ...llmChatKwargs }]. *)
Record ChatParams : Type := {
  stream : bool;
  kwargs : LlmChatKwargs
}.

(** The LLM client: [chat] answers a request with a response or throws (a
    transport error). *)
Record OpenAI : Type := {
  model : string;
  chat : ChatParams -> exn + ChatResponse
}.

Record ObjectRetriever : Type := {
  retrieve : string -> list BaseTool
}.

Inductive ChatResponseMode : Type :=
| WAIT
| STREAM.

Record AgentChatResponse : Type := {
  response : string;
  response_sources : list ToolOutput
}.

(** A value that may be [null] or [undefined], which JavaScript keeps
    apart. *)
Inductive Nullish (A : Type) : Type :=
| js_null
| js_undefined
| js_value (a : A).

Arguments js_null {A}.
Arguments js_undefined {A}.
Arguments js_value {A} a.

(** Reading a property that may be absent: an absent property reads as
    [undefined]. *)
Definition property {A : Type} (o : option A) : Nullish A :=
  match o with
  | Some a => js_value a
  | None => js_undefined
  end.

(** [x || d] for an [x] that is an array, [null] or [undefined]: an array
    is truthy, also when it is empty. *)
Definition orElse {A : Type} (x : Nullish (list A)) (d : list A) : list A :=
  match x with
  | js_value l => l
  | js_null | js_undefined => d
  end.

(** JavaScript truthiness of a [string | undefined]: defined and not the
    empty string. *)
Definition truthy (s : option string) : bool :=
  match s with
  | Some str => negb (String.eqb str "")
  | None => false
  end.

Definition truthyChoice (c : option ToolChoice) : bool :=
  match c with
  | Some (ChoiceString s) => negb (String.eqb s "")
  | Some (ChoiceObject _) => true
  | None => false
  end.

(** Modelled from the spec: [ChatMemoryBuffer] of
    [memory/ChatMemoryBuffer.ts] is not among the sources.  Section 4.1:
    [get] returns the full ordered message sequence, [put] appends one
    message, [getAll] is equivalent to [get], [reset] clears all messages;
    Section 3: the sequence is replaceable wholesale, which is [set]. *)
Module ChatMemoryBuffer.

Record t : Type := { chatHistory : list ChatMessage }.

Definition new : t := {| chatHistory := [] |}.
Definition get (m : t) : list ChatMessage := chatHistory m.
Definition getAll (m : t) : list ChatMessage := get m.
Definition put (msg : ChatMessage) (m : t) : t :=
  {| chatHistory := chatHistory m ++ [msg] |}.
Definition set (msgs : list ChatMessage) (_ : t) : t :=
  {| chatHistory := msgs |}.
Definition reset (_ : t) : t := {| chatHistory := [] |}.

End ChatMemoryBuffer.

(** Modelled from the spec: [TaskStep] of [agent/types.ts] is not among the
    sources.  Section 3: a step is its task id, its own step id and an
    optional input; [getNextStep] makes the successor step of the same
    task. *)
Module TaskStep.

Record t : Type := {
  taskId : string;
  stepId : string;
  input : option string
}.

Definition getNextStep (step : t) (stepId_ : string) (input_ : option string) : t :=
  {| taskId := taskId step; stepId := stepId_; input := input_ |}.

End TaskStep.

(** The three keys [initializeStep] puts into [task.extraState]. *)
Record ExtraState : Type := {
  sources : list ToolOutput;
  nFunctionCalls : Z;
  newMemory : ChatMemoryBuffer.t
}.

(** The task: the persistent memory [memory] and the scratch state
    [extraState].  [initializeStep] allocates the scratch memory with
    [new ChatMemoryBuffer()], an object of its own; the two buffers are
    two fields here. *)
Module Task.

Record t : Type := {
  taskId : string;
  input : string;
  memory : ChatMemoryBuffer.t;
  extraState : ExtraState
}.

Definition with_extraState (es : ExtraState) (task : t) : t :=
  {| taskId := taskId task; input := input task;
     memory := memory task; extraState := es |}.

Definition with_memory (m : ChatMemoryBuffer.t) (task : t) : t :=
  {| taskId := taskId task; input := input task;
     memory := m; extraState := extraState task |}.

End Task.

Module TaskStepOutput.

Record t : Type := {
  output : AgentChatResponse;
  taskStep : TaskStep.t;
  nextSteps : list TaskStep.t;
  isDone : bool
}.

End TaskStepOutput.

(** ** State and exceptions

    The world a worker method runs in: the task it was handed, mutated in
    place, and the log of the requests sent to the LLM endpoint so far (a
    record of the calls [llm.chat] received, kept to state what a step
    sends).  A method either returns a value or throws; in both cases the
    world keeps the mutations done so far. *)

Record World : Type := {
  task : Task.t;
  llmRequests : list ChatParams
}.

Definition M (A : Type) : Type := World -> (exn + A) * World.

Definition ret {A : Type} (a : A) : M A := fun w => (inr a, w).

Definition bind {A B : Type} (m : M A) (k : A -> M B) : M B :=
  fun w =>
    match m w with
    | (inr a, w') => k a w'
    | (inl e, w') => (inl e, w')
    end.

Definition throw {A : Type} (e : exn) : M A := fun w => (inl e, w).

Notation "x <- m ;; k" := (bind m (fun x => k))
  (at level 61, m at next level, right associativity).
Notation "m ;; k" := (bind m (fun _ => k))
  (at level 61, right associativity).

Definition getTask : M Task.t := fun w => (inr (task w), w).

Definition putTask (t : Task.t) : M unit :=
  fun w => (inr tt, {| task := t; llmRequests := llmRequests w |}).

Definition modifyExtraState (f : ExtraState -> ExtraState) : M unit :=
  t <- getTask ;; putTask (Task.with_extraState (f (Task.extraState t)) t).

(** [llm.chat(params)]: the request is logged, then answered. *)
Definition callLlm (llm : OpenAI) (params : ChatParams) : M ChatResponse :=
  fun w =>
    (chat llm params,
     {| task := task w; llmRequests := llmRequests w ++ [params] |}).

(** [for (const x of l) { body }]: the first throw ends the loop. *)
Fixpoint forEach {A : Type} (l : list A) (body : A -> M unit) : M unit :=
  match l with
  | [] => ret tt
  | x :: rest => body x ;; forEach rest body
  end.

(** ** Helpers imported by the worker *)

(** Modelled from the spec: [getFunctionByName] of [agent/utils.ts] is not
    among the sources.  Section 4.4: the tool is located by exact name
    match, and may be absent.  Of several tools of one name the first is
    taken. *)
Definition getFunctionByName (tools_ : list BaseTool) (name_ : string)
    : option BaseTool :=
  find (fun tool_ => String.eqb (tool_name (metadata tool_)) name_) tools_.

Definition exn_message (e : exn) : string :=
  match e with
  | Error m => "Error: " ++ m
  | SyntaxError m => "SyntaxError: " ++ m
  | TypeError m => "TypeError: " ++ m
  end.

(** Modelled from the spec: [callToolWithErrorHandling] of [tools/utils.ts]
    is not among the sources.  Section 4.4: an absent tool gives a
    [ToolOutput] flagged as an error with a descriptive message; a present
    tool is invoked with the parsed argument object and a failure of the
    invocation is wrapped as an error-flagged [ToolOutput] rather than
    propagated.  Section 4.2: an output that is not a string is coerced to
    its string representation.  [errorMessage], when given, replaces the
    default message. *)
Definition callToolWithErrorHandling (tool_ : option BaseTool)
    (inputDict : JSONValue) (errorMessage : option string) : ToolOutput :=
  match tool_ with
  | None =>
      {| summary := match errorMessage with
                    | Some m => m
                    | None => "Error: tool not found"
                    end;
         toolName := "";
         rawInput := inputDict;
         rawOutput := None;
         isError := true |}
  | Some t =>
      match call t inputDict with
      | inr value =>
          {| summary := JSON.toString value;
             toolName := tool_name (metadata t);
             rawInput := inputDict;
             rawOutput := Some value;
             isError := false |}
      | inl e =>
          {| summary := match errorMessage with
                        | Some m => m
                        | None => "Error: " ++ exn_message e
                        end;
             toolName := tool_name (metadata t);
             rawInput := inputDict;
             rawOutput := None;
             isError := true |}
      end
  end.

(** Modelled from the spec: [addUserStepToMemory] of [agent/utils.ts] is
    not among the sources.  Section 4.2, step 2: the input of the step is
    appended to the memory as a user message. *)
Definition addUserStepToMemory (step : TaskStep.t) (memory_ : ChatMemoryBuffer.t)
    (verbose : bool) : ChatMemoryBuffer.t :=
  match TaskStep.input step with
  | Some text =>
      ChatMemoryBuffer.put
        {| content := text; role := user; additionalKwargs := None |} memory_
  | None => memory_
  end.

(** ** [worker.ts] *)

Definition DEFAULT_MAX_FUNCTION_CALLS : Z := 5.

(** The module-level [callFunction(tools, toolCall, verbose)]: returns the
    tool-role message and the tool output, or throws.  The statements are
    in the order of the source: the tool is looked up, then the arguments
    are parsed (outside of any handler), then the tool is called. *)
Definition callFunction (tools_ : list BaseTool) (toolCall : OpenAIToolCall)
    (verbose : bool) : exn + (ChatMessage * ToolOutput) :=
  let id_ := id toolCall in
  match function toolCall with
  | None => inl (TypeError "Cannot read properties of undefined")
  | Some functionCall =>
      let name_ := name functionCall in
      let argumentsStr := arguments functionCall in
      let tool_ := getFunctionByName tools_ name_ in
      match JSON_parse argumentsStr with
      | None => inl (SyntaxError "Unexpected token in JSON")
      | Some argumentDict =>
          let output_ := callToolWithErrorHandling tool_ argumentDict None in
          inr ({| content := ToolOutput_toString output_;
                  role := tool;
                  additionalKwargs :=
                    Some {| toolCalls := None;
                            kw_name := Some name_;
                            tool_call_id := Some id_ |} |},
               output_)
      end
  end.

Record OpenAIAgentWorkerParams : Type := {
  p_tools : list BaseTool;
  p_llm : option OpenAI;
  p_prefixMessages : option (list ChatMessage);
  p_verbose : option bool;
  p_maxFunctionCalls : option Z;
  p_toolRetriever : option ObjectRetriever
}.

(** [kwargs] of [runStep] and [streamStep]; only [toolChoice] is read. *)
Record StepKwargs : Type := {
  kw_toolChoice : option ToolChoice
}.

Module OpenAIAgentWorker.

Record t : Type := {
  _llm : OpenAI;
  _verbose : bool;
  _maxFunctionCalls : Z;
  prefixMessages : list ChatMessage;
  _getTools : string -> list BaseTool
}.

(** The constructor.  [newOpenAI] stands for [new OpenAI({ model })], the
    client built when no [llm] is given.  A throw leaves no worker. *)
Definition constructor (newOpenAI : string -> OpenAI)
    (params : OpenAIAgentWorkerParams) : exn + t :=
  let llm_ := match p_llm params with
              | Some l => l
              | None => newOpenAI "gpt-3.5-turbo-1106"
              end in
  let verbose_ := match p_verbose params with
                  | Some b => b
                  | None => false
                  end in
  let maxFunctionCalls_ := match p_maxFunctionCalls params with
                           | Some n => n
                           | None => DEFAULT_MAX_FUNCTION_CALLS
                           end in
  let prefixMessages_ := match p_prefixMessages params with
                         | Some l => l
                         | None => []
                         end in
  let make getTools_ :=
    {| _llm := llm_; _verbose := verbose_;
       _maxFunctionCalls := maxFunctionCalls_;
       prefixMessages := prefixMessages_;
       _getTools := getTools_ |} in
  let tools_ := p_tools params in
  if andb (Nat.ltb 0 (List.length tools_))
          (match p_toolRetriever params with Some _ => true | None => false end)
  then inl (Error "Cannot specify both tools and tool_retriever")
  else if Nat.ltb 0 (List.length tools_)
  then inr (make (fun _ => tools_))
  else match p_toolRetriever params with
       | Some toolRetriever => inr (make (fun message_ => retrieve toolRetriever message_))
       | None => inr (make (fun _ => []))
       end.

Definition getAllMessages (self : t) (task_ : Task.t) : list ChatMessage :=
  (prefixMessages self
     ++ ChatMemoryBuffer.get (Task.memory task_)
     ++ ChatMemoryBuffer.get (newMemory (Task.extraState task_)))%list.

(** [null] on an empty history; otherwise
    [chatHistory[chatHistory.length - 1].additionalKwargs?.toolCalls],
    which is [undefined] when the last message has no [additionalKwargs]
    or no [toolCalls].  The index [length - 1] of a non-empty array is
    always in range. *)
Definition getLatestToolCalls (self : t) (task_ : Task.t)
    : Nullish (list OpenAIToolCall) :=
  let chatHistory := ChatMemoryBuffer.getAll (newMemory (Task.extraState task_)) in
  if Nat.eqb (List.length chatHistory) 0 then js_null
  else
    match nth_error chatHistory (List.length chatHistory - 1) with
    | Some last_ =>
        match additionalKwargs last_ with
        | Some kw => property (toolCalls kw)
        | None => js_undefined
        end
    | None => js_undefined
    end.

(** The default ["auto"] of the parameter [toolChoice] applies when the
    argument is omitted; [_runStep], the only caller, always passes it. *)
Definition _getLlmChatKwargs (self : t) (task_ : Task.t)
    (openaiTools : list OpenAiFunction) (toolChoice_ : ToolChoice)
    : LlmChatKwargs :=
  if Nat.ltb 0 (List.length openaiTools)
  then {| messages := getAllMessages self task_;
          tools := Some openaiTools;
          toolChoice := Some toolChoice_ |}
  else {| messages := getAllMessages self task_;
          tools := None;
          toolChoice := None |}.

(** The response holds the array [task.extraState.sources] itself, not a
    copy: [response_sources] is its content when the response is made, and
    [_runStep] returns it as it is at the end of the step. *)
Definition _processMessage (self : t) (chatResponse : ChatResponse)
    : M AgentChatResponse :=
  let aiMessage := message chatResponse in
  modifyExtraState (fun es =>
    {| sources := sources es;
       nFunctionCalls := nFunctionCalls es;
       newMemory := ChatMemoryBuffer.put aiMessage (newMemory es) |}) ;;
  task_ <- getTask ;;
  ret {| response := content aiMessage;
         response_sources := sources (Task.extraState task_) |}.

Definition _getAgentResponse (self : t) (mode : ChatResponseMode)
    (llmChatKwargs : LlmChatKwargs) : M AgentChatResponse :=
  match mode with
  | WAIT =>
      chatResponse <- callLlm (_llm self)
                        {| stream := false; kwargs := llmChatKwargs |} ;;
      _processMessage self chatResponse
  | STREAM => throw (Error "Not implemented")
  end.

(** The method [callFunction(tools, toolCall, memory, sources)].  [memory]
    and [sources] are objects of the caller, mutated in place: the result
    is their content after the call.  Both mutations come last, so a throw
    leaves them as they were. *)
Definition callFunction (self : t) (tools_ : list BaseTool)
    (toolCall : OpenAIToolCall) (memory_ : ChatMemoryBuffer.t)
    (sources_ : list ToolOutput)
    : exn + (ChatMemoryBuffer.t * list ToolOutput) :=
  match function toolCall with
  | None => inl (Error "Invalid tool_call object")
  | Some _ =>
      match callFunction tools_ toolCall (_verbose self) with
      | inl e => inl e
      | inr functionMessage =>
          let message_ := fst functionMessage in
          let toolOutput := snd functionMessage in
          inr (ChatMemoryBuffer.put message_ memory_,
               (sources_ ++ [toolOutput])%list)
      end
  end.

(** [initializeStep(task)]: [uuid] is the value of [randomUUID()]. *)
Definition initializeStep (self : t) (uuid : string) (task_ : Task.t)
    : TaskStep.t * Task.t :=
  let taskState := {| sources := [];
                      nFunctionCalls := 0;
                      newMemory := ChatMemoryBuffer.new |} in
  ({| TaskStep.taskId := Task.taskId task_;
      TaskStep.stepId := uuid;
      TaskStep.input := Some (Task.input task_) |},
   Task.with_extraState taskState task_).

Definition _shouldContinue (self : t) (toolCalls_ : option (list OpenAIToolCall))
    (nFunctionCalls_ : Z) : bool :=
  if Z.ltb (_maxFunctionCalls self) nFunctionCalls_ then false
  else
    match toolCalls_ with
    | None => false
    | Some l => if Nat.eqb (List.length l) 0 then false else true
    end.

Definition getTools (self : t) (input_ : string) : list BaseTool :=
  _getTools self input_.

(** One tool call of the batch: [callFunction] on the task's scratch memory
    and sources, then the counter. *)
Definition dispatch (self : t) (tools_ : list BaseTool)
    (toolCall : OpenAIToolCall) : M unit :=
  task_ <- getTask ;;
  match callFunction self tools_ toolCall
          (newMemory (Task.extraState task_))
          (sources (Task.extraState task_)) with
  | inl e => throw e
  | inr (memory', sources') =>
      modifyExtraState (fun es =>
        {| sources := sources';
           nFunctionCalls := nFunctionCalls es;
           newMemory := memory' |}) ;;
      modifyExtraState (fun es =>
        {| sources := sources es;
           nFunctionCalls := nFunctionCalls es + 1;
           newMemory := newMemory es |})
  end.

(** [_runStep(step, task, mode, toolChoice)]; [uuid] is the value of
    [randomUUID()] for the successor step. *)
Definition _runStep (self : t) (uuid : string) (step : TaskStep.t)
    (mode : ChatResponseMode) (toolChoice_ : ToolChoice)
    : M TaskStepOutput.t :=
  task0 <- getTask ;;
  let tools_ := getTools self (Task.input task0) in
  (if truthy (TaskStep.input step)
   then modifyExtraState (fun es =>
          {| sources := sources es;
             nFunctionCalls := nFunctionCalls es;
             newMemory := addUserStepToMemory step (newMemory es) (_verbose self) |})
   else ret tt) ;;
  let openaiTools :=
    if truthy (TaskStep.input step)
    then map (fun tool_ =>
                toOpenAiTool (tool_name (metadata tool_))
                             (description (metadata tool_))
                             (parameters (metadata tool_))) tools_
    else [] in
  task1 <- getTask ;;
  let llmChatKwargs := _getLlmChatKwargs self task1 openaiTools toolChoice_ in
  agentChatResponse <- _getAgentResponse self mode llmChatKwargs ;;
  task2 <- getTask ;;
  let latestToolCalls := orElse (getLatestToolCalls self task2) [] in
  if negb (_shouldContinue self (Some latestToolCalls)
             (nFunctionCalls (Task.extraState task2)))
  then
    task3 <- getTask ;;
    ret {| TaskStepOutput.output :=
             {| response := response agentChatResponse;
                response_sources := sources (Task.extraState task3) |};
           TaskStepOutput.taskStep := step;
           TaskStepOutput.nextSteps := [];
           TaskStepOutput.isDone := true |}
  else
    forEach latestToolCalls (dispatch self tools_) ;;
    task3 <- getTask ;;
    ret {| TaskStepOutput.output :=
             {| response := response agentChatResponse;
                response_sources := sources (Task.extraState task3) |};
           TaskStepOutput.taskStep := step;
           TaskStepOutput.nextSteps := [TaskStep.getNextStep step uuid None];
           TaskStepOutput.isDone := false |}.

Definition auto : ToolChoice := ChoiceString "auto".

(** [kwargs?.toolChoice || "auto"]. *)
Definition toolChoiceOf (kw : option StepKwargs) : ToolChoice :=
  match kw with
  | Some k =>
      match kw_toolChoice k with
      | Some c => if truthyChoice (Some c) then c else auto
      | None => auto
      end
  | None => auto
  end.

Definition runStep (self : t) (uuid : string) (step : TaskStep.t)
    (kw : option StepKwargs) : M TaskStepOutput.t :=
  _runStep self uuid step WAIT (toolChoiceOf kw).

Definition streamStep (self : t) (uuid : string) (step : TaskStep.t)
    (kw : option StepKwargs) : M TaskStepOutput.t :=
  _runStep self uuid step STREAM (toolChoiceOf kw).

Definition finalizeTask (self : t) (task_ : Task.t) : Task.t :=
  let task' :=
    Task.with_memory
      (ChatMemoryBuffer.set
         (ChatMemoryBuffer.get (Task.memory task_)
            ++ ChatMemoryBuffer.get (newMemory (Task.extraState task_)))%list
         (Task.memory task_))
      task_ in
  Task.with_extraState
    {| sources := sources (Task.extraState task');
       nFunctionCalls := nFunctionCalls (Task.extraState task');
       newMemory := ChatMemoryBuffer.reset (newMemory (Task.extraState task')) |}
    task'.

End OpenAIAgentWorker.

(** ** Notions used to state the properties *)

(** The tool calls an LLM response requests: the [toolCalls] of its
    message, none when the key is absent. *)
Definition requestedToolCalls (r : ChatResponse) : list OpenAIToolCall :=
  match additionalKwargs (message r) with
  | Some kw => match toolCalls kw with
               | Some l => l
               | None => []
               end
  | None => []
  end.

(** The tool schemas of a tool set, as [_runStep] maps them. *)
Definition schemasOf (tools_ : list BaseTool) : list OpenAiFunction :=
  map (fun tool_ =>
         toOpenAiTool (tool_name (metadata tool_))
                      (description (metadata tool_))
                      (parameters (metadata tool_))) tools_.

(** The task once the input of the step, when it has one, is in scratch
    memory as a user message. *)
Definition afterUserStep (self : OpenAIAgentWorker.t) (step : TaskStep.t)
    (t : Task.t) : Task.t :=
  if truthy (TaskStep.input step)
  then Task.with_extraState
         {| sources := sources (Task.extraState t);
            nFunctionCalls := nFunctionCalls (Task.extraState t);
            newMemory := addUserStepToMemory step (newMemory (Task.extraState t))
                           (OpenAIAgentWorker._verbose self) |} t
  else t.

(** The task once a message is appended to scratch memory. *)
Definition afterPut (msg : ChatMessage) (t : Task.t) : Task.t :=
  Task.with_extraState
    {| sources := sources (Task.extraState t);
       nFunctionCalls := nFunctionCalls (Task.extraState t);
       newMemory := ChatMemoryBuffer.put msg (newMemory (Task.extraState t)) |} t.

(** The request a step in mode [WAIT] sends to the LLM from task [t]. *)
Definition requestOf (self : OpenAIAgentWorker.t) (step : TaskStep.t)
    (choice : ToolChoice) (t : Task.t) : ChatParams :=
  {| stream := false;
     kwargs :=
       OpenAIAgentWorker._getLlmChatKwargs self (afterUserStep self step t)
         (if truthy (TaskStep.input step)
          then schemasOf (OpenAIAgentWorker.getTools self (Task.input t))
          else [])
         choice |}.

(** The task once the results of a batch of tool calls are recorded: one
    tool output and one tool-role message per call, in order, and the
    counter advanced by the size of the batch. *)
Definition afterBatch (results : list (ChatMessage * ToolOutput)) (t : Task.t)
    : Task.t :=
  Task.with_extraState
    {| sources := (sources (Task.extraState t) ++ map snd results)%list;
       nFunctionCalls :=
         nFunctionCalls (Task.extraState t) + Z.of_nat (List.length results);
       newMemory :=
         {| ChatMemoryBuffer.chatHistory :=
              (ChatMemoryBuffer.get (newMemory (Task.extraState t))
                 ++ map fst results)%list |} |} t.

(** What a step leaves alone in a task: the persistent memory, the task id
    and the input. *)
Definition sameFrame (t t' : Task.t) : Prop :=
  Task.memory t' = Task.memory t
  /\ Task.taskId t' = Task.taskId t
  /\ Task.input t' = Task.input t.

(** The tasks a worker configuration can bring about: a task is
    initialized, then stepped any number of times, in either mode, by
    workers whose bound is [maxCalls] and whose LLM never requests more
    than [batch] tool calls in one response.  The LLM, the tools and the
    step may differ from step to step; a step that throws still leaves its
    task behind. *)
Inductive reachable (maxCalls : Z) (batch : nat) : Task.t -> Prop :=
| reach_init : forall self uuid task0,
    reachable maxCalls batch (snd (OpenAIAgentWorker.initializeStep self uuid task0))
| reach_step : forall self uuid step mode choice task0 log,
    OpenAIAgentWorker._maxFunctionCalls self = maxCalls ->
    (forall req resp,
        chat (OpenAIAgentWorker._llm self) req = inr resp ->
        (List.length (requestedToolCalls resp) <= batch)%nat) ->
    reachable maxCalls batch task0 ->
    reachable maxCalls batch
      (task (snd (OpenAIAgentWorker._runStep self uuid step mode choice
                    {| task := task0; llmRequests := log |}))).

(** ** A concrete agent

    The example script of the repository: one tool [sumNumbers] that adds
    [a] and [b], and the question ["sum 2 + 2?"]. *)
Module SumAgent.

(** [function sumNumbers({ a, b }) { return a + b; }] on integer
    arguments.  Arguments that are not two integers leave the integer
    fragment (JavaScript would add doubles, concatenate strings or
    produce [NaN]); the embedding reports them as a thrown [TypeError]. *)
Definition sumNumbers (args : JSONValue) : exn + JSONValue :=
  match args with
  | JObject members =>
      match get_member "a" members, get_member "b" members with
      | Some (JNumber a), Some (JNumber b) => inr (JNumber (a + b))
      | _, _ => inl (TypeError "sumNumbers: arguments are not two integers")
      end
  | _ => inl (TypeError "sumNumbers: arguments are not two integers")
  end.

Definition functionTool : BaseTool :=
  {| metadata := {| tool_name := "sumNumbers";
                    description := "Sum two numbers";
                    parameters := None |};
     call := sumNumbers |}.

(** The payload [{"a":2,"b":2}]. *)
Definition args_2_2 : string :=
  "{" ++ quoted "a" ++ ":2," ++ quoted "b" ++ ":2}".

(** A payload with a fraction, an exponent and an escaped character:
    [{"a":1.5,"b":2e0,"note":"\u00e9"}]. *)
Definition args_decimal : string :=
  "{" ++ quoted "a" ++ ":1.5," ++ quoted "b" ++ ":2e0,"
      ++ quoted "note" ++ ":" ++ quoted "\u00e9" ++ "}".

(** A payload cut off in the middle: [{"a":2,"b":]. *)
Definition args_truncated : string :=
  "{" ++ quoted "a" ++ ":2," ++ quoted "b" ++ ":".

Definition toolCallTo (id_ name_ args : string) : OpenAIToolCall :=
  {| id := id_; function := Some {| name := name_; arguments := args |} |}.

Definition assistantMessage (text : string) (calls : option (list OpenAIToolCall))
    : ChatMessage :=
  {| content := text; role := assistant;
     additionalKwargs :=
       match calls with
       | Some l => Some {| toolCalls := Some l; kw_name := None;
                           tool_call_id := None |}
       | None => None
       end |}.

(** Six requests for [sumNumbers] in one response. *)
Definition sixCalls : list OpenAIToolCall :=
  map (fun id_ => toolCallTo id_ "sumNumbers" args_2_2)
      ["call-1"; "call-2"; "call-3"; "call-4"; "call-5"; "call-6"].

(** An LLM that always gives the same response. *)
Definition fixedLlm (r : ChatResponse) : OpenAI :=
  {| model := "fixed"; chat := fun _ => inr r |}.

(** An LLM that asks for [calls] while the conversation ends with a user
    message, and afterwards answers in text, saying whether the request
    carried tool schemas. *)
Definition scriptedLlm (calls : list OpenAIToolCall) : OpenAI :=
  {| model := "scripted";
     chat := fun params =>
       match last (map role (messages (kwargs params))) system with
       | user => inr {| message := assistantMessage "" (Some calls) |}
       | _ =>
           match tools (kwargs params) with
           | Some _ => inr {| message := assistantMessage "with tools" None |}
           | None => inr {| message := assistantMessage "without tools" None |}
           end
       end |}.

(** An LLM that asks for [first] while the conversation ends with a user
    message, and for [later] afterwards. *)
Definition twoPhaseLlm (first later : list OpenAIToolCall) : OpenAI :=
  {| model := "two-phase";
     chat := fun params =>
       match last (map role (messages (kwargs params))) system with
       | user => inr {| message := assistantMessage "" (Some first) |}
       | _ => inr {| message := assistantMessage "" (Some later) |}
       end |}.

(** The client [new OpenAI({ model })] of a worker made without [llm]; it
    is not reached by the examples below. *)
Definition newOpenAI (model_ : string) : OpenAI :=
  {| model := model_; chat := fun _ => inl (Error "no network") |}.

Definition workerOf (llm : OpenAI) (tools_ : list BaseTool) (maxCalls : option Z)
    : exn + OpenAIAgentWorker.t :=
  OpenAIAgentWorker.constructor newOpenAI
    {| p_tools := tools_; p_llm := Some llm; p_prefixMessages := None;
       p_verbose := Some true; p_maxFunctionCalls := maxCalls;
       p_toolRetriever := None |}.

(** A worker as the constructor makes it from a non-empty tool list. *)
Definition workerWith (llm : OpenAI) (tools_ : list BaseTool) (maxCalls : Z)
    : OpenAIAgentWorker.t :=
  {| OpenAIAgentWorker._llm := llm;
     OpenAIAgentWorker._verbose := true;
     OpenAIAgentWorker._maxFunctionCalls := maxCalls;
     OpenAIAgentWorker.prefixMessages := [];
     OpenAIAgentWorker._getTools := fun _ => tools_ |}.

(** A task as the agent creates it, before [initializeStep]. *)
Definition freshTask (question : string) : Task.t :=
  {| Task.taskId := "task-1";
     Task.input := question;
     Task.memory := ChatMemoryBuffer.new;
     Task.extraState := {| sources := []; nFunctionCalls := 0;
                           newMemory := ChatMemoryBuffer.new |} |}.

(** The first step of a task on [question] and the world it starts in. *)
Definition firstStep (self : OpenAIAgentWorker.t) (question : string) : TaskStep.t :=
  fst (OpenAIAgentWorker.initializeStep self "step-0" (freshTask question)).

Definition startWorld (self : OpenAIAgentWorker.t) (question : string) : World :=
  {| task := snd (OpenAIAgentWorker.initializeStep self "step-0" (freshTask question));
     llmRequests := [] |}.

(** [runStep] on [step] and then on each successor step, [n] steps at
    most: the step that would run next and the world it would run in. *)
Fixpoint advance (self : OpenAIAgentWorker.t) (n : nat) (step : TaskStep.t)
    (w : World) : TaskStep.t * World :=
  match n with
  | O => (step, w)
  | S n' =>
      match OpenAIAgentWorker.runStep self "step-id" step None w with
      | (inr out, w') =>
          match TaskStepOutput.nextSteps out with
          | next :: _ => advance self n' next w'
          | [] => (step, w')
          end
      | (inl _, w') => (step, w')
      end
  end.

End SumAgent.

Import SumAgent.


(** ** Further notions on steps *)

(** The user message a step puts into scratch memory: one when the input
    of the step is defined and not the empty string, none otherwise. *)
Definition userMessagesOf (step : TaskStep.t) : list ChatMessage :=
  match TaskStep.input step with
  | Some text =>
      if String.eqb text "" then []
      else [{| content := text; role := user; additionalKwargs := None |}]
  | None => []
  end.

(** [continues self n w w']: from world [w], [n] calls of [runStep] in a
    row, each on some step, each returning an output that is not done,
    lead to world [w']. *)
Inductive continues (self : OpenAIAgentWorker.t) : nat -> World -> World -> Prop :=
| continues_O : forall w, continues self O w w
| continues_S : forall n w w1 w2 uuid step kw out,
    OpenAIAgentWorker.runStep self uuid step kw w = (inr out, w1) ->
    TaskStepOutput.isDone out = false ->
    continues self n w1 w2 ->
    continues self (S n) w w2.

(** ** Vector stores

    Sources: the Astra DB and the Qdrant vector stores
    ([storage/vectorStore]).  Both talk to a database service; the service
    is taken as an oracle that answers a call given the calls made so far,
    and every method threads the log of the calls it makes.  Loops over
    array indices are embedded with their index and with fuel; a result
    [None] stands for fuel that ran out, and the properties show that it
    does not happen. *)

(** A node, by what the stores read of it ([BaseNode] of [Node.ts] is not
    among the sources).  [getEmbedding()] and [getContent(mode)] are
    methods and may throw.  The components of an embedding are numbers
    that the stores carry and never compute with. *)
Module Node.

Definition Vector : Type := list Z.

Inductive MetadataMode : Type :=
| ALL
| EMBED
| LLM
| NONE.

Record BaseNode : Type := {
  id_ : string;
  getEmbedding : exn + Vector;
  getContent : MetadataMode -> exn + string;
  metadata : list (string * JSONValue)
}.

End Node.

(** [Array.prototype.map] with a callback that may throw, and
    [Array.prototype.slice]. *)
Module JSArray.

Fixpoint map {A B : Type} (f : A -> exn + B) (l : list A) : exn + list B :=
  match l with
  | [] => inr []
  | x :: rest =>
      match f x with
      | inl e => inl e
      | inr y =>
          match map f rest with
          | inl e => inl e
          | inr ys => inr (y :: ys)
          end
      end
  end.

(** A negative index counts from the end; indices are clamped to the
    array. *)
Definition relativeIndex (len k : Z) : Z :=
  if k <? 0 then Z.max (len + k) 0 else Z.min k len.

Definition slice {A : Type} (start end_ : Z) (l : list A) : list A :=
  let len := Z.of_nat (List.length l) in
  let k := relativeIndex len start in
  let final := relativeIndex len end_ in
  firstn (Z.to_nat (Z.max (final - k) 0)) (skipn (Z.to_nat k) l).

End JSArray.

Module AstraDBVectorStore.

Definition MAX_INSERT_BATCH_SIZE : Z := 20.

(** A document as [add] inserts it: [_id], [$vector], [content] and
    [metadata]. *)
Record Row : Type := {
  _id : string;
  vector : Node.Vector;
  content : string;
  metadata : list (string * JSONValue)
}.

(** The calls the store makes on a collection. *)
Inductive Call : Type :=
| InsertMany (batch : list Row)
| DeleteOne (id_ : string) (deleteOptions : option JSONValue).

(** A collection of the service: [respond log call] is [None] when the
    call resolves and [Some e] when it throws [e], given the calls [log]
    made before. *)
Record Collection : Type := {
  respond : list Call -> Call -> option exn
}.

(** The client: [collection(name)] gives a collection or throws,
    [createCollection(name, options)] resolves or throws. *)
Record AstraDB : Type := {
  db_collection : string -> exn + Collection;
  db_createCollection : string -> JSONValue -> option exn
}.

Record t : Type := {
  astraDBClient : AstraDB;
  idKey : string;
  contentKey : option string;
  metadataKey : string;
  collection : option Collection
}.

(** [init.params]. *)
Record ConnectionParams : Type := {
  token : string;
  endpoint : string
}.

(** The argument [init] of the constructor, by the keys it reads. *)
Record Init : Type := {
  init_astraDBClient : option AstraDB;
  init_params : option ConnectionParams;
  init_idKey : option string;
  init_contentKey : option string;
  init_metadataKey : option string
}.

(** [process.env], by the two variables the constructor reads. *)
Record Env : Type := {
  ASTRA_DB_APPLICATION_TOKEN : option string;
  ASTRA_DB_ENDPOINT : option string
}.

(** The constructor.  [newAstraDB] stands for [new AstraDB(token,
    endpoint)].  [a ?? b] takes [b] only when [a] is undefined, so an
    empty string given in [params] is kept; [!token] holds of an undefined
    and of an empty token. *)
Definition constructor (newAstraDB : string -> string -> AstraDB) (env : Env)
    (init : option Init) : exn + t :=
  let client :=
    match match init with Some i => init_astraDBClient i | None => None end with
    | Some c => inr c
    | None =>
        let params := match init with Some i => init_params i | None => None end in
        let token_ := match params with
                      | Some p => Some (token p)
                      | None => ASTRA_DB_APPLICATION_TOKEN env
                      end in
        let endpoint_ := match params with
                         | Some p => Some (endpoint p)
                         | None => ASTRA_DB_ENDPOINT env
                         end in
        match token_ with
        | Some tk =>
            if String.eqb tk ""
            then inl (Error "Must specify ASTRA_DB_APPLICATION_TOKEN via env variable.")
            else
              match endpoint_ with
              | Some ep =>
                  if String.eqb ep ""
                  then inl (Error "Must specify ASTRA_DB_ENDPOINT via env variable.")
                  else inr (newAstraDB tk ep)
              | None => inl (Error "Must specify ASTRA_DB_ENDPOINT via env variable.")
              end
        | None =>
            inl (Error "Must specify ASTRA_DB_APPLICATION_TOKEN via env variable.")
        end
    end in
  match client with
  | inl e => inl e
  | inr c =>
      inr {| astraDBClient := c;
             idKey := match match init with Some i => init_idKey i | None => None end with
                      | Some k => k
                      | None => "_id"
                      end;
             contentKey := match init with Some i => init_contentKey i | None => None end;
             metadataKey :=
               match match init with Some i => init_metadataKey i | None => None end with
               | Some k => k
               | None => "metadata"
               end;
             collection := None |}
  end.

(** [create(collection, options)]. *)
Definition create (self : t) (collection_ : string) (options : JSONValue)
    : exn + unit :=
  match db_createCollection (astraDBClient self) collection_ options with
  | Some e => inl e
  | None => inr tt
  end.


Definition client (self : t) : AstraDB := astraDBClient self.

(** The callback of [nodes.map] in [add]; the properties of the object
    literal are evaluated in order. *)
Definition toRow (node : Node.BaseNode) : exn + Row :=
  match Node.getEmbedding node with
  | inl e => inl e
  | inr v =>
      match Node.getContent node Node.ALL with
      | inl e => inl e
      | inr c =>
          inr {| _id := Node.id_ node; vector := v; content := c;
                 metadata := Node.metadata node |}
      end
  end.

(** [for (let i = 0; i < dataToInsert.length; i += MAX_INSERT_BATCH_SIZE)
    batchData.push(dataToInsert.slice(i, i + MAX_INSERT_BATCH_SIZE))]. *)
Fixpoint batchLoop (fuel : nat) (i : Z) (dataToInsert : list Row)
    (batchData : list (list Row)) : option (list (list Row)) :=
  if i <? Z.of_nat (List.length dataToInsert) then
    match fuel with
    | O => None
    | S fuel' =>
        batchLoop fuel' (i + MAX_INSERT_BATCH_SIZE) dataToInsert
          (batchData
             ++ [JSArray.slice i (i + MAX_INSERT_BATCH_SIZE) dataToInsert])%list
    end
  else Some batchData.

(** [for (const batch of batchData) await collection.insertMany(batch)]:
    the first throw ends the loop. *)
Fixpoint insertLoop (collection_ : Collection) (batchData : list (list Row))
    (log : list Call) : option exn * list Call :=
  match batchData with
  | [] => (None, log)
  | batch :: rest =>
      match respond collection_ log (InsertMany batch) with
      | Some e => (Some e, (log ++ [InsertMany batch])%list)
      | None => insertLoop collection_ rest (log ++ [InsertMany batch])%list
      end
  end.

(** [add(nodes)]: the ids of the nodes added, or a throw, and the log of
    the calls made. *)
Definition add (self : t) (nodes : list Node.BaseNode) (log : list Call)
    : option ((exn + list string) * list Call) :=
  match collection self with
  | None => Some (inl (Error "Must connect to collection before adding."), log)
  | Some collection_ =>
      if Nat.eqb (List.length nodes) 0 then Some (inr [], log)
      else
        match JSArray.map toRow nodes with
        | inl e => Some (inl e, log)
        | inr dataToInsert =>
            match batchLoop (List.length dataToInsert) 0 dataToInsert [] with
            | None => None
            | Some batchData =>
                match insertLoop collection_ batchData log with
                | (Some e, log') => Some (inl e, log')
                | (None, log') => Some (inr (List.map _id dataToInsert), log')
                end
            end
        end
  end.

(** [delete(refDocId, deleteOptions)]. *)
Definition delete (self : t) (refDocId : string) (deleteOptions : option JSONValue)
    (log : list Call) : (exn + unit) * list Call :=
  match collection self with
  | None => (inl (Error "Must connect to collection before deleting."), log)
  | Some collection_ =>
      match respond collection_ log (DeleteOne refDocId deleteOptions) with
      | Some e => (inl e, (log ++ [DeleteOne refDocId deleteOptions])%list)
      | None => (inr tt, (log ++ [DeleteOne refDocId deleteOptions])%list)
      end
  end.

End AstraDBVectorStore.

(** The batch size is a JavaScript number; it is taken as an integer, of
    any sign. *)
Module QdrantVectorStore.

Record PointStruct : Type := {
  id : string;
  payload : list (string * string);
  vector : Node.Vector
}.

(** The calls the store makes on the client. *)
Inductive Call : Type :=
| GetCollection (collectionName : string)
| CreateCollection (collectionName : string) (vectorSize : nat)
| Upsert (collectionName : string) (points : list PointStruct)
| Delete (collectionName : string) (doc_id : string)
| Search (collectionName : string) (queryVector : Node.Vector)
         (limit : Z) (filter : JSONValue).

(** The client: [respond log call] is the value the call resolves to, or
    the exception it throws, given the calls [log] made before. *)
Record QdrantClient : Type := {
  respond : list Call -> Call -> exn + JSONValue
}.

Record QdrantParams : Type := {
  p_collectionName : option string;
  p_client : option QdrantClient;
  p_url : option string;
  p_apiKey : option string;
  p_batchSize : option Z
}.

Record t : Type := {
  db : QdrantClient;
  collectionName : string;
  batchSize : Z;
  _collectionInitialized : bool
}.

(** The constructor.  [newQdrantClient] stands for
    [new QdrantClient({ url, apiKey })]. *)
Definition constructor
    (newQdrantClient : option string -> option string -> QdrantClient)
    (params : QdrantParams) : exn + t :=
  let noClient := match p_client params with Some _ => false | None => true end in
  if andb (andb noClient
             (orb (negb (truthy (p_url params))) (negb (truthy (p_apiKey params)))))
          (orb (orb (negb (truthy (p_url params))) (negb (truthy (p_apiKey params))))
               (negb (truthy (p_collectionName params))))
  then inl (Error "QdrantVectorStore requires url, apiKey and collectionName")
  else
    inr {| db := match p_client params with
                 | Some c => c
                 | None => newQdrantClient (p_url params) (p_apiKey params)
                 end;
           collectionName := match p_collectionName params with
                             | Some n => n
                             | None => "default"
                             end;
           batchSize := match p_batchSize params with
                        | Some b => b
                        | None => 100
                        end;
           _collectionInitialized := false |}.

Definition client (self : t) : QdrantClient := db self.

Definition with_initialized (self : t) : t :=
  {| db := db self; collectionName := collectionName self;
     batchSize := batchSize self; _collectionInitialized := true |}.

(** [createCollection(collectionName, vectorSize)]. *)
Definition createCollection (self : t) (collectionName_ : string)
    (vectorSize : nat) (log : list Call) : (exn + unit) * list Call :=
  let call_ := CreateCollection collectionName_ vectorSize in
  match respond (db self) log call_ with
  | inl e => (inl e, (log ++ [call_])%list)
  | inr _ => (inr tt, (log ++ [call_])%list)
  end.

(** [collectionExists(collectionName)]: any throw of [getCollection] is
    caught and answered [false]. *)
Definition collectionExists (self : t) (collectionName_ : string)
    (log : list Call) : bool * list Call :=
  let call_ := GetCollection collectionName_ in
  match respond (db self) log call_ with
  | inl _ => (false, (log ++ [call_])%list)
  | inr _ => (true, (log ++ [call_])%list)
  end.

Section BuildPoints.

(** [nodeToMetadata] of [vectorStore/utils.ts] is not among the sources;
    it is taken as it is used, a function of the node that may throw. *)
Variable nodeToMetadata : Node.BaseNode -> exn + list (string * string).

Variable self : t.
Variable nodes : list Node.BaseNode.

(** The inner loop of [buildPoints]:
    [for (let j = 0; j < this.batchSize && i < nodes.length; j++, i++)].
    It returns the index [i] it stopped at and the three arrays. *)
Fixpoint collectLoop (fuel : nat) (j i : nat)
    (node_ids : list Node.BaseNode) (vectors : list Node.Vector)
    (payloads : list (list (string * string)))
    : option (exn + (nat * list Node.BaseNode * list Node.Vector
                     * list (list (string * string)))) :=
  if andb (Z.of_nat j <? batchSize self) (Nat.ltb i (List.length nodes)) then
    match fuel with
    | O => None
    | S fuel' =>
        match nth_error nodes i with
        | None => Some (inl (TypeError "Cannot read properties of undefined"))
        | Some node =>
            match Node.getEmbedding node with
            | inl e => Some (inl e)
            | inr v =>
                match nodeToMetadata node with
                | inl e => Some (inl e)
                | inr metadata_ =>
                    collectLoop fuel' (S j) (S i)
                      (node_ids ++ [node])%list (vectors ++ [v])%list
                      (payloads ++ [metadata_])%list
                end
            end
        end
    end
  else Some (inr (i, node_ids, vectors, payloads)).

(** [for (let k = 0; k < node_ids.length; k++)]: the point of index [k]
    takes [node_ids[k].id_], [payloads[k]] and [vectors[k]].  The three
    arrays are filled together by the inner loop and have one length. *)
Definition pointsOf (node_ids : list Node.BaseNode)
    (vectors : list Node.Vector) (payloads : list (list (string * string)))
    : list PointStruct :=
  List.map (fun '(node, payload_, vector_) =>
              {| id := Node.id_ node; payload := payload_; vector := vector_ |})
           (combine (combine node_ids payloads) vectors).

(** The outer loop of [buildPoints]:
    [for (let i = 0; i < nodes.length; i++)], whose body runs the inner
    loop on the same [i]. *)
Fixpoint buildLoop (fuel : nat) (i : nat) (points : list PointStruct)
    (ids : list string) : option (exn + (list PointStruct * list string)) :=
  if Nat.ltb i (List.length nodes) then
    match fuel with
    | O => None
    | S fuel' =>
        match collectLoop (List.length nodes) 0 i [] [] [] with
        | None => None
        | Some (inl e) => Some (inl e)
        | Some (inr (i', node_ids, vectors, payloads)) =>
            buildLoop fuel' (S i')
              (points ++ pointsOf node_ids vectors payloads)%list
              (ids ++ List.map Node.id_ node_ids)%list
        end
    end
  else Some (inr (points, ids)).

Definition buildPoints : option (exn + (list PointStruct * list string)) :=
  buildLoop (List.length nodes) 0 [] [].

End BuildPoints.

(** [initializeCollection(vectorSize)]: the collection is created when it
    does not exist; the flag is set unless the creation throws. *)
Definition initializeCollection (self : t) (vectorSize : nat) (log : list Call)
    : (exn + unit) * t * list Call :=
  let '(exists_, log1) := collectionExists self (collectionName self) log in
  if negb exists_ then
    match createCollection self (collectionName self) vectorSize log1 with
    | (inl e, log2) => (inl e, self, log2)
    | (inr _, log2) => (inr tt, with_initialized self, log2)
    end
  else (inr tt, with_initialized self, log1).

(** The loop of [add]:
    [for (let i = 0; i < points.length; i += this.batchSize)
       await batchUpsert(points.slice(i, i + this.batchSize))]. *)
Fixpoint upsertLoop (self : t) (fuel : nat) (i : Z) (points : list PointStruct)
    (log : list Call) : option (option exn * list Call) :=
  if i <? Z.of_nat (List.length points) then
    match fuel with
    | O => None
    | S fuel' =>
        let chunk := JSArray.slice i (i + batchSize self) points in
        let call_ := Upsert (collectionName self) chunk in
        match respond (db self) log call_ with
        | inl e => Some (Some e, (log ++ [call_])%list)
        | inr _ => upsertLoop self fuel' (i + batchSize self) points
                     (log ++ [call_])%list
        end
    end
  else Some (None, log).

(** [add(embeddingResults)]: the ids, or a throw; the store, whose flag
    may have been set; the log. *)
Definition add (nodeToMetadata : Node.BaseNode -> exn + list (string * string))
    (self : t) (embeddingResults : list Node.BaseNode) (log : list Call)
    : option ((exn + list string) * t * list Call) :=
  let initialized :=
    if andb (Nat.ltb 0 (List.length embeddingResults))
            (negb (_collectionInitialized self))
    then
      match embeddingResults with
      | first :: _ =>
          match Node.getEmbedding first with
          | inl e => (inl e, self, log)
          | inr v => initializeCollection self (List.length v) log
          end
      | [] => (inr tt, self, log)
      end
    else (inr tt, self, log) in
  match initialized with
  | (inl e, self1, log1) => Some (inl e, self1, log1)
  | (inr _, self1, log1) =>
      match buildPoints nodeToMetadata self1 embeddingResults with
      | None => None
      | Some (inl e) => Some (inl e, self1, log1)
      | Some (inr (points, ids)) =>
          match upsertLoop self1 (List.length points) 0 points log1 with
          | None => None
          | Some (Some e, log2) => Some (inl e, self1, log2)
          | Some (None, log2) => Some (inr ids, self1, log2)
          end
      end
  end.

(** [delete(id)]: the filter asks for the points whose [doc_id] is [id]. *)
Definition delete (self : t) (id_ : string) (log : list Call)
    : (exn + unit) * list Call :=
  let call_ := Delete (collectionName self) id_ in
  match respond (db self) log call_ with
  | inl e => (inl e, (log ++ [call_])%list)
  | inr _ => (inr tt, (log ++ [call_])%list)
  end.

(** A query, by the keys [query] reads, and the [options] of [query]. *)
Record VectorStoreQuery : Type := {
  queryEmbedding : option Node.Vector;
  similarityTopK : Z;
  filters : option JSONValue
}.

Record QueryOptions : Type := {
  qdrant_filters : option JSONValue
}.

(** [a ?? b]: [b] when [a] is [undefined] or [null], [a] otherwise. *)
Definition coalesce (a : option JSONValue) (b : JSONValue) : JSONValue :=
  match a with
  | None => b
  | Some JNull => b
  | Some v => v
  end.

(** [query(query, options)].  [qdrantFilters ?? query.filters ?? []]
    associates to the left: [(qdrantFilters ?? query.filters) ?? []]; an
    absent [query.filters] is passed on as [null]. *)
Definition query (self : t) (query_ : VectorStoreQuery)
    (options : option QueryOptions) (log : list Call)
    : (exn + JSONValue) * list Call :=
  let qdrantFilters :=
    coalesce (match options with Some o => qdrant_filters o | None => None end)
             (JArray []) in
  let queryFilters :=
    coalesce (Some (coalesce (Some qdrantFilters)
                      (coalesce (filters query_) JNull)))
             (JArray []) in
  let call_ := Search (collectionName self)
                 (match queryEmbedding query_ with Some v => v | None => [] end)
                 (similarityTopK query_) queryFilters in
  (respond (db self) log call_, (log ++ [call_])%list).

End QdrantVectorStore.

(** ** Concrete stores *)
Module StoreFixtures.

(** A node with an embedding of two components and a text. *)
Definition sampleNode (n : nat) : Node.BaseNode :=
  {| Node.id_ := "node-" ++ Z_to_string (Z.of_nat n);
     Node.getEmbedding := inr [Z.of_nat n; 1];
     Node.getContent := fun _ => inr "text";
     Node.metadata := [] |}.

Definition sampleNodes (count : nat) : list Node.BaseNode :=
  List.map sampleNode (seq 0 count).

(** A node whose embedding is not set: [getEmbedding()] throws. *)
Definition nodeWithoutEmbedding : Node.BaseNode :=
  {| Node.id_ := "node-x";
     Node.getEmbedding := inl (Error "Embedding not set");
     Node.getContent := fun _ => inr "text";
     Node.metadata := [] |}.

(** A collection on which every call resolves, and a client that gives
    it. *)
Definition okCollection : AstraDBVectorStore.Collection :=
  {| AstraDBVectorStore.respond := fun _ _ => None |}.

Definition astraClient : AstraDBVectorStore.AstraDB :=
  {| AstraDBVectorStore.db_collection := fun _ => inr okCollection;
     AstraDBVectorStore.db_createCollection := fun _ _ => None |}.


Definition emptyEnv : AstraDBVectorStore.Env :=
  {| AstraDBVectorStore.ASTRA_DB_APPLICATION_TOKEN := None;
     AstraDBVectorStore.ASTRA_DB_ENDPOINT := None |}.

Definition astraStore (connected : bool) : AstraDBVectorStore.t :=
  {| AstraDBVectorStore.astraDBClient := astraClient;
     AstraDBVectorStore.idKey := "_id";
     AstraDBVectorStore.contentKey := None;
     AstraDBVectorStore.metadataKey := "metadata";
     AstraDBVectorStore.collection :=
       if connected then Some okCollection else None |}.

(** A Qdrant client on which every call resolves, and one on which the
    collection does not exist yet: [getCollection] throws. *)
Definition okDb : QdrantVectorStore.QdrantClient :=
  {| QdrantVectorStore.respond := fun _ _ => inr JNull |}.

Definition emptyDb : QdrantVectorStore.QdrantClient :=
  {| QdrantVectorStore.respond := fun _ call_ =>
       match call_ with
       | QdrantVectorStore.GetCollection _ => inl (Error "Not found")
       | _ => inr JNull
       end |}.

Definition qdrantStore (db_ : QdrantVectorStore.QdrantClient) (batchSize_ : Z)
    : QdrantVectorStore.t :=
  {| QdrantVectorStore.db := db_;
     QdrantVectorStore.collectionName := "default";
     QdrantVectorStore.batchSize := batchSize_;
     QdrantVectorStore._collectionInitialized := false |}.

Definition docIdMetadata (node : Node.BaseNode) : exn + list (string * string) :=
  inr [("doc_id", Node.id_ node)].

End StoreFixtures.

(** ** Notions used to state the properties of the stores *)

(** The elements of [l] whose index [i] satisfies
    [i mod (b + 1) <> b]: all of them but every [(b + 1)]-th. *)
Definition keptNodes {A : Type} (b : nat) (l : list A) : list A :=
  List.map snd
    (filter (fun p => negb (Nat.eqb (fst p mod S b) b))
            (combine (seq 0 (List.length l)) l)).

(** The same elements, read from left to right: [j] counts the elements
    kept since the last one left out. *)
Fixpoint keep {A : Type} (b j : nat) (l : list A) : list A :=
  match l with
  | [] => []
  | x :: rest => if Nat.ltb j b then x :: keep b (S j) rest else keep b 0 rest
  end.

(** The point [buildPoints] makes of a node whose embedding is [emb node]
    and whose metadata are [meta node]. *)
Definition pointOf (emb : Node.BaseNode -> Node.Vector)
    (meta : Node.BaseNode -> list (string * string)) (node : Node.BaseNode)
    : QdrantVectorStore.PointStruct :=
  {| QdrantVectorStore.id := Node.id_ node;
     QdrantVectorStore.payload := meta node;
     QdrantVectorStore.vector := emb node |}.

(** * Properties *)

(** Case analysis on the outcome of the batch loop in the goal. *)
Ltac destruct_batch e w3 :=
  match goal with
  | |- context [forEach ?l ?f ?x] => destruct (forEach l f x) as [[e | []] w3]
  end.

(** ** The monad and the loop *)

Lemma bind_returns {A B : Type} (m : M A) (k : A -> M B) (w w' : World) (a : A) :
  m w = (inr a, w') -> bind m k w = k a w'.
Proof. intros H. unfold bind. rewrite H. reflexivity. Qed.

Lemma bind_throws {A B : Type} (m : M A) (k : A -> M B) (w w' : World) (e : exn) :
  m w = (inl e, w') -> bind m k w = (inl e, w').
Proof. intros H. unfold bind. rewrite H. reflexivity. Qed.

Lemma sameFrame_refl (t : Task.t) : sameFrame t t.
Proof. repeat split. Qed.

Lemma sameFrame_trans (t1 t2 t3 : Task.t) :
  sameFrame t1 t2 -> sameFrame t2 t3 -> sameFrame t1 t3.
Proof.
  unfold sameFrame. intros (H1 & H2 & H3) (H4 & H5 & H6).
  repeat split; congruence.
Qed.

Lemma sameFrame_with_extraState (es : ExtraState) (t : Task.t) :
  sameFrame t (Task.with_extraState es t).
Proof. repeat split. Qed.

Lemma sameFrame_afterUserStep (self : OpenAIAgentWorker.t) (step : TaskStep.t)
    (t : Task.t) :
  sameFrame t (afterUserStep self step t).
Proof.
  unfold afterUserStep. destruct (truthy _).
  - apply sameFrame_with_extraState.
  - apply sameFrame_refl.
Qed.

(** ** One tool call *)

Section Dispatch.

Variable self : OpenAIAgentWorker.t.
Variable tools_ : list BaseTool.

Lemma callFunction_function (c : OpenAIToolCall) (v : bool)
    (r : ChatMessage * ToolOutput) :
  callFunction tools_ c v = inr r -> exists fc, function c = Some fc.
Proof.
  unfold callFunction. destruct (function c) as [fc|]; [eauto | discriminate].
Qed.

(** A call that the module-level [callFunction] answers is recorded: the
    output joins the sources, the message joins scratch memory, the
    counter advances by one. *)
Lemma dispatch_returns (c : OpenAIToolCall) (r : ChatMessage * ToolOutput) (w : World) :
  callFunction tools_ c (OpenAIAgentWorker._verbose self) = inr r ->
  OpenAIAgentWorker.dispatch self tools_ c w
  = (inr tt, {| task := afterBatch [r] (task w); llmRequests := llmRequests w |}).
Proof.
  intros H. destruct (callFunction_function _ _ _ H) as [fc Hfc].
  unfold OpenAIAgentWorker.dispatch, OpenAIAgentWorker.callFunction, bind, getTask.
  rewrite Hfc, H. destruct r as [msg out].
  unfold modifyExtraState, bind, getTask, putTask, afterBatch; simpl.
  unfold ChatMemoryBuffer.put, ChatMemoryBuffer.get. reflexivity.
Qed.

(** A call that throws leaves the world as it was. *)
Lemma dispatch_throws (c : OpenAIToolCall) (e : exn) (w : World) :
  callFunction tools_ c (OpenAIAgentWorker._verbose self) = inl e ->
  exists e', OpenAIAgentWorker.dispatch self tools_ c w = (inl e', w).
Proof.
  intros H. unfold OpenAIAgentWorker.dispatch, OpenAIAgentWorker.callFunction, bind, getTask.
  destruct (function c); [rewrite H |]; eexists; reflexivity.
Qed.

Lemma dispatch_cases (c : OpenAIToolCall) (w : World) :
  (exists r, OpenAIAgentWorker.dispatch self tools_ c w
             = (inr tt, {| task := afterBatch [r] (task w);
                           llmRequests := llmRequests w |}))
  \/ (exists e, OpenAIAgentWorker.dispatch self tools_ c w = (inl e, w)).
Proof.
  destruct (callFunction tools_ c (OpenAIAgentWorker._verbose self)) as [e | r] eqn:H.
  - right. eapply dispatch_throws; eauto.
  - left. exists r. apply dispatch_returns; assumption.
Qed.

(** ** A batch of tool calls *)

Lemma afterBatch_cons (r : ChatMessage * ToolOutput)
    (rs : list (ChatMessage * ToolOutput)) (t : Task.t) :
  afterBatch rs (afterBatch [r] t) = afterBatch (r :: rs) t.
Proof.
  unfold afterBatch, ChatMemoryBuffer.get; simpl.
  rewrite <- !app_assoc; simpl.
  replace (nFunctionCalls (Task.extraState t) + 1 + Z.of_nat (List.length rs))
    with (nFunctionCalls (Task.extraState t)
          + Z.pos (Pos.of_succ_nat (List.length rs))) by lia.
  reflexivity.
Qed.

(** When every call of the batch is answered, the loop returns and the
    results are recorded in the order of the calls. *)
Lemma forEach_returns (calls : list OpenAIToolCall) (results : list (ChatMessage * ToolOutput)) :
  Forall2 (fun c r => callFunction tools_ c (OpenAIAgentWorker._verbose self) = inr r)
          calls results ->
  forall w, exists w',
    forEach calls (OpenAIAgentWorker.dispatch self tools_) w = (inr tt, w')
    /\ llmRequests w' = llmRequests w
    /\ sameFrame (task w) (task w')
    /\ Task.extraState (task w') = Task.extraState (afterBatch results (task w)).
Proof.
  induction 1 as [| c r calls results Hc _ IH]; intros w.
  - exists w. simpl. unfold ret. repeat split.
    unfold afterBatch; simpl. rewrite !app_nil_r.
    destruct (Task.extraState (task w)) as [s n [h]]; simpl.
    unfold ChatMemoryBuffer.get; simpl. f_equal. lia.
  - simpl. erewrite bind_returns by (apply dispatch_returns; exact Hc).
    destruct (IH {| task := afterBatch [r] (task w); llmRequests := llmRequests w |})
      as (w' & Hrun & Hlog & Hframe & Hes).
    exists w'. cbn [task llmRequests] in Hlog, Hframe, Hes.
    rewrite Hrun, Hlog, Hes, afterBatch_cons.
    split; [reflexivity | split; [reflexivity | split; [| reflexivity]]].
    eapply sameFrame_trans; [| exact Hframe]. apply sameFrame_with_extraState.
Qed.

(** Whatever the calls do, the loop only ever adds to the counter, by one
    per call it got through, and leaves the frame and the log alone. *)
Lemma forEach_counts (calls : list OpenAIToolCall) :
  forall w,
    let w' := snd (forEach calls (OpenAIAgentWorker.dispatch self tools_) w) in
    nFunctionCalls (Task.extraState (task w))
      <= nFunctionCalls (Task.extraState (task w'))
      <= nFunctionCalls (Task.extraState (task w)) + Z.of_nat (List.length calls)
    /\ sameFrame (task w) (task w')
    /\ llmRequests w' = llmRequests w.
Proof.
  induction calls as [| c calls IH]; intros w; simpl.
  - repeat split; lia.
  - destruct (dispatch_cases c w) as [[r Hr] | [e He]].
    + erewrite bind_returns by exact Hr.
      specialize (IH {| task := afterBatch [r] (task w);
                        llmRequests := llmRequests w |}).
      simpl in IH. destruct IH as (Hn & Hf & Hl).
      split; [| split]; [ | | exact Hl].
      * simpl in Hn. lia.
      * eapply sameFrame_trans; [| exact Hf]. apply sameFrame_with_extraState.
    + erewrite bind_throws by exact He. simpl.
      repeat split; lia.
Qed.

End Dispatch.

(** ** One step *)

(** The latest tool calls are those of the message just appended. *)
Lemma getLatestToolCalls_afterPut (self : OpenAIAgentWorker.t)
    (msg : ChatMessage) (t : Task.t) :
  OpenAIAgentWorker.getLatestToolCalls self (afterPut msg t)
  = match additionalKwargs msg with
    | Some kw => property (toolCalls kw)
    | None => js_undefined
    end.
Proof.
  unfold OpenAIAgentWorker.getLatestToolCalls, afterPut, ChatMemoryBuffer.getAll,
    ChatMemoryBuffer.get, ChatMemoryBuffer.put; simpl.
  set (h := ChatMemoryBuffer.chatHistory (newMemory (Task.extraState t))).
  rewrite length_app; simpl.
  replace (List.length h + 1 - 1)%nat with (List.length h) by lia.
  replace (Nat.eqb (List.length h + 1) 0) with false
    by (symmetry; apply Nat.eqb_neq; lia).
  rewrite nth_error_app2 by lia. rewrite Nat.sub_diag. reflexivity.
Qed.

Lemma latest_or_empty (self : OpenAIAgentWorker.t) (resp : ChatResponse)
    (t : Task.t) :
  orElse (OpenAIAgentWorker.getLatestToolCalls self (afterPut (message resp) t)) []
  = requestedToolCalls resp.
Proof.
  rewrite getLatestToolCalls_afterPut. unfold requestedToolCalls.
  destruct (additionalKwargs (message resp)) as [kw|]; [| reflexivity].
  destruct (toolCalls kw); reflexivity.
Qed.

(** A step in mode [STREAM] throws before the LLM is called; the user
    message of the step is already in scratch memory by then. *)
Lemma streamStep_throws (self : OpenAIAgentWorker.t) (uuid : string)
    (step : TaskStep.t) (choice : ToolChoice) (w : World) :
  exists w',
    OpenAIAgentWorker._runStep self uuid step STREAM choice w
    = (inl (Error "Not implemented"), w')
    /\ task w' = afterUserStep self step (task w)
    /\ llmRequests w' = llmRequests w.
Proof.
  unfold OpenAIAgentWorker._runStep, afterUserStep.
  destruct (truthy (TaskStep.input step)); eexists; split; reflexivity || (split; reflexivity).
Qed.

(** A step in mode [WAIT], spelled out: the request goes out, and the step
    ends there if the LLM throws; otherwise the reply is appended, and the
    step is done or runs the batch. *)
Lemma _runStep_WAIT (self : OpenAIAgentWorker.t) (uuid : string)
    (step : TaskStep.t) (choice : ToolChoice) (w : World) :
  let t1 := afterUserStep self step (task w) in
  let req := requestOf self step choice (task w) in
  let log := (llmRequests w ++ [req])%list in
  OpenAIAgentWorker._runStep self uuid step WAIT choice w
  = match chat (OpenAIAgentWorker._llm self) req with
    | inl e => (inl e, {| task := t1; llmRequests := log |})
    | inr resp =>
        let w2 := {| task := afterPut (message resp) t1; llmRequests := log |} in
        if OpenAIAgentWorker._shouldContinue self (Some (requestedToolCalls resp))
             (nFunctionCalls (Task.extraState t1))
        then
          match forEach (requestedToolCalls resp)
                  (OpenAIAgentWorker.dispatch self
                     (OpenAIAgentWorker.getTools self (Task.input (task w)))) w2 with
          | (inr _, w3) =>
              (inr {| TaskStepOutput.output :=
                        {| response := content (message resp);
                           response_sources := sources (Task.extraState (task w3)) |};
                      TaskStepOutput.taskStep := step;
                      TaskStepOutput.nextSteps := [TaskStep.getNextStep step uuid None];
                      TaskStepOutput.isDone := false |}, w3)
          | (inl e, w3) => (inl e, w3)
          end
        else
          (inr {| TaskStepOutput.output :=
                    {| response := content (message resp);
                       response_sources := sources (Task.extraState t1) |};
                  TaskStepOutput.taskStep := step;
                  TaskStepOutput.nextSteps := [];
                  TaskStepOutput.isDone := true |}, w2)
    end.
Proof.
  intros t1 req log. subst t1 req log.
  unfold OpenAIAgentWorker._runStep, requestOf, afterUserStep, schemasOf.
  destruct (truthy (TaskStep.input step)) eqn:Htr.
  - unfold bind at 1. cbn [getTask]. unfold bind at 1.
    unfold modifyExtraState at 1. unfold bind at 1. cbn [getTask putTask task llmRequests].
    unfold bind at 1. cbn [getTask task].
    unfold OpenAIAgentWorker._getAgentResponse.
    unfold bind at 1. unfold bind at 1. unfold callLlm at 1. cbn [task llmRequests].
    match goal with
    | |- context [chat ?l ?r] => destruct (chat l r) as [e | resp]
    end; [reflexivity |].
    unfold OpenAIAgentWorker._processMessage.
    unfold bind at 1. unfold modifyExtraState at 1. unfold bind at 1.
    cbn [getTask putTask task llmRequests]. unfold bind at 1.
    cbn [getTask task ret]. unfold bind at 1. cbn [getTask task].
    match goal with
    | |- context [OpenAIAgentWorker.getLatestToolCalls self ?t] =>
        change t with (afterPut (message resp)
          (Task.with_extraState
             {| sources := sources (Task.extraState (task w));
                nFunctionCalls := nFunctionCalls (Task.extraState (task w));
                newMemory := addUserStepToMemory step
                               (newMemory (Task.extraState (task w)))
                               (OpenAIAgentWorker._verbose self) |} (task w)))
    end.
    rewrite latest_or_empty. cbn [Task.extraState Task.with_extraState afterPut nFunctionCalls].
    destruct (OpenAIAgentWorker._shouldContinue self _ _); cbn [negb].
    + unfold bind at 1.
      match goal with
      | |- context [forEach ?l ?f ?x] => destruct (forEach l f x) as [[e | []] w3]
      end; reflexivity.
    + reflexivity.
  - unfold bind at 1. cbn [getTask]. unfold bind at 1. cbn [ret].
    unfold bind at 1. cbn [getTask task].
    unfold OpenAIAgentWorker._getAgentResponse.
    unfold bind at 1. unfold bind at 1. unfold callLlm at 1. cbn [task llmRequests].
    match goal with
    | |- context [chat ?l ?r] => destruct (chat l r) as [e | resp]
    end; [reflexivity |].
    unfold OpenAIAgentWorker._processMessage.
    unfold bind at 1. unfold modifyExtraState at 1. unfold bind at 1.
    cbn [getTask putTask task llmRequests]. unfold bind at 1.
    cbn [getTask task ret]. unfold bind at 1. cbn [getTask task].
    match goal with
    | |- context [OpenAIAgentWorker.getLatestToolCalls self ?t] =>
        change t with (afterPut (message resp) (task w))
    end.
    rewrite latest_or_empty. cbn [Task.extraState Task.with_extraState afterPut nFunctionCalls].
    destruct (OpenAIAgentWorker._shouldContinue self _ _); cbn [negb].
    + unfold bind at 1.
      match goal with
      | |- context [forEach ?l ?f ?x] => destruct (forEach l f x) as [[e | []] w3]
      end; reflexivity.
    + reflexivity.
Qed.

Lemma afterUserStep_counter (self : OpenAIAgentWorker.t) (step : TaskStep.t)
    (t : Task.t) :
  nFunctionCalls (Task.extraState (afterUserStep self step t))
  = nFunctionCalls (Task.extraState t)
  /\ sources (Task.extraState (afterUserStep self step t))
     = sources (Task.extraState t).
Proof. unfold afterUserStep. destruct (truthy _); split; reflexivity. Qed.

Lemma _shouldContinue_exceeded (self : OpenAIAgentWorker.t)
    (calls : option (list OpenAIToolCall)) (n : Z) :
  OpenAIAgentWorker._maxFunctionCalls self < n ->
  OpenAIAgentWorker._shouldContinue self calls n = false.
Proof.
  intros H. unfold OpenAIAgentWorker._shouldContinue.
  apply Z.ltb_lt in H. rewrite H. reflexivity.
Qed.

Lemma _shouldContinue_true (self : OpenAIAgentWorker.t)
    (calls : list OpenAIToolCall) (n : Z) :
  OpenAIAgentWorker._shouldContinue self (Some calls) n = true
  <-> n <= OpenAIAgentWorker._maxFunctionCalls self /\ calls <> [].
Proof.
  unfold OpenAIAgentWorker._shouldContinue.
  destruct (Z.ltb_spec (OpenAIAgentWorker._maxFunctionCalls self) n).
  - split; [discriminate | lia].
  - destruct calls as [| c calls]; simpl.
    + split; [discriminate | intros [_ H']; congruence].
    + split; [intros _; split; [lia | discriminate] | reflexivity].
Qed.

(** What any step, in either mode and whatever its outcome, does to the
    task: the frame stays, the counter does not go down, it stays put once
    it is past the bound, and it moves by at most the size of the batch
    the LLM asked for. *)
Lemma _runStep_effect (self : OpenAIAgentWorker.t) (uuid : string)
    (step : TaskStep.t) (mode : ChatResponseMode) (choice : ToolChoice)
    (w : World) :
  let w' := snd (OpenAIAgentWorker._runStep self uuid step mode choice w) in
  let n := nFunctionCalls (Task.extraState (task w)) in
  let n' := nFunctionCalls (Task.extraState (task w')) in
  sameFrame (task w) (task w')
  /\ n <= n'
  /\ (OpenAIAgentWorker._maxFunctionCalls self < n ->
      n' = n /\ sources (Task.extraState (task w')) = sources (Task.extraState (task w)))
  /\ (forall batch : nat,
        (forall req resp,
            chat (OpenAIAgentWorker._llm self) req = inr resp ->
            (List.length (requestedToolCalls resp) <= batch)%nat) ->
        n' <= n + Z.of_nat batch).
Proof.
  intros w' n n'. subst w' n n'.
  pose proof (sameFrame_afterUserStep self step (task w)) as Hf.
  pose proof (afterUserStep_counter self step (task w)) as [Hn Hs].
  destruct mode.
  - rewrite _runStep_WAIT.
    destruct (chat (OpenAIAgentWorker._llm self) _) as [e | resp] eqn:Hchat;
      cbn [snd task].
    + rewrite Hn, Hs. repeat split; try apply Hf; lia.
    + destruct (OpenAIAgentWorker._shouldContinue self _ _) eqn:Hc.
      * pose proof (forEach_counts self
                      (OpenAIAgentWorker.getTools self (Task.input (task w)))
                      (requestedToolCalls resp)
                      {| task := afterPut (message resp)
                                   (afterUserStep self step (task w));
                         llmRequests :=
                           (llmRequests w
                              ++ [requestOf self step choice (task w)])%list |})
          as (Hcount & Hframe & _).
        destruct (forEach _ _ _) as [[e | u] w3]; cbn [snd task] in *;
          cbn [afterPut Task.extraState Task.with_extraState nFunctionCalls] in Hcount;
          rewrite Hn in Hcount;
          (split; [eapply sameFrame_trans; [exact Hf |];
                   eapply sameFrame_trans; [| exact Hframe];
                   apply sameFrame_with_extraState |]);
          (split; [lia |]);
          (split; [intros Hex; rewrite _shouldContinue_exceeded in Hc
                     by (rewrite Hn; exact Hex); discriminate |]);
          intros batch Hb; specialize (Hb _ _ Hchat); lia.
      * cbn [snd task afterPut Task.extraState Task.with_extraState
               nFunctionCalls sources].
        rewrite Hn, Hs. split.
        { eapply sameFrame_trans; [exact Hf |]. apply sameFrame_with_extraState. }
        repeat split; lia.
  - destruct (streamStep_throws self uuid step choice w) as (w' & Hrun & Ht & _).
    rewrite Hrun; cbn [snd]. rewrite Ht, Hn, Hs.
    repeat split; try apply Hf; lia.
Qed.

(** ** [finalizeTask] *)

(** C2.  [finalizeTask(task)] makes the persistent memory the previous
    persistent memory followed by the messages of the scratch memory, in
    order, and leaves the scratch memory empty; the sources and the
    counter are not touched. *)
Theorem finalizeTask_merges_scratch (self : OpenAIAgentWorker.t) (t : Task.t) :
  let t' := OpenAIAgentWorker.finalizeTask self t in
  ChatMemoryBuffer.get (Task.memory t')
  = (ChatMemoryBuffer.get (Task.memory t)
       ++ ChatMemoryBuffer.get (newMemory (Task.extraState t)))%list
  /\ ChatMemoryBuffer.get (newMemory (Task.extraState t')) = []
  /\ sources (Task.extraState t') = sources (Task.extraState t)
  /\ nFunctionCalls (Task.extraState t') = nFunctionCalls (Task.extraState t).
Proof. repeat split. Qed.

(** ** The constructor *)

(** C8.  Constructing a worker with a non-empty tool list and a tool
    retriever throws, whatever the other parameters: no worker comes into
    being, so no step can run and no request can reach the LLM. *)
Theorem constructor_rejects_tools_and_retriever
    (newOpenAI_ : string -> OpenAI) (params : OpenAIAgentWorkerParams)
    (toolRetriever : ObjectRetriever) :
  p_tools params <> [] ->
  p_toolRetriever params = Some toolRetriever ->
  OpenAIAgentWorker.constructor newOpenAI_ params
  = inl (Error "Cannot specify both tools and tool_retriever").
Proof.
  intros Htools Hretr. unfold OpenAIAgentWorker.constructor.
  rewrite Hretr. destruct (p_tools params) as [| x l]; [congruence | reflexivity].
Qed.

Lemma constructor_rejects_tools_and_retriever_witness :
  [functionTool] <> []
  /\ OpenAIAgentWorker.constructor newOpenAI
       {| p_tools := [functionTool]; p_llm := None; p_prefixMessages := None;
          p_verbose := None; p_maxFunctionCalls := None;
          p_toolRetriever := Some {| retrieve := fun _ => [functionTool] |} |}
     = inl (Error "Cannot specify both tools and tool_retriever").
Proof.
  split; [discriminate |].
  apply (constructor_rejects_tools_and_retriever newOpenAI
           {| p_tools := [functionTool]; p_llm := None; p_prefixMessages := None;
              p_verbose := None; p_maxFunctionCalls := None;
              p_toolRetriever := Some {| retrieve := fun _ => [functionTool] |} |}
           {| retrieve := fun _ => [functionTool] |});
    [discriminate | reflexivity].
Defined.

(** ** Frame of a step *)

(** C10.  [runStep] never modifies the persistent memory of the task,
    whether it returns or throws; neither do [streamStep] and
    [initializeStep].  A step changes the scratch state only: the task id
    and the input stay as well.  The persistent memory changes at
    [finalizeTask]. *)
Theorem runStep_keeps_persistent_memory (self : OpenAIAgentWorker.t)
    (uuid : string) (step : TaskStep.t) (kw : option StepKwargs) (w : World) :
  let after_run := task (snd (OpenAIAgentWorker.runStep self uuid step kw w)) in
  let after_stream := task (snd (OpenAIAgentWorker.streamStep self uuid step kw w)) in
  let after_init := snd (OpenAIAgentWorker.initializeStep self uuid (task w)) in
  (Task.memory after_run = Task.memory (task w)
   /\ Task.taskId after_run = Task.taskId (task w)
   /\ Task.input after_run = Task.input (task w))
  /\ Task.memory after_stream = Task.memory (task w)
  /\ Task.memory after_init = Task.memory (task w).
Proof.
  cbv zeta. split; [| split].
  - apply (_runStep_effect self uuid step WAIT (OpenAIAgentWorker.toolChoiceOf kw) w).
  - apply (_runStep_effect self uuid step STREAM (OpenAIAgentWorker.toolChoiceOf kw) w).
  - reflexivity.
Qed.

(** ** Shape of a step output *)

(** C9.  Every [TaskStepOutput] that [runStep] returns has [isDone] true
    exactly when it has no next steps, and when it has next steps it has
    exactly one, whose input is undefined. *)
Theorem runStep_output_shape (self : OpenAIAgentWorker.t) (uuid : string)
    (step : TaskStep.t) (kw : option StepKwargs) (w w' : World)
    (out : TaskStepOutput.t) :
  OpenAIAgentWorker.runStep self uuid step kw w = (inr out, w') ->
  (TaskStepOutput.isDone out = true <-> TaskStepOutput.nextSteps out = [])
  /\ (TaskStepOutput.nextSteps out <> [] ->
      exists next, TaskStepOutput.nextSteps out = [next]
                   /\ TaskStep.input next = None).
Proof.
  unfold OpenAIAgentWorker.runStep. rewrite _runStep_WAIT. cbv zeta.
  destruct (chat _ _) as [e | resp]; [discriminate |].
  destruct (OpenAIAgentWorker._shouldContinue self _ _).
  - destruct_batch e w3; [discriminate |].
    intros H; injection H as <- _; cbn.
    split; [split; discriminate |].
    intros _. eexists; split; reflexivity.
  - intros H; injection H as <- _; cbn.
    split; [split; reflexivity | congruence].
Qed.

Lemma runStep_output_shape_witness :
  let self := workerWith (scriptedLlm [toolCallTo "call-1" "sumNumbers" args_2_2])
                [functionTool] 5 in
  exists out w',
    OpenAIAgentWorker.runStep self "step-1" (firstStep self "sum 2 + 2?") None
      (startWorld self "sum 2 + 2?") = (inr out, w')
    /\ (TaskStepOutput.isDone out = true <-> TaskStepOutput.nextSteps out = [])
    /\ (TaskStepOutput.nextSteps out <> [] ->
        exists next, TaskStepOutput.nextSteps out = [next]
                     /\ TaskStep.input next = None).
Proof.
  intros self. eexists. eexists. split.
  - vm_compute. reflexivity.
  - eapply (runStep_output_shape self "step-1" (firstStep self "sum 2 + 2?") None
              (startWorld self "sum 2 + 2?")).
    vm_compute. reflexivity.
Defined.

(** ** Pure chat *)

(** C7.  When the resolved tool set is empty and the LLM response requests
    no tool call, one [runStep] returns an output with [isDone] true and
    no next steps, and nothing is dispatched: the sources and the counter
    are as before, scratch memory gained the user message of the step (if
    it has an input) and the assistant message only, and the one request
    sent carried no tool schemas. *)
Theorem runStep_pure_chat (self : OpenAIAgentWorker.t) (uuid : string)
    (step : TaskStep.t) (kw : option StepKwargs) (w : World)
    (resp : ChatResponse) :
  OpenAIAgentWorker.getTools self (Task.input (task w)) = [] ->
  chat (OpenAIAgentWorker._llm self)
       (requestOf self step (OpenAIAgentWorker.toolChoiceOf kw) (task w))
  = inr resp ->
  requestedToolCalls resp = [] ->
  exists out w',
    OpenAIAgentWorker.runStep self uuid step kw w = (inr out, w')
    /\ TaskStepOutput.isDone out = true
    /\ TaskStepOutput.nextSteps out = []
    /\ sources (Task.extraState (task w')) = sources (Task.extraState (task w))
    /\ nFunctionCalls (Task.extraState (task w'))
       = nFunctionCalls (Task.extraState (task w))
    /\ newMemory (Task.extraState (task w'))
       = ChatMemoryBuffer.put (message resp)
           (newMemory (Task.extraState (afterUserStep self step (task w))))
    /\ llmRequests w'
       = (llmRequests w
            ++ [requestOf self step (OpenAIAgentWorker.toolChoiceOf kw) (task w)])%list
    /\ tools (kwargs (requestOf self step (OpenAIAgentWorker.toolChoiceOf kw) (task w)))
       = None.
Proof.
  intros Htools Hchat Hcalls.
  unfold OpenAIAgentWorker.runStep. rewrite _runStep_WAIT. cbv zeta.
  rewrite Hchat, Hcalls. 
  replace (OpenAIAgentWorker._shouldContinue self (Some []) _) with false
    by (unfold OpenAIAgentWorker._shouldContinue; destruct (Z.ltb _ _); reflexivity).
  destruct (afterUserStep_counter self step (task w)) as [Hn Hs].
  eexists. eexists. split; [reflexivity |]. cbn.
  rewrite Hn, Hs. repeat split.
  unfold requestOf, OpenAIAgentWorker._getLlmChatKwargs. cbn.
  rewrite Htools. destruct (truthy _); reflexivity.
Qed.

Lemma runStep_pure_chat_witness :
  let self := workerWith
                (fixedLlm {| message := assistantMessage "Hello!" None |}) [] 5 in
  let w := startWorld self "hi" in
  exists out w',
    OpenAIAgentWorker.runStep self "step-1" (firstStep self "hi") None w = (inr out, w')
    /\ TaskStepOutput.isDone out = true
    /\ TaskStepOutput.nextSteps out = []
    /\ sources (Task.extraState (task w')) = sources (Task.extraState (task w))
    /\ nFunctionCalls (Task.extraState (task w'))
       = nFunctionCalls (Task.extraState (task w))
    /\ newMemory (Task.extraState (task w'))
       = ChatMemoryBuffer.put (assistantMessage "Hello!" None)
           (newMemory (Task.extraState
                         (afterUserStep self (firstStep self "hi") (task w))))
    /\ llmRequests w'
       = (llmRequests w
            ++ [requestOf self (firstStep self "hi")
                  (OpenAIAgentWorker.toolChoiceOf None) (task w)])%list
    /\ tools (kwargs (requestOf self (firstStep self "hi")
                        (OpenAIAgentWorker.toolChoiceOf None) (task w)))
       = None.
Proof.
  intros self w.
  apply (runStep_pure_chat self "step-1" (firstStep self "hi") None w
           {| message := assistantMessage "Hello!" None |});
    reflexivity.
Defined.

(** ** The request of a step *)

(** C4, as the claim states it, fails on a successor step.  The worker has
    the tool [sumNumbers]; the first step, which carries the question,
    sends the tool schema, and the step that follows the tool call, whose
    input is undefined, sends a request without tools and without tool
    choice, although the resolved tool set is the same. *)
Lemma successor_step_sends_no_tools :
  let self := workerWith (scriptedLlm [toolCallTo "call-1" "sumNumbers" args_2_2])
                [functionTool] 5 in
  let question := "sum 2 + 2?" in
  let step2 := fst (advance self 1 (firstStep self question) (startWorld self question)) in
  let w1 := snd (advance self 1 (firstStep self question) (startWorld self question)) in
  let w2 := snd (OpenAIAgentWorker.runStep self "step-2" step2 None w1) in
  OpenAIAgentWorker.getTools self (Task.input (task w1)) = [functionTool]
  /\ TaskStep.input step2 = None
  /\ map (fun r => tools (kwargs r)) (llmRequests w2)
     = [Some (schemasOf [functionTool]); None]
  /\ map (fun r => toolChoice (kwargs r)) (llmRequests w2)
     = [Some (ChoiceString "auto"); None].
Proof. vm_compute. repeat split. Qed.

(** C4, amended.  Every [runStep] sends exactly one request, not streamed,
    whose messages are the prefix messages, the persistent memory and the
    scratch memory.  It carries the tool schemas (name, description,
    parameters of each tool) and the tool choice exactly when the step has
    a non-empty input and the resolved tool set is non-empty; otherwise it
    carries neither.  The tool choice is the caller's [kwargs.toolChoice]
    when that is given and truthy, and ["auto"] otherwise. *)
Theorem runStep_request (self : OpenAIAgentWorker.t) (uuid : string)
    (step : TaskStep.t) (kw : option StepKwargs) (w : World) (c : ToolChoice) :
  let tools_ := OpenAIAgentWorker.getTools self (Task.input (task w)) in
  let w' := snd (OpenAIAgentWorker.runStep self uuid step kw w) in
  let req := requestOf self step (OpenAIAgentWorker.toolChoiceOf kw) (task w) in
  llmRequests w' = (llmRequests w ++ [req])%list
  /\ stream req = false
  /\ messages (kwargs req)
     = (OpenAIAgentWorker.prefixMessages self
          ++ ChatMemoryBuffer.get (Task.memory (task w))
          ++ ChatMemoryBuffer.get
               (newMemory (Task.extraState (afterUserStep self step (task w)))))%list
  /\ (tools (kwargs req), toolChoice (kwargs req))
     = (if andb (truthy (TaskStep.input step)) (Nat.ltb 0 (List.length tools_))
        then (Some (schemasOf tools_), Some (OpenAIAgentWorker.toolChoiceOf kw))
        else (None, None))
  /\ OpenAIAgentWorker.toolChoiceOf None = ChoiceString "auto"
  /\ OpenAIAgentWorker.toolChoiceOf (Some {| kw_toolChoice := None |})
     = ChoiceString "auto"
  /\ OpenAIAgentWorker.toolChoiceOf (Some {| kw_toolChoice := Some c |})
     = (if truthyChoice (Some c) then c else ChoiceString "auto").
Proof.
  cbv zeta. split; [| split; [| split; [| split]]].
  - unfold OpenAIAgentWorker.runStep. rewrite _runStep_WAIT. cbv zeta.
    destruct (chat _ _) as [e | resp]; [reflexivity |].
    destruct (OpenAIAgentWorker._shouldContinue self _ _); [| reflexivity].
    pose proof (forEach_counts self
                  (OpenAIAgentWorker.getTools self (Task.input (task w)))
                  (requestedToolCalls resp)
                  {| task := afterPut (message resp)
                               (afterUserStep self step (task w));
                     llmRequests :=
                       (llmRequests w
                          ++ [requestOf self step
                                (OpenAIAgentWorker.toolChoiceOf kw) (task w)])%list |})
      as (_ & _ & Hlog).
    cbv zeta in Hlog. destruct_batch e w3; exact Hlog.
  - reflexivity.
  - unfold requestOf, OpenAIAgentWorker._getLlmChatKwargs; cbn [kwargs].
    destruct (sameFrame_afterUserStep self step (task w)) as (Hmem & _ & _).
    destruct (Nat.ltb _ _); cbn [messages]; unfold OpenAIAgentWorker.getAllMessages;
      rewrite Hmem; reflexivity.
  - unfold requestOf, OpenAIAgentWorker._getLlmChatKwargs; cbn [kwargs].
    destruct (truthy (TaskStep.input step)); cbn [andb].
    + unfold schemasOf. rewrite length_map.
      destruct (Nat.ltb _ _); reflexivity.
    + reflexivity.
  - repeat split.
Qed.

(** ** The bound on function calls *)

(** C1, as the claim states it, fails.  With the default bound of five
    calls, an LLM response that requests six tool calls has all six
    dispatched by the very first step: the bound is looked at once, before
    the batch, and not between the calls. *)
Lemma counter_exceeds_bound_after_batch :
  match workerOf (fixedLlm {| message := assistantMessage "" (Some sixCalls) |})
          [functionTool] None with
  | inr self =>
      OpenAIAgentWorker._maxFunctionCalls self = 5
      /\ nFunctionCalls
           (Task.extraState
              (task (snd (OpenAIAgentWorker.runStep self "step-1"
                            (firstStep self "sum 2 + 2?") None
                            (startWorld self "sum 2 + 2?")))))
         = 6
  | inl _ => False
  end.
Proof. vm_compute. split; reflexivity. Qed.

(** C1, amended.  For every task driven by the worker, the counter of
    completed tool invocations never exceeds the bound by more than the
    largest batch of tool calls one LLM response asks for; and once the
    counter exceeds the bound, the next [runStep], given an LLM response,
    returns [isDone] true with no successor steps whatever tool calls the
    response asks for, and dispatches none of them. *)
Theorem function_calls_bounded (maxCalls : Z) (batch : nat) (t : Task.t) :
  reachable maxCalls batch t ->
  nFunctionCalls (Task.extraState t) <= Z.max 0 (maxCalls + Z.of_nat batch)
  /\ forall self uuid step kw log resp,
       OpenAIAgentWorker._maxFunctionCalls self = maxCalls ->
       maxCalls < nFunctionCalls (Task.extraState t) ->
       chat (OpenAIAgentWorker._llm self)
            (requestOf self step (OpenAIAgentWorker.toolChoiceOf kw) t)
       = inr resp ->
       exists out w',
         OpenAIAgentWorker.runStep self uuid step kw
           {| task := t; llmRequests := log |} = (inr out, w')
         /\ TaskStepOutput.isDone out = true
         /\ TaskStepOutput.nextSteps out = []
         /\ nFunctionCalls (Task.extraState (task w'))
            = nFunctionCalls (Task.extraState t)
         /\ sources (Task.extraState (task w')) = sources (Task.extraState t).
Proof.
  intros Hreach. split.
  - induction Hreach as [self uuid task0
                        | self uuid step mode choice task0 log Hmax Hbatch _ IH].
    + cbn. lia.
    + pose proof (_runStep_effect self uuid step mode choice
                    {| task := task0; llmRequests := log |}) as H.
      cbv zeta in H. cbn [task] in H.
      destruct H as (_ & _ & Hpast & Hmove).
      specialize (Hmove batch Hbatch).
      destruct (Z.lt_ge_cases maxCalls (nFunctionCalls (Task.extraState task0)))
        as [Hgt | Hle].
      * rewrite <- Hmax in Hgt. destruct (Hpast Hgt) as [-> _]. exact IH.
      * lia.
  - intros self uuid step kw log resp Hmax Hgt Hchat.
    unfold OpenAIAgentWorker.runStep. rewrite _runStep_WAIT.
    cbv zeta. cbn [task llmRequests]. rewrite Hchat.
    destruct (afterUserStep_counter self step t) as [Hn Hs].
    rewrite _shouldContinue_exceeded by (rewrite Hn, Hmax; exact Hgt).
    eexists. eexists. split; [reflexivity |]. cbn.
    rewrite Hn, Hs. repeat split.
Qed.

Lemma function_calls_bounded_witness :
  let resp := {| message := assistantMessage "" (Some sixCalls) |} in
  let self := workerWith (fixedLlm resp) [functionTool] 5 in
  let question := "sum 2 + 2?" in
  let t := task (snd (OpenAIAgentWorker.runStep self "step-1"
                        (firstStep self question) None (startWorld self question))) in
  reachable 5 6 t
  /\ nFunctionCalls (Task.extraState t) <= Z.max 0 (5 + Z.of_nat 6)
  /\ exists out w',
       OpenAIAgentWorker.runStep self "step-2"
         (TaskStep.getNextStep (firstStep self question) "step-2" None) None
         {| task := t; llmRequests := [] |} = (inr out, w')
       /\ TaskStepOutput.isDone out = true
       /\ TaskStepOutput.nextSteps out = []
       /\ nFunctionCalls (Task.extraState (task w'))
          = nFunctionCalls (Task.extraState t)
       /\ sources (Task.extraState (task w')) = sources (Task.extraState t).
Proof.
  intros resp self question t.
  assert (Hreach : reachable 5 6 t).
  { apply (reach_step 5 6 self "step-1" (firstStep self question) WAIT
             (OpenAIAgentWorker.toolChoiceOf None)
             (snd (OpenAIAgentWorker.initializeStep self "step-0"
                     (freshTask question))) []).
    - reflexivity.
    - intros req r H. injection H as <-. apply le_n.
    - apply reach_init. }
  split; [exact Hreach |].
  destruct (function_calls_bounded 5 6 t Hreach) as [Hbound Hdone].
  split; [exact Hbound |].
  apply (Hdone self "step-2"
           (TaskStep.getNextStep (firstStep self question) "step-2" None)
           None [] resp).
  - reflexivity.
  - vm_compute. reflexivity.
  - reflexivity.
Defined.

(** ** Dispatch of tool calls *)

(** A call with a function payload whose arguments parse is answered,
    whether its tool is known or not. *)
Lemma callFunction_returns (tools_ : list BaseTool) (c : OpenAIToolCall)
    (verbose : bool) (fc : FunctionCall) (v : JSONValue) :
  function c = Some fc ->
  JSON_parse (arguments fc) = Some v ->
  let toolOutput :=
    callToolWithErrorHandling (getFunctionByName tools_ (name fc)) v None in
  callFunction tools_ c verbose
  = inr ({| content := summary toolOutput;
            role := tool;
            additionalKwargs :=
              Some {| toolCalls := None;
                      kw_name := Some (name fc);
                      tool_call_id := Some (id c) |} |},
         toolOutput).
Proof.
  intros Hf Hp. unfold callFunction. rewrite Hf, Hp. reflexivity.
Qed.

Lemma answers_of_batch (tools_ : list BaseTool) (verbose : bool)
    (calls : list OpenAIToolCall) :
  (forall c, In c calls ->
             exists fc v, function c = Some fc
                          /\ JSON_parse (arguments fc) = Some v) ->
  exists results,
    Forall2 (fun c r => callFunction tools_ c verbose = inr r) calls results.
Proof.
  induction calls as [| c calls IH]; intros H.
  - exists []. constructor.
  - destruct (H c (or_introl eq_refl)) as (fc & v & Hf & Hp).
    destruct IH as [results Hres]; [intros c' Hin; apply H; right; exact Hin |].
    eexists (_ :: results). constructor; [| exact Hres].
    apply (callFunction_returns tools_ c verbose fc v Hf Hp).
Qed.

Lemma Forall2_In_left {A B : Type} (P : A -> B -> Prop) (l : list A)
    (l' : list B) (a : A) :
  Forall2 P l l' -> In a l -> exists b, In b l' /\ P a b.
Proof.
  induction 1 as [| x y l l' Hxy _ IH]; intros Hin; [contradiction |].
  destruct Hin as [-> | Hin].
  - exists y. split; [left; reflexivity | exact Hxy].
  - destruct (IH Hin) as (b & Hb & Hab). exists b. split; [right |]; assumption.
Qed.

(** A step that runs its batch to the end. *)
Lemma runStep_batch (self : OpenAIAgentWorker.t) (uuid : string)
    (step : TaskStep.t) (kw : option StepKwargs) (w : World)
    (resp : ChatResponse) (results : list (ChatMessage * ToolOutput)) :
  chat (OpenAIAgentWorker._llm self)
       (requestOf self step (OpenAIAgentWorker.toolChoiceOf kw) (task w))
  = inr resp ->
  nFunctionCalls (Task.extraState (task w))
    <= OpenAIAgentWorker._maxFunctionCalls self ->
  requestedToolCalls resp <> [] ->
  Forall2 (fun c r => callFunction
                        (OpenAIAgentWorker.getTools self (Task.input (task w)))
                        c (OpenAIAgentWorker._verbose self) = inr r)
          (requestedToolCalls resp) results ->
  exists out w',
    OpenAIAgentWorker.runStep self uuid step kw w = (inr out, w')
    /\ TaskStepOutput.isDone out = false
    /\ TaskStepOutput.nextSteps out = [TaskStep.getNextStep step uuid None]
    /\ Task.extraState (task w')
       = Task.extraState
           (afterBatch results
              (afterPut (message resp) (afterUserStep self step (task w)))).
Proof.
  intros Hchat Hle Hne Hres.
  unfold OpenAIAgentWorker.runStep. rewrite _runStep_WAIT. cbv zeta.
  rewrite Hchat.
  destruct (afterUserStep_counter self step (task w)) as [Hn _].
  replace (OpenAIAgentWorker._shouldContinue self _ _) with true
    by (symmetry; apply _shouldContinue_true; rewrite Hn; split; assumption).
  destruct (forEach_returns self _ _ _ Hres
              {| task := afterPut (message resp) (afterUserStep self step (task w));
                 llmRequests :=
                   (llmRequests w
                      ++ [requestOf self step
                            (OpenAIAgentWorker.toolChoiceOf kw) (task w)])%list |})
    as (w3 & Hrun & _ & _ & Hes).
  rewrite Hrun. cbn [task] in Hes.
  eexists. eexists. split; [reflexivity |]. cbn.
  repeat split. exact Hes.
Qed.

(** C3, as the claim states it, fails on two kinds of step in which the
    LLM response requests the unknown tool [nope].  First, a step that
    starts with the counter past the bound (here the bound is 0 and the
    first step made one call, to [sumNumbers]) dispatches nothing: the
    output is done, and no [ToolOutput] and no tool-role message come from
    the request.  Second, when the argument payload of the request does
    not parse, the step throws and records nothing. *)
Lemma unknown_tool_not_always_recorded :
  let question := "sum 2 + 2?" in
  let self := workerWith
                (twoPhaseLlm [toolCallTo "call-1" "sumNumbers" args_2_2]
                             [toolCallTo "call-2" "nope" args_2_2])
                [functionTool] 0 in
  let step2 := fst (advance self 1 (firstStep self question) (startWorld self question)) in
  let w1 := snd (advance self 1 (firstStep self question) (startWorld self question)) in
  let r := OpenAIAgentWorker.runStep self "step-2" step2 None w1 in
  let resp' := {| message :=
                    assistantMessage "" (Some [toolCallTo "call-1" "nope" args_truncated]) |} in
  let self' := workerWith (fixedLlm resp') [functionTool] 5 in
  let r' := OpenAIAgentWorker.runStep self' "step-1" (firstStep self' question) None
              (startWorld self' question) in
  getFunctionByName [functionTool] "nope" = None
  /\ (nFunctionCalls (Task.extraState (task w1)) = 1
      /\ match fst r with
         | inr out => TaskStepOutput.isDone out = true
                      /\ TaskStepOutput.nextSteps out = []
         | inl _ => False
         end
      /\ option_map requestedToolCalls
           (option_map (fun m => {| message := m |})
              (nth_error (ChatMemoryBuffer.get
                            (newMemory (Task.extraState (task (snd r))))) 3))
         = Some [toolCallTo "call-2" "nope" args_2_2]
      /\ sources (Task.extraState (task (snd r))) = sources (Task.extraState (task w1))
      /\ map role (ChatMemoryBuffer.get (newMemory (Task.extraState (task (snd r)))))
         = [user; assistant; tool; assistant])
  /\ (JSON_parse args_truncated = None
      /\ fst r' = inl (SyntaxError "Unexpected token in JSON")
      /\ sources (Task.extraState (task (snd r'))) = []
      /\ map role (ChatMemoryBuffer.get (newMemory (Task.extraState (task (snd r')))))
         = [user; assistant]).
Proof. vm_compute. repeat split. Qed.

(** C3, amended.  In a step that starts with the counter within the bound
    and in which every requested tool call has a function payload whose
    arguments parse as JSON, a call whose name matches no tool of the
    resolved tool set does not make [runStep] throw: the step returns, not
    done, with one successor step; the call is recorded like every call of
    the batch, by a [ToolOutput] with its error flag set among the sources
    and a tool-role message in scratch memory that carries the summary of
    that output, the name asked for and the id of the call. *)
Theorem unknown_tool_is_recoverable (self : OpenAIAgentWorker.t) (uuid : string)
    (step : TaskStep.t) (kw : option StepKwargs) (w : World)
    (resp : ChatResponse) (c : OpenAIToolCall) (fc : FunctionCall) :
  chat (OpenAIAgentWorker._llm self)
       (requestOf self step (OpenAIAgentWorker.toolChoiceOf kw) (task w))
  = inr resp ->
  nFunctionCalls (Task.extraState (task w))
    <= OpenAIAgentWorker._maxFunctionCalls self ->
  (forall c', In c' (requestedToolCalls resp) ->
              exists fc' v, function c' = Some fc'
                            /\ JSON_parse (arguments fc') = Some v) ->
  In c (requestedToolCalls resp) ->
  function c = Some fc ->
  getFunctionByName (OpenAIAgentWorker.getTools self (Task.input (task w))) (name fc)
  = None ->
  exists out w' results toolOutput,
    OpenAIAgentWorker.runStep self uuid step kw w = (inr out, w')
    /\ TaskStepOutput.isDone out = false
    /\ TaskStepOutput.nextSteps out = [TaskStep.getNextStep step uuid None]
    /\ Task.extraState (task w')
       = Task.extraState
           (afterBatch results
              (afterPut (message resp) (afterUserStep self step (task w))))
    /\ List.length results = List.length (requestedToolCalls resp)
    /\ isError toolOutput = true
    /\ In ({| content := summary toolOutput;
              role := tool;
              additionalKwargs :=
                Some {| toolCalls := None;
                        kw_name := Some (name fc);
                        tool_call_id := Some (id c) |} |},
           toolOutput) results.
Proof.
  intros Hchat Hle Hall Hin Hf Hunknown.
  destruct (answers_of_batch
              (OpenAIAgentWorker.getTools self (Task.input (task w)))
              (OpenAIAgentWorker._verbose self) _ Hall) as [results Hres].
  assert (Hne : requestedToolCalls resp <> [])
    by (intros Heq; rewrite Heq in Hin; contradiction).
  destruct (runStep_batch self uuid step kw w resp results Hchat Hle Hne Hres)
    as (out & w' & Hrun & Hdone & Hnext & Hes).
  destruct (Forall2_In_left _ _ _ _ Hres Hin) as (r & Hr & Hcall).
  destruct (Hall c Hin) as (fc' & v & Hf' & Hp).
  assert (fc' = fc) by congruence. subst fc'.
  rewrite (callFunction_returns _ c _ fc v Hf Hp) in Hcall.
  rewrite Hunknown in Hcall. injection Hcall as Hcall.
  exists out, w', results,
    (callToolWithErrorHandling None v None).
  repeat (split; [assumption |]).
  split; [symmetry; eapply Forall2_length; exact Hres |].
  split; [reflexivity |].
  rewrite <- Hcall in Hr. exact Hr.
Qed.

Lemma unknown_tool_is_recoverable_witness :
  let question := "sum 2 + 2?" in
  let c := toolCallTo "call-1" "nope" args_decimal in
  let fc := {| name := "nope"; arguments := args_decimal |} in
  let resp := {| message :=
                   assistantMessage ""
                     (Some [c; toolCallTo "call-2" "sumNumbers" args_2_2]) |} in
  let self := workerWith (fixedLlm resp) [functionTool] 5 in
  let step := firstStep self question in
  let w := startWorld self question in
  exists out w' results toolOutput,
    OpenAIAgentWorker.runStep self "step-1" step None w = (inr out, w')
    /\ TaskStepOutput.isDone out = false
    /\ TaskStepOutput.nextSteps out = [TaskStep.getNextStep step "step-1" None]
    /\ Task.extraState (task w')
       = Task.extraState
           (afterBatch results
              (afterPut (message resp) (afterUserStep self step (task w))))
    /\ List.length results = List.length (requestedToolCalls resp)
    /\ isError toolOutput = true
    /\ In ({| content := summary toolOutput;
              role := tool;
              additionalKwargs :=
                Some {| toolCalls := None;
                        kw_name := Some (name fc);
                        tool_call_id := Some (id c) |} |},
           toolOutput) results.
Proof.
  intros question c fc resp self step w.
  apply (unknown_tool_is_recoverable self "step-1" step None w resp c fc).
  - reflexivity.
  - vm_compute. discriminate.
  - intros c' [<- | [<- | []]]; eexists; eexists; split;
      solve [reflexivity | vm_compute; reflexivity].
  - left. reflexivity.
  - reflexivity.
  - reflexivity.
Defined.

(** C5, at a failing input.  The LLM asks for the known tool [sumNumbers]
    with a payload that is cut off and does not parse.  [JSON.parse] throws
    inside [callFunction], outside of the error handling of the tool call:
    the [SyntaxError] leaves [runStep], no [ToolOutput] is recorded, no
    tool-role message is appended and the counter stays at zero. *)
Lemma malformed_arguments_abort_step :
  let question := "sum 2 + 2?" in
  let resp := {| message :=
                   assistantMessage ""
                     (Some [toolCallTo "call-1" "sumNumbers" args_truncated]) |} in
  let self := workerWith (fixedLlm resp) [functionTool] 5 in
  let r := OpenAIAgentWorker.runStep self "step-1" (firstStep self question) None
             (startWorld self question) in
  JSON_parse args_truncated = None
  /\ getFunctionByName [functionTool] "sumNumbers" = Some functionTool
  /\ fst r = inl (SyntaxError "Unexpected token in JSON")
  /\ sources (Task.extraState (task (snd r))) = []
  /\ nFunctionCalls (Task.extraState (task (snd r))) = 0
  /\ map role (ChatMemoryBuffer.get (newMemory (Task.extraState (task (snd r)))))
     = [user; assistant].
Proof. vm_compute. repeat split. Qed.

(** C6.  The LLM response holds exactly one tool call, for a tool that
    returns 4 on the arguments [{a: 2, b: 2}], and the counter is 0 (and
    within the bound).  Then [runStep] returns; the tool-role message it
    appended to scratch memory, the last one, has the content ["4"], the
    name of the tool and the id of the call; the output recorded is not an
    error; and the counter is 1. *)
Theorem one_tool_call_round_trip (self : OpenAIAgentWorker.t) (uuid : string)
    (step : TaskStep.t) (kw : option StepKwargs) (w : World)
    (resp : ChatResponse) (c : OpenAIToolCall) (fc : FunctionCall)
    (sumTool : BaseTool) :
  chat (OpenAIAgentWorker._llm self)
       (requestOf self step (OpenAIAgentWorker.toolChoiceOf kw) (task w))
  = inr resp ->
  requestedToolCalls resp = [c] ->
  function c = Some fc ->
  getFunctionByName (OpenAIAgentWorker.getTools self (Task.input (task w))) (name fc)
  = Some sumTool ->
  JSON_parse (arguments fc) = Some (JObject [("a", JNumber 2); ("b", JNumber 2)]) ->
  call sumTool (JObject [("a", JNumber 2); ("b", JNumber 2)]) = inr (JNumber 4) ->
  nFunctionCalls (Task.extraState (task w)) = 0 ->
  0 <= OpenAIAgentWorker._maxFunctionCalls self ->
  exists out w',
    OpenAIAgentWorker.runStep self uuid step kw w = (inr out, w')
    /\ nFunctionCalls (Task.extraState (task w')) = 1
    /\ ChatMemoryBuffer.get (newMemory (Task.extraState (task w')))
       = (ChatMemoryBuffer.get (newMemory (Task.extraState (afterUserStep self step (task w))))
            ++ [message resp;
                {| content := "4";
                   role := tool;
                   additionalKwargs :=
                     Some {| toolCalls := None;
                             kw_name := Some (name fc);
                             tool_call_id := Some (id c) |} |}])%list
    /\ sources (Task.extraState (task w'))
       = (sources (Task.extraState (task w))
            ++ [{| summary := "4";
                   toolName := tool_name (metadata sumTool);
                   rawInput := JObject [("a", JNumber 2); ("b", JNumber 2)];
                   rawOutput := Some (JNumber 4);
                   isError := false |}])%list.
Proof.
  intros Hchat Hcalls Hf Htool Hp Hcall Hzero Hmax.
  pose proof (callFunction_returns
                (OpenAIAgentWorker.getTools self (Task.input (task w))) c
                (OpenAIAgentWorker._verbose self) fc _ Hf Hp) as Hret.
  cbv zeta in Hret. rewrite Htool in Hret.
  unfold callToolWithErrorHandling in Hret. rewrite Hcall in Hret.
  cbn [summary] in Hret.
  destruct (runStep_batch self uuid step kw w resp [_]
              Hchat ltac:(lia) ltac:(rewrite Hcalls; discriminate)
              ltac:(rewrite Hcalls; constructor; [exact Hret | constructor]))
    as (out & w' & Hrun & _ & _ & Hes).
  destruct (afterUserStep_counter self step (task w)) as [Hn Hs].
  exists out, w'. split; [exact Hrun |]. rewrite Hes. cbn.
  rewrite Hn, Hs, Hzero. unfold ChatMemoryBuffer.get.
  rewrite <- app_assoc. repeat split.
Qed.

Lemma one_tool_call_round_trip_witness :
  let question := "sum 2 + 2?" in
  let c := toolCallTo "call-1" "sumNumbers" args_2_2 in
  let fc := {| name := "sumNumbers"; arguments := args_2_2 |} in
  let resp := {| message := assistantMessage "" (Some [c]) |} in
  let self := workerWith (fixedLlm resp) [functionTool] 5 in
  let step := firstStep self question in
  let w := startWorld self question in
  exists out w',
    OpenAIAgentWorker.runStep self "step-1" step None w = (inr out, w')
    /\ nFunctionCalls (Task.extraState (task w')) = 1
    /\ ChatMemoryBuffer.get (newMemory (Task.extraState (task w')))
       = (ChatMemoryBuffer.get (newMemory (Task.extraState (afterUserStep self step (task w))))
            ++ [message resp;
                {| content := "4";
                   role := tool;
                   additionalKwargs :=
                     Some {| toolCalls := None;
                             kw_name := Some (name fc);
                             tool_call_id := Some (id c) |} |}])%list
    /\ sources (Task.extraState (task w'))
       = (sources (Task.extraState (task w))
            ++ [{| summary := "4";
                   toolName := tool_name (metadata functionTool);
                   rawInput := JObject [("a", JNumber 2); ("b", JNumber 2)];
                   rawOutput := Some (JNumber 4);
                   isError := false |}])%list.
Proof.
  intros question c fc resp self step w.
  apply (one_tool_call_round_trip self "step-1" step None w resp c fc functionTool).
  - reflexivity.
  - reflexivity.
  - reflexivity.
  - reflexivity.
  - vm_compute. reflexivity.
  - reflexivity.
  - reflexivity.
  - vm_compute. discriminate.
Defined.

(** * Further properties of the worker *)

Lemma afterBatch_nil_extraState (t : Task.t) :
  Task.extraState (afterBatch [] t) = Task.extraState t.
Proof.
  unfold afterBatch; simpl. rewrite !app_nil_r.
  destruct (Task.extraState t) as [s n [h]]; simpl.
  unfold ChatMemoryBuffer.get; simpl. f_equal. lia.
Qed.

Lemma afterBatch_extraState_cons (r : ChatMessage * ToolOutput)
    (rs : list (ChatMessage * ToolOutput)) (t t' : Task.t) :
  Task.extraState t' = Task.extraState (afterBatch rs (afterBatch [r] t)) ->
  Task.extraState t' = Task.extraState (afterBatch (r :: rs) t).
Proof. intros ->. rewrite afterBatch_cons. reflexivity. Qed.

Lemma afterUserStep_memory (self : OpenAIAgentWorker.t) (step : TaskStep.t)
    (t : Task.t) :
  ChatMemoryBuffer.get (newMemory (Task.extraState (afterUserStep self step t)))
  = (ChatMemoryBuffer.get (newMemory (Task.extraState t)) ++ userMessagesOf step)%list.
Proof.
  unfold afterUserStep, userMessagesOf, truthy, addUserStepToMemory.
  destruct (TaskStep.input step) as [text |]; simpl.
  - destruct (String.eqb text ""); simpl; [rewrite app_nil_r |]; reflexivity.
  - rewrite app_nil_r. reflexivity.
Qed.

(** Whether the method [callFunction] throws, and what, does not depend on
    the memory and the sources it is handed. *)
Lemma method_callFunction_throws (self : OpenAIAgentWorker.t)
    (tools_ : list BaseTool) (c : OpenAIToolCall)
    (m m' : ChatMemoryBuffer.t) (s s' : list ToolOutput) (e : exn) :
  OpenAIAgentWorker.callFunction self tools_ c m s = inl e ->
  OpenAIAgentWorker.callFunction self tools_ c m' s' = inl e.
Proof.
  unfold OpenAIAgentWorker.callFunction.
  destruct (function c); [| trivial].
  destruct (callFunction tools_ c _); [trivial | discriminate].
Qed.

Lemma dispatch_throws_method (self : OpenAIAgentWorker.t)
    (tools_ : list BaseTool) (c : OpenAIToolCall) (w : World) (e : exn) :
  OpenAIAgentWorker.callFunction self tools_ c ChatMemoryBuffer.new [] = inl e ->
  OpenAIAgentWorker.dispatch self tools_ c w = (inl e, w).
Proof.
  intros H.
  apply (method_callFunction_throws self tools_ c _
           (newMemory (Task.extraState (task w))) _
           (sources (Task.extraState (task w)))) in H.
  unfold OpenAIAgentWorker.dispatch, bind, getTask. rewrite H. reflexivity.
Qed.

Lemma method_callFunction_cases (self : OpenAIAgentWorker.t)
    (tools_ : list BaseTool) (c : OpenAIToolCall) :
  (exists r, callFunction tools_ c (OpenAIAgentWorker._verbose self) = inr r)
  \/ (exists e, OpenAIAgentWorker.callFunction self tools_ c ChatMemoryBuffer.new []
                = inl e).
Proof.
  unfold OpenAIAgentWorker.callFunction.
  destruct (function c) eqn:Hf; [| right; eauto].
  destruct (callFunction tools_ c _) as [e | r]; [right | left]; eauto.
Qed.

(** The batch loop, whatever its outcome: the calls before the first one
    that throws are recorded, in order; that call and the ones after it
    leave no trace. *)
Lemma forEach_outcome (self : OpenAIAgentWorker.t) (tools_ : list BaseTool)
    (calls : list OpenAIToolCall) :
  forall w, exists served rest results,
    calls = (served ++ rest)%list
    /\ Forall2 (fun c r => callFunction tools_ c (OpenAIAgentWorker._verbose self) = inr r)
               served results
    /\ Task.extraState (task (snd (forEach calls (OpenAIAgentWorker.dispatch self tools_) w)))
       = Task.extraState (afterBatch results (task w))
    /\ match fst (forEach calls (OpenAIAgentWorker.dispatch self tools_) w) with
       | inr _ => rest = []
       | inl e => exists bad rest',
                    rest = bad :: rest'
                    /\ OpenAIAgentWorker.callFunction self tools_ bad
                         ChatMemoryBuffer.new [] = inl e
       end.
Proof.
  induction calls as [| c calls IH]; intros w.
  - exists [], [], []. simpl. repeat split; [constructor |].
    symmetry. apply afterBatch_nil_extraState.
  - destruct (method_callFunction_cases self tools_ c) as [[r Hr] | [e He]].
    + simpl. erewrite bind_returns by (apply dispatch_returns; exact Hr).
      destruct (IH {| task := afterBatch [r] (task w); llmRequests := llmRequests w |})
        as (served & rest & results & Hsplit & Hres & Hes & Hout).
      exists (c :: served), rest, (r :: results).
      split; [simpl; congruence |].
      split; [constructor; assumption |].
      split; [apply afterBatch_extraState_cons; exact Hes | exact Hout].
    + simpl. erewrite bind_throws by (apply dispatch_throws_method; exact He).
      exists [], (c :: calls), []. simpl.
      split; [reflexivity |]. split; [constructor |].
      split; [symmetry; apply afterBatch_nil_extraState |].
      exists c, calls. split; [reflexivity | exact He].
Qed.

(** What any step does to the scratch state, in terms of what it adds. *)
Lemma _runStep_additions (self : OpenAIAgentWorker.t) (uuid : string)
    (step : TaskStep.t) (mode : ChatResponseMode) (choice : ToolChoice)
    (w : World) :
  let es := Task.extraState (task w) in
  let es' := Task.extraState
               (task (snd (OpenAIAgentWorker._runStep self uuid step mode choice w))) in
  exists msgs outs,
    ChatMemoryBuffer.get (newMemory es')
    = (ChatMemoryBuffer.get (newMemory es) ++ msgs)%list
    /\ sources es' = (sources es ++ outs)%list
    /\ nFunctionCalls es' = nFunctionCalls es + Z.of_nat (List.length outs).
Proof.
  cbv zeta.
  pose proof (afterUserStep_memory self step (task w)) as Hm.
  pose proof (afterUserStep_counter self step (task w)) as [Hn Hs].
  destruct mode.
  - rewrite _runStep_WAIT. cbv zeta.
    destruct (chat _ _) as [e | resp]; cbn [snd task].
    + exists (userMessagesOf step), []. rewrite Hm, Hn, Hs, app_nil_r.
      repeat split. simpl; lia.
    + destruct (OpenAIAgentWorker._shouldContinue self _ _).
      * match goal with
        | |- context [forEach ?l ?f ?x] =>
            destruct (forEach_outcome self
                        (OpenAIAgentWorker.getTools self (Task.input (task w))) l x)
              as (served & rest & results & _ & _ & Hes & _);
            destruct (forEach l f x) as [[e | []] w3]
        end; cbn [snd task] in *; rewrite Hes;
          exists (userMessagesOf step ++ [message resp] ++ map fst results)%list,
                 (map snd results);
          cbn; unfold ChatMemoryBuffer.get in *; rewrite Hm, Hn, Hs, length_map,
            <- !app_assoc; repeat split.
      * exists (userMessagesOf step ++ [message resp])%list, [].
        cbn. unfold ChatMemoryBuffer.get in *.
        rewrite Hm, Hn, Hs, app_nil_r, <- app_assoc. repeat split. simpl; lia.
  - destruct (streamStep_throws self uuid step choice w) as (w' & Hrun & Ht & _).
    rewrite Hrun; cbn [snd]. rewrite Ht.
    exists (userMessagesOf step), []. rewrite Hm, Hn, Hs, app_nil_r.
    repeat split. simpl; lia.
Qed.

(** X1.  A step, in either mode and whether it returns or throws, only
    appends: the scratch memory after the step is the scratch memory
    before it followed by new messages, the sources after it are the
    sources before it followed by new outputs, and the counter advances by
    exactly the number of new outputs. *)
Theorem step_only_appends (self : OpenAIAgentWorker.t) (uuid : string)
    (step : TaskStep.t) (mode : ChatResponseMode) (choice : ToolChoice)
    (w : World) :
  let es := Task.extraState (task w) in
  let es' := Task.extraState
               (task (snd (OpenAIAgentWorker._runStep self uuid step mode choice w))) in
  exists msgs outs,
    ChatMemoryBuffer.get (newMemory es')
    = (ChatMemoryBuffer.get (newMemory es) ++ msgs)%list
    /\ sources es' = (sources es ++ outs)%list
    /\ nFunctionCalls es' = nFunctionCalls es + Z.of_nat (List.length outs).
Proof. apply _runStep_additions. Qed.

(** X2.  In every task the worker drives, the counter of function calls
    is the number of tool outputs among the sources: each dispatched call
    is counted once and recorded once, also when a later call of the
    batch throws. *)
Theorem counter_counts_sources (maxCalls : Z) (batch : nat) (t : Task.t) :
  reachable maxCalls batch t ->
  nFunctionCalls (Task.extraState t)
  = Z.of_nat (List.length (sources (Task.extraState t))).
Proof.
  induction 1 as [self uuid task0
                 | self uuid step mode choice task0 log _ _ _ IH].
  - reflexivity.
  - destruct (_runStep_additions self uuid step mode choice
                {| task := task0; llmRequests := log |})
      as (msgs & outs & _ & Hs & Hn).
    cbn [task] in Hs, Hn. rewrite Hn, Hs, length_app, IH. lia.
Qed.

Lemma counter_counts_sources_witness :
  let resp := {| message := assistantMessage "" (Some sixCalls) |} in
  let self := workerWith (fixedLlm resp) [functionTool] 5 in
  let question := "sum 2 + 2?" in
  let t := task (snd (OpenAIAgentWorker.runStep self "step-1"
                        (firstStep self question) None (startWorld self question))) in
  reachable 5 6 t
  /\ nFunctionCalls (Task.extraState t)
     = Z.of_nat (List.length (sources (Task.extraState t))).
Proof.
  intros resp self question t.
  assert (Hreach : reachable 5 6 t).
  { apply (reach_step 5 6 self "step-1" (firstStep self question) WAIT
             (OpenAIAgentWorker.toolChoiceOf None)
             (snd (OpenAIAgentWorker.initializeStep self "step-0"
                     (freshTask question))) []).
    - reflexivity.
    - intros req r H. injection H as <-. apply le_n.
    - apply reach_init. }
  split; [exact Hreach |].
  apply (counter_counts_sources 5 6 t Hreach).
Defined.

(** X3.  [streamStep] always throws [Error("Not implemented")] and never
    calls the LLM; by then the user message of the step, if the step has
    a non-empty input, is already appended to scratch memory, and nothing
    else of the task has changed. *)
Theorem streamStep_not_implemented (self : OpenAIAgentWorker.t) (uuid : string)
    (step : TaskStep.t) (kw : option StepKwargs) (w : World) :
  let r := OpenAIAgentWorker.streamStep self uuid step kw w in
  fst r = inl (Error "Not implemented")
  /\ llmRequests (snd r) = llmRequests w
  /\ ChatMemoryBuffer.get (newMemory (Task.extraState (task (snd r))))
     = (ChatMemoryBuffer.get (newMemory (Task.extraState (task w)))
          ++ userMessagesOf step)%list
  /\ sources (Task.extraState (task (snd r))) = sources (Task.extraState (task w))
  /\ nFunctionCalls (Task.extraState (task (snd r)))
     = nFunctionCalls (Task.extraState (task w))
  /\ Task.memory (task (snd r)) = Task.memory (task w).
Proof.
  cbv zeta. unfold OpenAIAgentWorker.streamStep.
  destruct (streamStep_throws self uuid step (OpenAIAgentWorker.toolChoiceOf kw) w)
    as (w' & Hrun & Ht & Hlog).
  rewrite Hrun; cbn [fst snd]. rewrite Ht, Hlog, afterUserStep_memory.
  destruct (afterUserStep_counter self step (task w)) as [Hn Hs].
  destruct (sameFrame_afterUserStep self step (task w)) as (Hmem & _).
  repeat split; assumption.
Qed.

(** X4.  When the LLM call throws, [runStep] throws the same exception.
    The request has been sent, the user message of the step is already in
    scratch memory, and no tool was dispatched: sources and counter are as
    before. *)
Theorem runStep_llm_failure (self : OpenAIAgentWorker.t) (uuid : string)
    (step : TaskStep.t) (kw : option StepKwargs) (w : World) (e : exn) :
  chat (OpenAIAgentWorker._llm self)
       (requestOf self step (OpenAIAgentWorker.toolChoiceOf kw) (task w))
  = inl e ->
  let r := OpenAIAgentWorker.runStep self uuid step kw w in
  fst r = inl e
  /\ llmRequests (snd r)
     = (llmRequests w
          ++ [requestOf self step (OpenAIAgentWorker.toolChoiceOf kw) (task w)])%list
  /\ ChatMemoryBuffer.get (newMemory (Task.extraState (task (snd r))))
     = (ChatMemoryBuffer.get (newMemory (Task.extraState (task w)))
          ++ userMessagesOf step)%list
  /\ sources (Task.extraState (task (snd r))) = sources (Task.extraState (task w))
  /\ nFunctionCalls (Task.extraState (task (snd r)))
     = nFunctionCalls (Task.extraState (task w)).
Proof.
  intros Hchat. cbv zeta. unfold OpenAIAgentWorker.runStep.
  rewrite _runStep_WAIT. cbv zeta. rewrite Hchat. cbn [fst snd task llmRequests].
  rewrite afterUserStep_memory.
  destruct (afterUserStep_counter self step (task w)) as [Hn Hs].
  repeat split; assumption.
Qed.

Lemma runStep_llm_failure_witness :
  let self := workerWith (newOpenAI "gpt-3.5-turbo-1106") [functionTool] 5 in
  let question := "sum 2 + 2?" in
  let step := firstStep self question in
  let w := startWorld self question in
  let r := OpenAIAgentWorker.runStep self "step-1" step None w in
  fst r = inl (Error "no network")
  /\ llmRequests (snd r)
     = (llmRequests w
          ++ [requestOf self step (OpenAIAgentWorker.toolChoiceOf None) (task w)])%list
  /\ ChatMemoryBuffer.get (newMemory (Task.extraState (task (snd r))))
     = (ChatMemoryBuffer.get (newMemory (Task.extraState (task w)))
          ++ userMessagesOf step)%list
  /\ sources (Task.extraState (task (snd r))) = sources (Task.extraState (task w))
  /\ nFunctionCalls (Task.extraState (task (snd r)))
     = nFunctionCalls (Task.extraState (task w)).
Proof.
  intros self question step w.
  apply (runStep_llm_failure self "step-1" step None w (Error "no network")).
  reflexivity.
Defined.

(** The method [callFunction] throws in two cases and no other: the tool
    call has no function payload, or its arguments are not JSON. *)
Lemma method_callFunction_throws_iff (self : OpenAIAgentWorker.t)
    (tools_ : list BaseTool) (c : OpenAIToolCall) (memory_ : ChatMemoryBuffer.t)
    (sources_ : list ToolOutput) (e : exn) :
  OpenAIAgentWorker.callFunction self tools_ c memory_ sources_ = inl e
  <-> (function c = None /\ e = Error "Invalid tool_call object")
      \/ (exists fc, function c = Some fc
                     /\ JSON_parse (arguments fc) = None
                     /\ e = SyntaxError "Unexpected token in JSON").
Proof.
  unfold OpenAIAgentWorker.callFunction, callFunction.
  destruct (function c) as [fc |].
  - destruct (JSON_parse (arguments fc)) as [v |] eqn:Hp.
    + split; [discriminate |].
      intros [[H _] | (fc' & H & Hp' & _)]; [discriminate |].
      injection H as <-. congruence.
    + split.
      * intros H; injection H as <-. right. exists fc.
        split; [reflexivity | split; [exact Hp | reflexivity]].
      * intros [[H _] | (fc' & _ & _ & ->)]; [discriminate | reflexivity].
  - split.
    + intros H; injection H as <-. left. split; reflexivity.
    + intros [[_ ->] | (fc' & H & _)]; [reflexivity | discriminate].
Qed.




(** What a step that returns an output that is not done has done: it
    started within the bound and dispatched at least one call. *)
Lemma runStep_continuing (self : OpenAIAgentWorker.t) (uuid : string)
    (step : TaskStep.t) (kw : option StepKwargs) (w w' : World)
    (out : TaskStepOutput.t) :
  OpenAIAgentWorker.runStep self uuid step kw w = (inr out, w') ->
  TaskStepOutput.isDone out = false ->
  nFunctionCalls (Task.extraState (task w)) <= OpenAIAgentWorker._maxFunctionCalls self
  /\ nFunctionCalls (Task.extraState (task w)) + 1
     <= nFunctionCalls (Task.extraState (task w')).
Proof.
  unfold OpenAIAgentWorker.runStep. rewrite _runStep_WAIT. cbv zeta.
  destruct (chat _ _) as [e | resp]; [discriminate |].
  destruct (afterUserStep_counter self step (task w)) as [Hn _].
  destruct (OpenAIAgentWorker._shouldContinue self _ _) eqn:Hc.
  - apply _shouldContinue_true in Hc. destruct Hc as [Hle Hne]. rewrite Hn in Hle.
    match goal with
    | |- context [forEach ?l ?f ?x] =>
        destruct (forEach_outcome self
                    (OpenAIAgentWorker.getTools self (Task.input (task w))) l x)
          as (served & rest & results & Hsplit & Hres & Hes & Hout);
        destruct (forEach l f x) as [[e | []] w3]
    end; [discriminate |].
    intros H _; injection H as _ <-. cbn [fst snd] in Hes, Hout. subst rest.
    rewrite app_nil_r in Hsplit. subst served.
    rewrite Hes. cbn. rewrite Hn. split; [exact Hle |].
    apply Forall2_length in Hres.
    destruct (requestedToolCalls resp); [congruence |].
    simpl in Hres. rewrite <- Hres. lia.
  - intros H; injection H as <- _. discriminate.
Qed.

(** X6.  The loop of steps is bounded: [n] calls of [runStep] in a row
    that each return an output that is not done advance the counter by at
    least [n], and there can be at most
    [maxFunctionCalls + 1 - nFunctionCalls] of them. *)
Theorem continuing_steps_bounded (self : OpenAIAgentWorker.t) (n : nat)
    (w w' : World) :
  continues self n w w' ->
  nFunctionCalls (Task.extraState (task w)) + Z.of_nat n
    <= nFunctionCalls (Task.extraState (task w'))
  /\ (n <> O ->
      nFunctionCalls (Task.extraState (task w)) + Z.of_nat n
        <= OpenAIAgentWorker._maxFunctionCalls self + 1).
Proof.
  induction 1 as [w | n w w1 w2 uuid step kw out Hrun Hdone _ [IH1 IH2]].
  - split; [lia | congruence].
  - destruct (runStep_continuing self uuid step kw w w1 out Hrun Hdone) as [Hle Hinc].
    split; [lia |]. intros _.
    destruct n as [| n]; [lia |].
    specialize (IH2 ltac:(discriminate)). lia.
Qed.

Lemma continuing_steps_bounded_witness :
  let question := "sum 2 + 2?" in
  let self := workerWith (scriptedLlm [toolCallTo "call-1" "sumNumbers" args_2_2])
                [functionTool] 5 in
  let w := startWorld self question in
  let w' := snd (OpenAIAgentWorker.runStep self "step-1" (firstStep self question)
                   None w) in
  continues self 1 w w'
  /\ nFunctionCalls (Task.extraState (task w)) + Z.of_nat 1
       <= nFunctionCalls (Task.extraState (task w'))
  /\ (1%nat <> O ->
      nFunctionCalls (Task.extraState (task w)) + Z.of_nat 1
        <= OpenAIAgentWorker._maxFunctionCalls self + 1).
Proof.
  intros question self w w'.
  assert (Hc : continues self 1 w w').
  { eapply (continues_S self 0 w w' w' "step-1" (firstStep self question) None).
    - vm_compute. reflexivity.
    - reflexivity.
    - apply continues_O. }
  split; [exact Hc |].
  apply (continuing_steps_bounded self 1 w w' Hc).
Defined.

(** X7.  When the LLM answers and [runStep] returns, the output is done
    exactly when the counter was past the bound at the start of the step
    or the response requests no tool call. *)
Theorem runStep_done_iff (self : OpenAIAgentWorker.t) (uuid : string)
    (step : TaskStep.t) (kw : option StepKwargs) (w w' : World)
    (resp : ChatResponse) (out : TaskStepOutput.t) :
  chat (OpenAIAgentWorker._llm self)
       (requestOf self step (OpenAIAgentWorker.toolChoiceOf kw) (task w))
  = inr resp ->
  OpenAIAgentWorker.runStep self uuid step kw w = (inr out, w') ->
  (TaskStepOutput.isDone out = true
   <-> OpenAIAgentWorker._maxFunctionCalls self
         < nFunctionCalls (Task.extraState (task w))
       \/ requestedToolCalls resp = []).
Proof.
  intros Hchat. unfold OpenAIAgentWorker.runStep. rewrite _runStep_WAIT. cbv zeta.
  rewrite Hchat.
  destruct (afterUserStep_counter self step (task w)) as [Hn _].
  destruct (OpenAIAgentWorker._shouldContinue self _ _) eqn:Hc.
  - apply _shouldContinue_true in Hc. destruct Hc as [Hle Hne]. rewrite Hn in Hle.
    destruct_batch e w3; [discriminate |].
    intros H; injection H as <- _. cbn.
    split; [discriminate | intros [Hgt | Hnil]; [lia | contradiction]].
  - intros H; injection H as <- _. cbn. split; [intros _ | reflexivity].
    destruct (Z.lt_ge_cases (OpenAIAgentWorker._maxFunctionCalls self)
                (nFunctionCalls (Task.extraState (task w)))) as [Hgt | Hle];
      [left; exact Hgt | right].
    destruct (requestedToolCalls resp) as [| c l] eqn:Hreq; [reflexivity |].
    assert (Ht : OpenAIAgentWorker._shouldContinue self (Some (c :: l))
                   (nFunctionCalls
                      (Task.extraState (afterUserStep self step (task w)))) = true)
      by (apply _shouldContinue_true; rewrite Hn; split; [lia | discriminate]).
    congruence.
Qed.

Lemma runStep_done_iff_witness :
  let question := "sum 2 + 2?" in
  let resp := {| message := assistantMessage "4" None |} in
  let self := workerWith (fixedLlm resp) [functionTool] 5 in
  let w := startWorld self question in
  exists out w',
    OpenAIAgentWorker.runStep self "step-1" (firstStep self question) None w
    = (inr out, w')
    /\ (TaskStepOutput.isDone out = true
        <-> OpenAIAgentWorker._maxFunctionCalls self
              < nFunctionCalls (Task.extraState (task w))
            \/ requestedToolCalls resp = []).
Proof.
  intros question resp self w. eexists. eexists. split.
  - vm_compute. reflexivity.
  - eapply (runStep_done_iff self "step-1" (firstStep self question) None w).
    + reflexivity.
    + vm_compute. reflexivity.
Defined.

(** X8.  A whole turn of plain chat: [initializeStep], one [runStep] whose
    LLM response requests no tool call, then [finalizeTask].  The step is
    done, and the persistent memory ends up as it was before the turn,
    followed by the user message of the task input and by the reply;
    whatever scratch state the task had before the turn is discarded, and
    an empty input contributes no user message. *)
Theorem chat_turn_extends_memory (self : OpenAIAgentWorker.t) (uuid0 uuid1 : string)
    (kw : option StepKwargs) (t : Task.t) (log : list ChatParams)
    (resp : ChatResponse) :
  let step := fst (OpenAIAgentWorker.initializeStep self uuid0 t) in
  let t1 := snd (OpenAIAgentWorker.initializeStep self uuid0 t) in
  chat (OpenAIAgentWorker._llm self)
       (requestOf self step (OpenAIAgentWorker.toolChoiceOf kw) t1)
  = inr resp ->
  requestedToolCalls resp = [] ->
  exists out w2,
    OpenAIAgentWorker.runStep self uuid1 step kw {| task := t1; llmRequests := log |}
    = (inr out, w2)
    /\ TaskStepOutput.isDone out = true
    /\ response (TaskStepOutput.output out) = content (message resp)
    /\ ChatMemoryBuffer.get
         (Task.memory (OpenAIAgentWorker.finalizeTask self (task w2)))
       = (ChatMemoryBuffer.get (Task.memory t)
            ++ (if String.eqb (Task.input t) "" then []
                else [{| content := Task.input t; role := user;
                         additionalKwargs := None |}])
            ++ [message resp])%list
    /\ ChatMemoryBuffer.get
         (newMemory (Task.extraState (OpenAIAgentWorker.finalizeTask self (task w2))))
       = [].
Proof.
  cbv zeta. intros Hchat Hcalls.
  unfold OpenAIAgentWorker.runStep. rewrite _runStep_WAIT. cbv zeta.
  cbn [task llmRequests]. rewrite Hchat, Hcalls.
  replace (OpenAIAgentWorker._shouldContinue self (Some []) _) with false
    by (unfold OpenAIAgentWorker._shouldContinue; destruct (Z.ltb _ _); reflexivity).
  eexists. eexists. split; [reflexivity |].
  split; [reflexivity |]. split; [reflexivity |].
  split; [| reflexivity].
  cbn [task]. unfold OpenAIAgentWorker.finalizeTask.
  cbn [Task.memory Task.with_memory Task.with_extraState ChatMemoryBuffer.set
       ChatMemoryBuffer.get ChatMemoryBuffer.chatHistory].
  pose proof (afterUserStep_memory self
                (fst (OpenAIAgentWorker.initializeStep self uuid0 t))
                (snd (OpenAIAgentWorker.initializeStep self uuid0 t))) as Hm.
  destruct (sameFrame_afterUserStep self
              (fst (OpenAIAgentWorker.initializeStep self uuid0 t))
              (snd (OpenAIAgentWorker.initializeStep self uuid0 t))) as (Hmem & _).
  unfold ChatMemoryBuffer.get in *.
  cbn [afterPut Task.extraState Task.with_extraState Task.memory newMemory
       ChatMemoryBuffer.put ChatMemoryBuffer.chatHistory].
  rewrite Hm, Hmem. cbn. unfold userMessagesOf. cbn.
  destruct (String.eqb (Task.input t) ""); cbn; reflexivity.
Qed.

Lemma chat_turn_extends_memory_witness :
  let resp := {| message := assistantMessage "Hello!" None |} in
  let self := workerWith (fixedLlm resp) [] 5 in
  let t := freshTask "hi" in
  let step := fst (OpenAIAgentWorker.initializeStep self "step-0" t) in
  let t1 := snd (OpenAIAgentWorker.initializeStep self "step-0" t) in
  exists out w2,
    OpenAIAgentWorker.runStep self "step-1" step None {| task := t1; llmRequests := [] |}
    = (inr out, w2)
    /\ TaskStepOutput.isDone out = true
    /\ response (TaskStepOutput.output out) = content (message resp)
    /\ ChatMemoryBuffer.get
         (Task.memory (OpenAIAgentWorker.finalizeTask self (task w2)))
       = (ChatMemoryBuffer.get (Task.memory t)
            ++ (if String.eqb (Task.input t) "" then []
                else [{| content := Task.input t; role := user;
                         additionalKwargs := None |}])
            ++ [message resp])%list
    /\ ChatMemoryBuffer.get
         (newMemory (Task.extraState (OpenAIAgentWorker.finalizeTask self (task w2))))
       = [].
Proof.
  intros resp self t step t1.
  apply (chat_turn_extends_memory self "step-0" "step-1" None t [] resp);
    reflexivity.
Defined.

(** X9.  Unless both a non-empty tool list and a tool retriever are given,
    the constructor returns a worker, and that worker resolves its tools
    from exactly one place: the tool list when it is non-empty, for every
    input; otherwise the retriever applied to the input; otherwise no
    tools.  Omitted parameters take their defaults: bound 5, not verbose,
    no prefix messages, a new client for model [gpt-3.5-turbo-1106]. *)
Theorem constructor_resolves_tools (newOpenAI_ : string -> OpenAI)
    (params : OpenAIAgentWorkerParams) :
  p_tools params = [] \/ p_toolRetriever params = None ->
  exists self,
    OpenAIAgentWorker.constructor newOpenAI_ params = inr self
    /\ (forall input_,
          OpenAIAgentWorker.getTools self input_
          = match p_tools params, p_toolRetriever params with
            | _ :: _, _ => p_tools params
            | [], Some toolRetriever => retrieve toolRetriever input_
            | [], None => []
            end)
    /\ OpenAIAgentWorker._maxFunctionCalls self
       = match p_maxFunctionCalls params with Some n => n | None => 5 end
    /\ OpenAIAgentWorker._verbose self
       = match p_verbose params with Some b => b | None => false end
    /\ OpenAIAgentWorker.prefixMessages self
       = match p_prefixMessages params with Some l => l | None => [] end
    /\ OpenAIAgentWorker._llm self
       = match p_llm params with
         | Some l => l
         | None => newOpenAI_ "gpt-3.5-turbo-1106"
         end.
Proof.
  intros H. unfold OpenAIAgentWorker.constructor.
  destruct (p_tools params) as [| x l] eqn:Ht; cbn [List.length Nat.ltb Nat.leb andb].
  - destruct (p_toolRetriever params) as [r |]; eexists; split; try reflexivity;
      repeat split.
  - destruct H as [H | H]; [discriminate |]. rewrite H.
    eexists; split; [reflexivity |]. repeat split.
Qed.

Lemma constructor_resolves_tools_witness :
  let params := {| p_tools := []; p_llm := None; p_prefixMessages := None;
                   p_verbose := None; p_maxFunctionCalls := None;
                   p_toolRetriever := Some {| retrieve := fun _ => [functionTool] |} |} in
  exists self,
    OpenAIAgentWorker.constructor newOpenAI params = inr self
    /\ (forall input_,
          OpenAIAgentWorker.getTools self input_
          = match p_tools params, p_toolRetriever params with
            | _ :: _, _ => p_tools params
            | [], Some toolRetriever => retrieve toolRetriever input_
            | [], None => []
            end)
    /\ OpenAIAgentWorker._maxFunctionCalls self
       = match p_maxFunctionCalls params with Some n => n | None => 5 end
    /\ OpenAIAgentWorker._verbose self
       = match p_verbose params with Some b => b | None => false end
    /\ OpenAIAgentWorker.prefixMessages self
       = match p_prefixMessages params with Some l => l | None => [] end
    /\ OpenAIAgentWorker._llm self
       = match p_llm params with
         | Some l => l
         | None => newOpenAI "gpt-3.5-turbo-1106"
         end.
Proof.
  intros params.
  apply (constructor_resolves_tools newOpenAI params).
  left. reflexivity.
Defined.

(** The latest tool calls are read off the last message of scratch
    memory. *)
Lemma getLatestToolCalls_snoc (self : OpenAIAgentWorker.t) (t : Task.t)
    (h : list ChatMessage) (m : ChatMessage) :
  ChatMemoryBuffer.get (newMemory (Task.extraState t)) = (h ++ [m])%list ->
  OpenAIAgentWorker.getLatestToolCalls self t
  = match additionalKwargs m with
    | Some kwargs_ => property (toolCalls kwargs_)
    | None => js_undefined
    end.
Proof.
  intros Hmem.
  unfold OpenAIAgentWorker.getLatestToolCalls, ChatMemoryBuffer.getAll.
  rewrite Hmem, length_app. cbn [List.length].
  replace (Nat.eqb (List.length h + 1) 0) with false
    by (symmetry; apply Nat.eqb_neq; lia).
  replace (List.length h + 1 - 1)%nat with (List.length h) by lia.
  rewrite nth_error_app2 by lia. rewrite Nat.sub_diag. reflexivity.
Qed.

(** The message the module-level [callFunction] returns carries a name and
    a call id, and no tool calls. *)
Lemma callFunction_message (tools_ : list BaseTool) (c : OpenAIToolCall)
    (verbose : bool) (r : ChatMessage * ToolOutput) :
  callFunction tools_ c verbose = inr r ->
  role (fst r) = tool
  /\ exists kwargs_, additionalKwargs (fst r) = Some kwargs_
                     /\ toolCalls kwargs_ = None
                     /\ tool_call_id kwargs_ = Some (id c).
Proof.
  unfold callFunction. destruct (function c) as [fc |]; [| discriminate].
  destruct (JSON_parse (arguments fc)) as [v |]; [| discriminate].
  intros H; injection H as <-. cbn. split; [reflexivity |].
  eexists. repeat split.
Qed.

(** X10.  [getLatestToolCalls] keeps [null] and [undefined] apart.  It
    returns [null] exactly when scratch memory is empty, as it is right
    after [initializeStep].  Once [runStep] has returned it does not
    return [null]: after a step that is done it returns the [toolCalls] of
    the LLM's message, [undefined] when the message carries none; after a
    step that is not done it returns [undefined], because the last message
    of scratch memory is then the tool-role message of the last call
    dispatched, and not the message that requested the calls. *)
Theorem getLatestToolCalls_null_or_undefined (self : OpenAIAgentWorker.t)
    (uuid0 uuid : string) (step : TaskStep.t) (kw : option StepKwargs)
    (t0 : Task.t) (w w' : World) (resp : ChatResponse) (out : TaskStepOutput.t) :
  chat (OpenAIAgentWorker._llm self)
       (requestOf self step (OpenAIAgentWorker.toolChoiceOf kw) (task w))
  = inr resp ->
  OpenAIAgentWorker.runStep self uuid step kw w = (inr out, w') ->
  (forall t, OpenAIAgentWorker.getLatestToolCalls self t = js_null
             <-> ChatMemoryBuffer.get (newMemory (Task.extraState t)) = [])
  /\ OpenAIAgentWorker.getLatestToolCalls self
       (snd (OpenAIAgentWorker.initializeStep self uuid0 t0)) = js_null
  /\ OpenAIAgentWorker.getLatestToolCalls self (task w') <> js_null
  /\ OpenAIAgentWorker.getLatestToolCalls self (task w')
     = if TaskStepOutput.isDone out
       then match additionalKwargs (message resp) with
            | Some kwargs_ => property (toolCalls kwargs_)
            | None => js_undefined
            end
       else js_undefined.
Proof.
  intros Hchat Hrun.
  assert (Hnull : forall t,
             OpenAIAgentWorker.getLatestToolCalls self t = js_null
             <-> ChatMemoryBuffer.get (newMemory (Task.extraState t)) = []).
  { intros t.
    destruct (ChatMemoryBuffer.get (newMemory (Task.extraState t)))
      as [| m h _] eqn:Hmem using rev_ind.
    - split; [reflexivity | intros _].
      unfold OpenAIAgentWorker.getLatestToolCalls, ChatMemoryBuffer.getAll.
      rewrite Hmem. reflexivity.
    - rewrite (getLatestToolCalls_snoc self t h m Hmem).
      split; [| intros H; destruct h; discriminate].
      destruct (additionalKwargs m) as [kwargs_ |]; [| discriminate].
      destruct (toolCalls kwargs_); discriminate. }
  split; [exact Hnull |]. split; [reflexivity |].
  assert (Hlast : OpenAIAgentWorker.getLatestToolCalls self (task w')
                  = if TaskStepOutput.isDone out
                    then match additionalKwargs (message resp) with
                         | Some kwargs_ => property (toolCalls kwargs_)
                         | None => js_undefined
                         end
                    else js_undefined).
  { revert Hrun. unfold OpenAIAgentWorker.runStep. rewrite _runStep_WAIT. cbv zeta.
    rewrite Hchat.
    destruct (OpenAIAgentWorker._shouldContinue self _ _) eqn:Hc.
    - apply _shouldContinue_true in Hc. destruct Hc as [_ Hne].
      match goal with
      | |- context [forEach ?l ?f ?x] =>
          destruct (forEach_outcome self
                      (OpenAIAgentWorker.getTools self (Task.input (task w))) l x)
            as (served & rest & results & Hsplit & Hres & Hes & Hout);
          destruct (forEach l f x) as [[e | []] w3]
      end; [discriminate |].
      intros H; injection H as <- <-. cbn [fst snd TaskStepOutput.isDone] in *.
      subst rest. rewrite app_nil_r in Hsplit. subst served.
      destruct results as [| r results _] using rev_ind.
      + inversion Hres as [Hnil |]. congruence.
      + apply Forall2_app_inv_r in Hres.
        destruct Hres as (l1 & l2 & _ & Hr & _).
        inversion Hr as [| c r' l2' rs' Hcall Hrest]; subst.
        destruct (callFunction_message _ _ _ _ Hcall) as (_ & kwargs_ & Hk & Hcalls & _).
        rewrite (getLatestToolCalls_snoc self (task w3)
                   (ChatMemoryBuffer.get
                      (newMemory (Task.extraState
                         (afterPut (message resp) (afterUserStep self step (task w)))))
                    ++ map fst results)%list (fst r)).
        * rewrite Hk, Hcalls. reflexivity.
        * rewrite Hes. cbn. unfold ChatMemoryBuffer.get.
          rewrite map_app, app_assoc. reflexivity.
    - intros H; injection H as <- <-. cbn [task TaskStepOutput.isDone].
      apply getLatestToolCalls_afterPut. }
  split; [| exact Hlast].
  rewrite Hlast. destruct (TaskStepOutput.isDone out); [| discriminate].
  destruct (additionalKwargs (message resp)) as [kwargs_ |]; [| discriminate].
  destruct (toolCalls kwargs_); discriminate.
Qed.

Lemma getLatestToolCalls_null_or_undefined_witness :
  let question := "sum 2 + 2?" in
  let resp := {| message :=
                   assistantMessage ""
                     (Some [toolCallTo "call-1" "sumNumbers" args_2_2]) |} in
  let self := workerWith (fixedLlm resp) [functionTool] 5 in
  let w := startWorld self question in
  exists out w',
    OpenAIAgentWorker.runStep self "step-1" (firstStep self question) None w
    = (inr out, w')
    /\ TaskStepOutput.isDone out = false
    /\ OpenAIAgentWorker.getLatestToolCalls self (task w) = js_null
    /\ OpenAIAgentWorker.getLatestToolCalls self (task w') = js_undefined
    /\ orElse (OpenAIAgentWorker.getLatestToolCalls self (task w')) []
       = orElse (OpenAIAgentWorker.getLatestToolCalls self (task w)) [].
Proof.
  intros question resp self w. eexists. eexists.
  split; [vm_compute; reflexivity |].
  split; [reflexivity |].
  destruct (getLatestToolCalls_null_or_undefined self "step-0" "step-1"
              (firstStep self question) None (freshTask question) w _ resp _
              eq_refl eq_refl) as (_ & Hinit & _ & Hlast).
  split; [exact Hinit |].
  split; [exact Hlast |].
  vm_compute. reflexivity.
Defined.

(** * Properties of the vector stores *)

(** ** Arrays *)

(** A slice that starts inside the array and has a positive size is the
    next [size] elements, or what is left of the array. *)
Lemma slice_in_range {A : Type} (i size : Z) (l : list A) :
  0 <= i <= Z.of_nat (List.length l) ->
  0 <= size ->
  JSArray.slice i (i + size) l = firstn (Z.to_nat size) (skipn (Z.to_nat i) l).
Proof.
  intros Hi Hs. unfold JSArray.slice, JSArray.relativeIndex.
  destruct (Z.ltb_spec i 0); [lia |].
  destruct (Z.ltb_spec (i + size) 0); [lia |].
  rewrite (Z.min_l i) by lia.
  destruct (Z.le_ge_cases (i + size) (Z.of_nat (List.length l))) as [Hle | Hge].
  - rewrite Z.min_l by lia. f_equal. lia.
  - rewrite Z.min_r by lia.
    rewrite Z.max_l by lia.
    rewrite (firstn_all2 (n := Z.to_nat size)) by (rewrite length_skipn; lia).
    apply firstn_all2. rewrite length_skipn. lia.
Qed.

Lemma map_fails_or_returns {A B : Type} (f : A -> exn + B) (l : list A) :
  (exists e x, In x l /\ f x = inl e /\ JSArray.map f l = inl e)
  \/ (exists ys, JSArray.map f l = inr ys
                 /\ Forall2 (fun x y => f x = inr y) l ys).
Proof.
  induction l as [| x l IH]; simpl.
  - right. exists []. split; [reflexivity | constructor].
  - destruct (f x) as [e | y] eqn:Hx.
    + left. exists e, x. repeat split; auto.
    + destruct IH as [(e & x' & Hin & Hx' & Hmap) | (ys & Hmap & Hall)].
      * left. exists e, x'. rewrite Hmap. repeat split; auto.
      * right. exists (y :: ys). rewrite Hmap. split; [reflexivity |].
        constructor; assumption.
Qed.

Lemma map_returns_inv {A B : Type} (f : A -> exn + B) (l : list A)
    (ys : list B) :
  JSArray.map f l = inr ys -> Forall2 (fun x y => f x = inr y) l ys.
Proof.
  intros H. destruct (map_fails_or_returns f l)
    as [(e & x & _ & _ & Hmap) | (ys' & Hmap & Hall)]; congruence.
Qed.

(** ** The Astra DB store *)

Lemma toRow_id (nodes : list Node.BaseNode) (rows : list AstraDBVectorStore.Row) :
  Forall2 (fun x y => AstraDBVectorStore.toRow x = inr y) nodes rows ->
  List.map AstraDBVectorStore._id rows = List.map Node.id_ nodes.
Proof.
  induction 1 as [| node row nodes rows Hrow _ IH]; [reflexivity |].
  simpl. rewrite IH. f_equal.
  unfold AstraDBVectorStore.toRow in Hrow.
  destruct (Node.getEmbedding node); [discriminate |].
  destruct (Node.getContent node Node.ALL); [discriminate |].
  injection Hrow as <-. reflexivity.
Qed.

(** The batches the loop makes from index [i] on: they are what is left of
    the array, cut into runs of twenty with a shorter last one. *)
Lemma batchLoop_spec (fuel : nat) :
  forall (i : Z) (data : list AstraDBVectorStore.Row)
         (acc : list (list AstraDBVectorStore.Row)),
    0 <= i ->
    Z.of_nat (List.length data) - i <= Z.of_nat fuel ->
    exists batches : list (list AstraDBVectorStore.Row),
      AstraDBVectorStore.batchLoop fuel i data acc = Some (acc ++ batches)%list
      /\ List.concat batches = skipn (Z.to_nat i) data
      /\ Forall (fun b => (1 <= List.length b <= 20)%nat) batches
      /\ Forall (fun b => List.length b = 20%nat) (removelast batches).
Proof.
  induction fuel as [| fuel IH]; intros i data acc Hi Hfuel.
  - exists []. simpl.
    destruct (Z.ltb_spec i (Z.of_nat (List.length data))); [lia |].
    rewrite app_nil_r, skipn_all2 by lia. repeat split; constructor.
  - simpl. destruct (Z.ltb_spec i (Z.of_nat (List.length data))) as [Hlt | Hge].
    + unfold AstraDBVectorStore.MAX_INSERT_BATCH_SIZE.
      rewrite slice_in_range by lia.
      destruct (IH (i + 20) data
                  (acc ++ [firstn (Z.to_nat 20) (skipn (Z.to_nat i) data)])%list
                  ltac:(lia) ltac:(lia))
        as (batches & Hrun & Hcat & Hsize & Hfull).
      exists (firstn (Z.to_nat 20) (skipn (Z.to_nat i) data) :: batches).
      rewrite Hrun, <- app_assoc. split; [reflexivity |].
      assert (Hskip : skipn (Z.to_nat (i + 20)) data
                      = skipn (Z.to_nat 20) (skipn (Z.to_nat i) data))
        by (rewrite skipn_skipn; f_equal; lia).
      split; [| split].
      * rewrite concat_cons, Hcat, Hskip. apply firstn_skipn.
      * constructor; [| exact Hsize].
        rewrite length_firstn, length_skipn. lia.
      * destruct batches as [| b batches']; [constructor |].
        change (removelast (?x :: b :: batches'))
          with (x :: removelast (b :: batches')).
        constructor; [| exact Hfull].
        assert (Hne : skipn (Z.to_nat (i + 20)) data <> [])
          by (rewrite <- Hcat; inversion Hsize as [| ? ? Hb _]; subst;
              destruct b; simpl in *; [lia | discriminate]).
        assert (Z.to_nat (i + 20) < List.length data)%nat.
        { destruct (Nat.lt_ge_cases (Z.to_nat (i + 20)) (List.length data)) as [? | Hbig];
            [assumption |]. rewrite skipn_all2 in Hne by exact Hbig. congruence. }
        rewrite length_firstn, length_skipn. lia.
    + exists []. rewrite app_nil_r, skipn_all2 by lia. repeat split; constructor.
Qed.

Lemma insertLoop_resolves (collection_ : AstraDBVectorStore.Collection)
    (batches : list (list AstraDBVectorStore.Row)) :
  (forall log batch,
      AstraDBVectorStore.respond collection_ log
        (AstraDBVectorStore.InsertMany batch) = None) ->
  forall log,
    AstraDBVectorStore.insertLoop collection_ batches log
    = (None, (log ++ List.map AstraDBVectorStore.InsertMany batches)%list).
Proof.
  intros Hok. induction batches as [| b batches IH]; intros log; simpl.
  - rewrite app_nil_r. reflexivity.
  - rewrite Hok, IH, <- app_assoc. reflexivity.
Qed.

(** The number of runs of twenty, with a shorter last one, that make up
    [n] elements. *)
Lemma batches_count {A : Type} (batches : list (list A)) :
  Forall (fun b => (1 <= List.length b <= 20)%nat) batches ->
  Forall (fun b => List.length b = 20%nat) (removelast batches) ->
  List.length batches = ((List.length (List.concat batches) + 19) / 20)%nat.
Proof.
  induction batches as [| b batches IH]; intros Hsize Hfull; [reflexivity |].
  inversion Hsize as [| ? ? Hb Hsize']; subst.
  destruct batches as [| b' batches'].
  - rewrite concat_cons, concat_nil, app_nil_r.
    change (List.length [b]) with 1%nat.
    apply Nat.div_unique with (r := (List.length b - 1)%nat); lia.
  - change (removelast (b :: b' :: batches'))
      with (b :: removelast (b' :: batches')) in Hfull.
    inversion Hfull as [| ? ? Hb20 Hfull']; subst.
    specialize (IH Hsize' Hfull').
    change (List.concat (b :: b' :: batches')) with (b ++ List.concat (b' :: batches'))%list.
    rewrite length_app, Hb20.
    change (List.length (b :: b' :: batches')) with (S (List.length (b' :: batches'))).
    rewrite IH.
    replace (20 + List.length (List.concat (b' :: batches')) + 19)%nat
      with (List.length (List.concat (b' :: batches')) + 19 + 1 * 20)%nat by lia.
    rewrite Nat.div_add by lia. lia.
Qed.

(** X11.  On a connected Astra store whose nodes all give their embedding
    and content, and a collection on which [insertMany] resolves, [add]
    returns the ids of all the nodes in order, and the calls it makes are
    exactly [insertMany] on consecutive batches of the rows: the batches
    put together are the rows of the nodes in order, every batch has
    between 1 and 20 rows, every batch but the last has 20, and there are
    [ceil(n / 20)] of them (none for no nodes). *)
Theorem astra_add_batches (self : AstraDBVectorStore.t)
    (collection_ : AstraDBVectorStore.Collection)
    (nodes : list Node.BaseNode) (rows : list AstraDBVectorStore.Row)
    (log : list AstraDBVectorStore.Call) :
  AstraDBVectorStore.collection self = Some collection_ ->
  Forall2 (fun node row => AstraDBVectorStore.toRow node = inr row) nodes rows ->
  (forall log' batch,
      AstraDBVectorStore.respond collection_ log'
        (AstraDBVectorStore.InsertMany batch) = None) ->
  exists batches,
    AstraDBVectorStore.add self nodes log
    = Some (inr (List.map Node.id_ nodes),
            (log ++ List.map AstraDBVectorStore.InsertMany batches)%list)
    /\ List.concat batches = rows
    /\ Forall (fun b => (1 <= List.length b <= 20)%nat) batches
    /\ Forall (fun b => List.length b = 20%nat) (removelast batches)
    /\ List.length batches = ((List.length nodes + 19) / 20)%nat.
Proof.
  intros Hconn Hrows Hok. unfold AstraDBVectorStore.add. rewrite Hconn.
  destruct nodes as [| node nodes].
  - inversion Hrows; subst. exists []. simpl. rewrite app_nil_r.
    repeat split; constructor.
  - cbn [List.length Nat.eqb].
    destruct (map_fails_or_returns AstraDBVectorStore.toRow (node :: nodes))
      as [(e & x & Hin & Hx & _) | (rows' & Hmap & Hall)].
    + exfalso. destruct (Forall2_In_left _ _ _ _ Hrows Hin) as (row & _ & Hrow).
      congruence.
    + assert (rows' = rows).
      { clear - Hall Hrows. revert rows' Hall.
        induction Hrows as [| n r ns rs Hnr _ IH]; intros rows' Hall;
          inversion Hall; subst; [reflexivity |].
        f_equal; [congruence | apply IH; assumption]. }
      subst rows'. rewrite Hmap.
      destruct (batchLoop_spec (List.length rows) 0 rows [] ltac:(lia) ltac:(lia))
        as (batches & Hrun & Hcat & Hsize & Hfull).
      rewrite Hrun. cbn [app]. rewrite (insertLoop_resolves _ _ Hok).
      rewrite (toRow_id _ _ Hrows).
      exists batches. split; [reflexivity |].
      change (Z.to_nat 0) with 0%nat in Hcat. cbn [skipn] in Hcat.
      split; [exact Hcat |]. split; [exact Hsize |]. split; [exact Hfull |].
      rewrite (batches_count _ Hsize Hfull), Hcat, <- (Forall2_length Hrows).
      reflexivity.
Qed.

Lemma astra_add_batches_witness :
  let nodes := StoreFixtures.sampleNodes 45 in
  exists rows batches,
    Forall2 (fun node row => AstraDBVectorStore.toRow node = inr row) nodes rows
    /\ AstraDBVectorStore.add (StoreFixtures.astraStore true) nodes []
       = Some (inr (List.map Node.id_ nodes),
               ([] ++ List.map AstraDBVectorStore.InsertMany batches)%list)
    /\ List.concat batches = rows
    /\ Forall (fun b => (1 <= List.length b <= 20)%nat) batches
    /\ Forall (fun b => List.length b = 20%nat) (removelast batches)
    /\ List.length batches = ((List.length nodes + 19) / 20)%nat.
Proof.
  intros nodes.
  destruct (map_fails_or_returns AstraDBVectorStore.toRow nodes)
    as [(e & x & _ & _ & Hmap) | (rows & _ & Hall)].
  - vm_compute in Hmap. discriminate.
  - exists rows.
    destruct (astra_add_batches (StoreFixtures.astraStore true)
                StoreFixtures.okCollection nodes rows [] eq_refl Hall
                (fun _ _ => eq_refl)) as (batches & H).
    exists batches. split; [exact Hall | exact H].
Defined.

(** X12.  [add] on an Astra store converts all the nodes before it inserts
    any: when the embedding or the content of some node throws, [add]
    throws and makes no call at all, whatever the number of nodes before
    the failing one. *)
Theorem astra_add_converts_first (self : AstraDBVectorStore.t)
    (collection_ : AstraDBVectorStore.Collection)
    (nodes : list Node.BaseNode) (node : Node.BaseNode) (e : exn)
    (log : list AstraDBVectorStore.Call) :
  AstraDBVectorStore.collection self = Some collection_ ->
  In node nodes ->
  AstraDBVectorStore.toRow node = inl e ->
  exists e',
    AstraDBVectorStore.add self nodes log = Some (inl e', log)
    /\ exists node', In node' nodes /\ AstraDBVectorStore.toRow node' = inl e'.
Proof.
  intros Hconn Hin Hfail. unfold AstraDBVectorStore.add. rewrite Hconn.
  destruct nodes as [| n nodes]; [contradiction |].
  cbn [List.length Nat.eqb].
  destruct (map_fails_or_returns AstraDBVectorStore.toRow (n :: nodes))
    as [(e' & x & Hx & Hxe & Hmap) | (rows & _ & Hall)].
  - rewrite Hmap. exists e'. split; [reflexivity |]. exists x. split; assumption.
  - exfalso. destruct (Forall2_In_left _ _ _ _ Hall Hin) as (row & _ & Hrow).
    congruence.
Qed.

Lemma astra_add_converts_first_witness :
  let nodes := (StoreFixtures.sampleNodes 25
                  ++ [StoreFixtures.nodeWithoutEmbedding])%list in
  exists e',
    AstraDBVectorStore.add (StoreFixtures.astraStore true) nodes []
    = Some (inl e', [])
    /\ exists node', In node' nodes /\ AstraDBVectorStore.toRow node' = inl e'.
Proof.
  intros nodes.
  apply (astra_add_converts_first (StoreFixtures.astraStore true)
           StoreFixtures.okCollection nodes StoreFixtures.nodeWithoutEmbedding
           (Error "Embedding not set") []).
  - reflexivity.
  - apply in_or_app. right. left. reflexivity.
  - reflexivity.
Defined.



(** X14.  The Astra constructor reads the environment only when [init]
    gives neither a client nor [params]: with either of them its outcome
    is the same under every environment.  In particular an empty token in
    [params] makes it throw even when the environment holds a token. *)
Theorem astra_constructor_ignores_env
    (newAstraDB : string -> string -> AstraDBVectorStore.AstraDB)
    (env env' : AstraDBVectorStore.Env) (init : AstraDBVectorStore.Init) :
  AstraDBVectorStore.init_astraDBClient init <> None
  \/ AstraDBVectorStore.init_params init <> None ->
  AstraDBVectorStore.constructor newAstraDB env (Some init)
  = AstraDBVectorStore.constructor newAstraDB env' (Some init).
Proof.
  intros H. unfold AstraDBVectorStore.constructor.
  destruct (AstraDBVectorStore.init_astraDBClient init); [reflexivity |].
  destruct (AstraDBVectorStore.init_params init); [reflexivity |].
  destruct H; congruence.
Qed.

Lemma astra_constructor_ignores_env_witness :
  let init := {| AstraDBVectorStore.init_astraDBClient := None;
                 AstraDBVectorStore.init_params :=
                   Some {| AstraDBVectorStore.token := "";
                           AstraDBVectorStore.endpoint := "https://db" |};
                 AstraDBVectorStore.init_idKey := None;
                 AstraDBVectorStore.init_contentKey := None;
                 AstraDBVectorStore.init_metadataKey := None |} in
  let env := {| AstraDBVectorStore.ASTRA_DB_APPLICATION_TOKEN := Some "secret";
                AstraDBVectorStore.ASTRA_DB_ENDPOINT := Some "https://env" |} in
  AstraDBVectorStore.constructor (fun _ _ => StoreFixtures.astraClient) env (Some init)
  = AstraDBVectorStore.constructor (fun _ _ => StoreFixtures.astraClient)
      StoreFixtures.emptyEnv (Some init)
  /\ AstraDBVectorStore.constructor (fun _ _ => StoreFixtures.astraClient) env
       (Some init)
     = inl (Error "Must specify ASTRA_DB_APPLICATION_TOKEN via env variable.").
Proof.
  intros init env. split; [| reflexivity].
  apply (astra_constructor_ignores_env (fun _ _ => StoreFixtures.astraClient)
           env StoreFixtures.emptyEnv init).
  right. discriminate.
Defined.

(** ** The Qdrant store *)

Lemma skipn_nth_error {A : Type} (l : list A) :
  forall i x, nth_error l i = Some x -> skipn i l = x :: skipn (S i) l.
Proof.
  induction l as [| y l IH]; intros [| i] x H; simpl in *; try discriminate.
  - injection H as <-. reflexivity.
  - apply IH. exact H.
Qed.

Lemma keep_unfold {A : Type} (b : nat) (l : list A) :
  forall j, (j <= b)%nat ->
    keep b j l = (firstn (b - j) l ++ keep b 0 (skipn (S (b - j)) l))%list.
Proof.
  induction l as [| x l IH]; intros j Hj.
  - rewrite firstn_nil. reflexivity.
  - cbn [keep]. destruct (Nat.ltb_spec j b) as [Hlt | Hge].
    + rewrite (IH (S j)) by lia.
      replace (b - j)%nat with (S (b - S j)) by lia. reflexivity.
    + replace (b - j)%nat with 0%nat by lia. reflexivity.
Qed.

Lemma keep_index {A : Type} (b : nat) (l : list A) :
  forall j start, (start mod S b = j)%nat ->
    keep b j l
    = List.map snd
        (filter (fun p => negb (Nat.eqb (fst p mod S b) b))
                (combine (seq start (List.length l)) l)).
Proof.
  induction l as [| x l IH]; intros j start Hmod; [reflexivity |].
  cbn [keep List.length seq combine filter fst].
  assert (Hj : (j < S b)%nat) by (rewrite <- Hmod; apply Nat.mod_upper_bound; lia).
  pose proof (Nat.div_mod_eq start (S b)) as Hdiv. rewrite Hmod in Hdiv.
  rewrite Hmod. destruct (Nat.ltb_spec j b) as [Hlt | Hge].
  - replace (Nat.eqb j b) with false by (symmetry; apply Nat.eqb_neq; lia).
    cbn [negb List.map snd]. f_equal. apply IH.
    symmetry. apply Nat.mod_unique with (q := (start / S b)%nat); lia.
  - replace (Nat.eqb j b) with true by (symmetry; apply Nat.eqb_eq; lia).
    cbn [negb]. apply IH.
    symmetry. apply Nat.mod_unique with (q := S (start / S b)); lia.
Qed.

Lemma keep_kept {A : Type} (b : nat) (l : list A) : keep b 0 l = keptNodes b l.
Proof. apply keep_index. apply Nat.Div0.mod_0_l. Qed.

Lemma keep_small {A : Type} (b : nat) (l : list A) :
  (List.length l <= b)%nat -> keep b 0 l = l.
Proof.
  intros H. rewrite keep_unfold by lia. rewrite Nat.sub_0_r.
  rewrite firstn_all2 by exact H. rewrite skipn_all2 by lia.
  apply app_nil_r.
Qed.

Lemma keep_length {A : Type} (b : nat) (n : nat) :
  forall l : list A, (List.length l <= n)%nat ->
    List.length (keep b 0 l) = (List.length l - List.length l / S b)%nat.
Proof.
  induction n as [| n IH]; intros l Hn.
  - destruct l; [reflexivity | simpl in Hn; lia].
  - destruct (Nat.le_gt_cases (List.length l) b) as [Hsmall | Hbig].
    + rewrite keep_small by exact Hsmall.
      rewrite Nat.div_small by lia. lia.
    + rewrite keep_unfold by lia. rewrite Nat.sub_0_r.
      rewrite length_app, length_firstn, IH by (rewrite length_skipn; lia).
      rewrite length_skipn.
      assert (Hdiv : (List.length l / S b
                      = S ((List.length l - S b) / S b))%nat).
      { replace (List.length l) with ((List.length l - S b) + 1 * S b)%nat at 1 by lia.
        rewrite Nat.div_add by lia. lia. }
      rewrite Hdiv.
      pose proof (Nat.Div0.div_le_upper_bound (List.length l - S b) (S b)
                    (List.length l - S b)) as Hle.
      assert ((List.length l - S b) / S b <= List.length l - S b)%nat
        by (apply Nat.Div0.div_le_upper_bound; nia).
      lia.
Qed.

Section BuildPointsProperties.

Variable nodeToMetadata : Node.BaseNode -> exn + list (string * string).
Variable emb : Node.BaseNode -> Node.Vector.
Variable meta : Node.BaseNode -> list (string * string).
Variable self : QdrantVectorStore.t.
Variable nodes : list Node.BaseNode.

Hypothesis nodes_ok :
  forall node, In node nodes ->
    Node.getEmbedding node = inr (emb node)
    /\ nodeToMetadata node = inr (meta node).

Let b : nat := Z.to_nat (QdrantVectorStore.batchSize self).

Lemma pointsOf_map (taken : list Node.BaseNode) :
  QdrantVectorStore.pointsOf taken (List.map emb taken) (List.map meta taken)
  = List.map (pointOf emb meta) taken.
Proof.
  unfold QdrantVectorStore.pointsOf.
  induction taken as [| x taken IH]; [reflexivity |].
  simpl. rewrite IH. reflexivity.
Qed.

(** The inner loop takes the next nodes from index [i] on, until it has
    [batchSize] of them in its arrays or the nodes end. *)
Lemma collectLoop_spec (fuel : nat) :
  forall j i node_ids vectors payloads,
    (List.length nodes - i <= fuel)%nat ->
    let taken := firstn (b - j) (skipn i nodes) in
    QdrantVectorStore.collectLoop nodeToMetadata self nodes fuel j i
      node_ids vectors payloads
    = Some (inr ((i + List.length taken)%nat,
                 (node_ids ++ taken)%list,
                 (vectors ++ List.map emb taken)%list,
                 (payloads ++ List.map meta taken)%list)).
Proof.
  assert (Hstop : forall (j i : nat) node_ids vectors payloads,
             QdrantVectorStore.batchSize self <= Z.of_nat j
             \/ (List.length nodes <= i)%nat ->
             Some (inr (i, node_ids, vectors, payloads))
             = Some (inr ((i + List.length (firstn (b - j) (skipn i nodes)))%nat,
                          (node_ids ++ firstn (b - j) (skipn i nodes))%list,
                          (vectors ++ List.map emb (firstn (b - j) (skipn i nodes)))%list,
                          (payloads ++ List.map meta (firstn (b - j) (skipn i nodes)))%list))
                 :> option (exn + (nat * list Node.BaseNode * list Node.Vector
                                   * list (list (string * string))))).
  { intros j i node_ids vectors payloads [Hj | Hi].
    - replace (b - j)%nat with 0%nat by (unfold b; lia).
      cbn. rewrite !app_nil_r, Nat.add_0_r. reflexivity.
    - rewrite skipn_all2 by lia. rewrite firstn_nil.
      cbn. rewrite !app_nil_r, Nat.add_0_r. reflexivity. }
  induction fuel as [| fuel IH]; intros j i node_ids vectors payloads Hfuel taken;
    subst taken; cbn [QdrantVectorStore.collectLoop];
    destruct (Z.ltb_spec (Z.of_nat j) (QdrantVectorStore.batchSize self)) as [Hj | Hj];
    destruct (Nat.ltb_spec i (List.length nodes)) as [Hi | Hi]; cbn [andb];
    try (apply Hstop; lia); try lia.
  destruct (nth_error nodes i) as [node |] eqn:Hnth;
    [| apply nth_error_None in Hnth; lia].
  destruct (nodes_ok node (nth_error_In _ _ Hnth)) as [He Hm].
  rewrite He, Hm, IH by lia.
  rewrite (skipn_nth_error _ _ _ Hnth).
  replace (b - j)%nat with (S (b - S j)) by (unfold b; lia).
  cbn [firstn List.length List.map].
  rewrite <- !app_assoc. cbn [app].
  rewrite Nat.add_succ_comm. reflexivity.
Qed.

(** The outer loop, from index [i] on, keeps of the remaining nodes all
    but every [(batchSize + 1)]-th: the node at which the inner loop
    stopped is passed over by the [i++] of the outer loop. *)
Lemma buildLoop_spec (fuel : nat) :
  forall i points ids,
    (List.length nodes - i <= fuel)%nat ->
    QdrantVectorStore.buildLoop nodeToMetadata self nodes fuel i points ids
    = Some (inr ((points ++ List.map (pointOf emb meta) (keep b 0 (skipn i nodes)))%list,
                 (ids ++ List.map Node.id_ (keep b 0 (skipn i nodes)))%list)).
Proof.
  induction fuel as [| fuel IH]; intros i points ids Hfuel;
    cbn [QdrantVectorStore.buildLoop].
  - destruct (Nat.ltb_spec i (List.length nodes)); [lia |].
    rewrite skipn_all2 by lia. cbn. rewrite !app_nil_r. reflexivity.
  - destruct (Nat.ltb_spec i (List.length nodes)) as [Hi | Hi].
    + rewrite (collectLoop_spec (List.length nodes) 0 i [] [] []) by lia.
      cbv zeta. rewrite Nat.sub_0_r. cbn [app].
      set (taken := firstn b (skipn i nodes)).
      rewrite pointsOf_map.
      rewrite IH by (subst taken; rewrite length_firstn, length_skipn; lia).
      rewrite <- !app_assoc, <- !map_app.
      assert (Hk : keep b 0 (skipn i nodes)
                   = (taken ++ keep b 0 (skipn (S (i + List.length taken)) nodes))%list).
      { rewrite (keep_unfold b (skipn i nodes) 0) by lia.
        rewrite Nat.sub_0_r. fold taken. f_equal.
        rewrite skipn_skipn.
        destruct (Nat.le_gt_cases b (List.length (skipn i nodes))) as [Hfull | Hshort].
        - replace (List.length taken) with b
            by (subst taken; rewrite length_firstn; lia).
          do 2 f_equal. lia.
        - rewrite length_skipn in Hshort.
          rewrite !skipn_all2; [reflexivity | |];
            subst taken; rewrite ?length_firstn, ?length_skipn; lia. }
      rewrite Hk. reflexivity.
    + rewrite skipn_all2 by lia. cbn. rewrite !app_nil_r. reflexivity.
Qed.

Lemma buildPoints_spec :
  QdrantVectorStore.buildPoints nodeToMetadata self nodes
  = Some (inr (List.map (pointOf emb meta) (keep b 0 nodes),
               List.map Node.id_ (keep b 0 nodes))).
Proof.
  unfold QdrantVectorStore.buildPoints.
  rewrite buildLoop_spec by lia. reflexivity.
Qed.

End BuildPointsProperties.

(** X15.  [buildPoints] leaves nodes out.  When every node gives its
    embedding and its metadata, it returns, for a batch size [b], the
    points and ids of the nodes whose index [i] satisfies
    [i mod (b + 1) <> b], in order, and of no other node: after each run
    of [b] nodes the next node is passed over, because the inner loop
    advances the index of the outer loop, which then increments it once
    more.  Of [n] nodes, [n / (b + 1)] are left out; a batch size of zero
    or less leaves all of them out. *)
Theorem qdrant_buildPoints_skips
    (nodeToMetadata : Node.BaseNode -> exn + list (string * string))
    (emb : Node.BaseNode -> Node.Vector)
    (meta : Node.BaseNode -> list (string * string))
    (self : QdrantVectorStore.t) (nodes : list Node.BaseNode) :
  (forall node, In node nodes ->
     Node.getEmbedding node = inr (emb node)
     /\ nodeToMetadata node = inr (meta node)) ->
  let b := Z.to_nat (QdrantVectorStore.batchSize self) in
  QdrantVectorStore.buildPoints nodeToMetadata self nodes
  = Some (inr (List.map (pointOf emb meta) (keptNodes b nodes),
               List.map Node.id_ (keptNodes b nodes)))
  /\ List.length (keptNodes b nodes)
     = (List.length nodes - List.length nodes / S b)%nat.
Proof.
  intros Hok b. rewrite <- keep_kept. split.
  - apply buildPoints_spec. exact Hok.
  - apply (keep_length b (List.length nodes)). apply le_n.
Qed.

Lemma qdrant_buildPoints_skips_witness :
  let self := StoreFixtures.qdrantStore StoreFixtures.okDb 2 in
  let nodes := StoreFixtures.sampleNodes 7 in
  let emb := fun node : Node.BaseNode =>
               match Node.getEmbedding node with inr v => v | inl _ => [] end in
  let meta := fun node : Node.BaseNode => [("doc_id", Node.id_ node)] in
  (QdrantVectorStore.buildPoints StoreFixtures.docIdMetadata self nodes
   = Some (inr (List.map (pointOf emb meta) (keptNodes 2 nodes),
                List.map Node.id_ (keptNodes 2 nodes)))
   /\ List.length (keptNodes 2 nodes)
      = (List.length nodes - List.length nodes / 3)%nat)
  /\ List.map Node.id_ (keptNodes 2 nodes)
     = ["node-0"; "node-1"; "node-3"; "node-4"; "node-6"].
Proof.
  intros self nodes emb meta. split; [| vm_compute; reflexivity].
  apply (qdrant_buildPoints_skips StoreFixtures.docIdMetadata emb meta self nodes).
  intros node Hin. unfold nodes, StoreFixtures.sampleNodes in Hin.
  apply in_map_iff in Hin. destruct Hin as (n & <- & _).
  split; reflexivity.
Defined.

(** X16.  [buildPoints] is complete exactly within one batch: when every
    node gives its embedding and its metadata it returns as many points as
    ids; when the nodes are no more than the batch size (a negative batch
    size counting as zero), the ids are those of all the nodes in order;
    when they are more, fewer ids than nodes come back. *)
Theorem qdrant_buildPoints_complete_within_batch
    (nodeToMetadata : Node.BaseNode -> exn + list (string * string))
    (emb : Node.BaseNode -> Node.Vector)
    (meta : Node.BaseNode -> list (string * string))
    (self : QdrantVectorStore.t) (nodes : list Node.BaseNode) :
  (forall node, In node nodes ->
     Node.getEmbedding node = inr (emb node)
     /\ nodeToMetadata node = inr (meta node)) ->
  exists points ids,
    QdrantVectorStore.buildPoints nodeToMetadata self nodes = Some (inr (points, ids))
    /\ List.map QdrantVectorStore.id points = ids
    /\ ((List.length nodes <= Z.to_nat (QdrantVectorStore.batchSize self))%nat ->
        ids = List.map Node.id_ nodes
        /\ points = List.map (pointOf emb meta) nodes)
    /\ ((Z.to_nat (QdrantVectorStore.batchSize self) < List.length nodes)%nat ->
        (List.length ids < List.length nodes)%nat).
Proof.
  intros Hok. eexists. eexists.
  split; [apply (buildPoints_spec nodeToMetadata emb meta self nodes Hok) |].
  set (b := Z.to_nat (QdrantVectorStore.batchSize self)).
  split; [rewrite map_map; reflexivity |]. split.
  - intros Hle. rewrite keep_small by (subst b; lia). split; reflexivity.
  - intros Hlt. rewrite length_map, (keep_length b (List.length nodes)) by apply le_n.
    assert (Hpos : (1 <= List.length nodes / S b)%nat).
    { apply Nat.div_le_lower_bound; subst b; lia. }
    subst b. remember (List.length nodes / S (Z.to_nat (QdrantVectorStore.batchSize self)))%nat
      as q. lia.
Qed.

Lemma qdrant_buildPoints_complete_within_batch_witness :
  let self := StoreFixtures.qdrantStore StoreFixtures.okDb 100 in
  let nodes := StoreFixtures.sampleNodes 5 in
  let emb := fun node : Node.BaseNode =>
               match Node.getEmbedding node with inr v => v | inl _ => [] end in
  let meta := fun node : Node.BaseNode => [("doc_id", Node.id_ node)] in
  exists points ids,
    QdrantVectorStore.buildPoints StoreFixtures.docIdMetadata self nodes
    = Some (inr (points, ids))
    /\ List.map QdrantVectorStore.id points = ids
    /\ ((List.length nodes <= Z.to_nat (QdrantVectorStore.batchSize self))%nat ->
        ids = List.map Node.id_ nodes
        /\ points = List.map (pointOf emb meta) nodes)
    /\ ((Z.to_nat (QdrantVectorStore.batchSize self) < List.length nodes)%nat ->
        (List.length ids < List.length nodes)%nat).
Proof.
  intros self nodes emb meta.
  apply (qdrant_buildPoints_complete_within_batch StoreFixtures.docIdMetadata
           emb meta self nodes).
  intros node Hin. unfold nodes, StoreFixtures.sampleNodes in Hin.
  apply in_map_iff in Hin. destruct Hin as (n & <- & _).
  split; reflexivity.
Defined.

(** X17.  [query] on a Qdrant store never reads [query.filters]: the one
    call it makes is a search on the collection of the store with the
    query embedding (or no components when there is none), the limit
    [similarityTopK], and as filter [options.qdrant_filters] when that is
    given and not null, and the empty list otherwise.  It returns what the
    search returns, or throws what the search throws. *)
Theorem qdrant_query_ignores_query_filters (self : QdrantVectorStore.t)
    (query_ : QdrantVectorStore.VectorStoreQuery)
    (options : option QdrantVectorStore.QueryOptions)
    (log : list QdrantVectorStore.Call) :
  let call_ :=
    QdrantVectorStore.Search (QdrantVectorStore.collectionName self)
      (match QdrantVectorStore.queryEmbedding query_ with
       | Some v => v
       | None => []
       end)
      (QdrantVectorStore.similarityTopK query_)
      (match options with
       | Some {| QdrantVectorStore.qdrant_filters := Some filter_ |} =>
           match filter_ with JNull => JArray [] | _ => filter_ end
       | _ => JArray []
       end) in
  QdrantVectorStore.query self query_ options log
  = (QdrantVectorStore.respond (QdrantVectorStore.db self) log call_,
     (log ++ [call_])%list).
Proof.
  cbv zeta. unfold QdrantVectorStore.query, QdrantVectorStore.coalesce.
  destruct options as [[[f |]] |]; try reflexivity.
  destruct f; reflexivity.
Qed.

(** X18.  The Qdrant constructor throws exactly when no client is given
    and the url or the api key is missing or empty; a missing collection
    name never makes it throw, although the error message names it.  When
    it returns, the store uses the client given, or else a new one for the
    url and the key; the collection name defaults to ["default"], the
    batch size to 100, and the collection counts as not initialized. *)
Theorem qdrant_constructor_requirements
    (newQdrantClient : option string -> option string -> QdrantVectorStore.QdrantClient)
    (params : QdrantVectorStore.QdrantParams) :
  QdrantVectorStore.constructor newQdrantClient params
  = if andb (match QdrantVectorStore.p_client params with
             | Some _ => false
             | None => true
             end)
            (orb (negb (truthy (QdrantVectorStore.p_url params)))
                 (negb (truthy (QdrantVectorStore.p_apiKey params))))
    then inl (Error "QdrantVectorStore requires url, apiKey and collectionName")
    else inr {| QdrantVectorStore.db :=
                  match QdrantVectorStore.p_client params with
                  | Some c => c
                  | None => newQdrantClient (QdrantVectorStore.p_url params)
                              (QdrantVectorStore.p_apiKey params)
                  end;
                QdrantVectorStore.collectionName :=
                  match QdrantVectorStore.p_collectionName params with
                  | Some n => n
                  | None => "default"
                  end;
                QdrantVectorStore.batchSize :=
                  match QdrantVectorStore.p_batchSize params with
                  | Some size => size
                  | None => 100
                  end;
                QdrantVectorStore._collectionInitialized := false |}.
Proof.
  unfold QdrantVectorStore.constructor.
  destruct (QdrantVectorStore.p_client params);
    destruct (truthy (QdrantVectorStore.p_url params));
    destruct (truthy (QdrantVectorStore.p_apiKey params));
    destruct (truthy (QdrantVectorStore.p_collectionName params)); reflexivity.
Qed.

Lemma keep_zero {A : Type} (l : list A) : forall j, keep 0 j l = [].
Proof. induction l as [| x l IH]; intros j; [reflexivity | apply IH]. Qed.

(** The upsert loop, when every upsert resolves: the chunks sent are what
    is left of the points, cut into runs of the batch size. *)
Lemma upsertLoop_spec (self : QdrantVectorStore.t) (fuel : nat) :
  (forall log points,
      exists v, QdrantVectorStore.respond (QdrantVectorStore.db self) log
                  (QdrantVectorStore.Upsert (QdrantVectorStore.collectionName self)
                     points) = inr v) ->
  1 <= QdrantVectorStore.batchSize self ->
  forall (i : Z) (points : list QdrantVectorStore.PointStruct)
         (log : list QdrantVectorStore.Call),
    0 <= i ->
    Z.of_nat (List.length points) - i <= Z.of_nat fuel ->
    exists chunks : list (list QdrantVectorStore.PointStruct),
      QdrantVectorStore.upsertLoop self fuel i points log
      = Some (None,
              (log ++ List.map (QdrantVectorStore.Upsert
                                  (QdrantVectorStore.collectionName self)) chunks)%list)
      /\ List.concat chunks = skipn (Z.to_nat i) points
      /\ Forall (fun c => (1 <= List.length c
                           <= Z.to_nat (QdrantVectorStore.batchSize self))%nat) chunks.
Proof.
  intros Hup Hsize.
  induction fuel as [| fuel IH]; intros i points log Hi Hfuel;
    cbn [QdrantVectorStore.upsertLoop];
    destruct (Z.ltb_spec i (Z.of_nat (List.length points))) as [Hlt | Hge];
    try lia;
    try (exists []; cbn [List.map List.concat];
         rewrite app_nil_r, skipn_all2 by lia; repeat split; constructor).
  cbv zeta. rewrite slice_in_range by lia.
  set (chunk := firstn (Z.to_nat (QdrantVectorStore.batchSize self))
                  (skipn (Z.to_nat i) points)).
  destruct (Hup log chunk) as [v Hv]. rewrite Hv.
  destruct (IH (i + QdrantVectorStore.batchSize self) points
              (log ++ [QdrantVectorStore.Upsert
                         (QdrantVectorStore.collectionName self) chunk])%list
              ltac:(lia) ltac:(lia))
    as (chunks & Hrun & Hcat & Hall).
  exists (chunk :: chunks). rewrite Hrun, <- app_assoc.
  split; [reflexivity |]. split.
  - rewrite concat_cons, Hcat.
    replace (Z.to_nat (i + QdrantVectorStore.batchSize self))
      with (Z.to_nat (QdrantVectorStore.batchSize self) + Z.to_nat i)%nat by lia.
    rewrite <- skipn_skipn. apply firstn_skipn.
  - constructor; [| exact Hall].
    subst chunk. rewrite length_firstn, length_skipn. lia.
Qed.

(** [add] once the collection is settled: the points are built and sent. *)
Lemma qdrant_add_tail
    (nodeToMetadata : Node.BaseNode -> exn + list (string * string))
    (emb : Node.BaseNode -> Node.Vector)
    (meta : Node.BaseNode -> list (string * string))
    (self : QdrantVectorStore.t) (nodes : list Node.BaseNode)
    (log : list QdrantVectorStore.Call) :
  (forall node, In node nodes ->
     Node.getEmbedding node = inr (emb node)
     /\ nodeToMetadata node = inr (meta node)) ->
  (forall log points,
      exists v, QdrantVectorStore.respond (QdrantVectorStore.db self) log
                  (QdrantVectorStore.Upsert (QdrantVectorStore.collectionName self)
                     points) = inr v) ->
  let b := Z.to_nat (QdrantVectorStore.batchSize self) in
  exists chunks : list (list QdrantVectorStore.PointStruct),
    match QdrantVectorStore.buildPoints nodeToMetadata self nodes with
    | None => None
    | Some (inl e) => Some (inl e, self, log)
    | Some (inr (points, ids)) =>
        match QdrantVectorStore.upsertLoop self (List.length points) 0 points log with
        | None => None
        | Some (Some e, log2) => Some (inl e, self, log2)
        | Some (None, log2) => Some (inr ids, self, log2)
        end
    end
    = Some (inr (List.map Node.id_ (keptNodes b nodes)), self,
            (log ++ List.map (QdrantVectorStore.Upsert
                                (QdrantVectorStore.collectionName self)) chunks)%list)
    /\ List.concat chunks = List.map (pointOf emb meta) (keptNodes b nodes)
    /\ Forall (fun c => (1 <= List.length c <= b)%nat) chunks.
Proof.
  intros Hok Hup b.
  rewrite (buildPoints_spec nodeToMetadata emb meta self nodes Hok).
  fold b. rewrite <- keep_kept.
  destruct (Z.le_gt_cases 1 (QdrantVectorStore.batchSize self)) as [Hsize | Hzero].
  - destruct (upsertLoop_spec self
                (List.length (List.map (pointOf emb meta) (keep b 0 nodes)))
                Hup Hsize 0 (List.map (pointOf emb meta) (keep b 0 nodes)) log
                ltac:(lia) ltac:(lia))
      as (chunks & Hrun & Hcat & Hall).
    exists chunks. rewrite Hrun. split; [reflexivity |]. split; assumption.
  - replace b with 0%nat by (subst b; lia). rewrite keep_zero.
    exists []. cbn. rewrite app_nil_r. repeat split. constructor.
Qed.

(** X19.  [add] on a Qdrant store, when every node gives its embedding and
    metadata and the creation of a collection and every upsert resolve.
    It returns the ids of the nodes [buildPoints] keeps.  Before anything
    else, and only when there are nodes and the store has not initialized
    its collection yet, it asks for the collection and creates it, with
    the length of the first embedding as vector size, when that request
    throws for whatever reason; the store then counts the collection as
    initialized, so that a later [add] asks no more.  Then it upserts the
    points in consecutive chunks of at most the batch size, which put
    together are the points built. *)
Theorem qdrant_add_upserts
    (nodeToMetadata : Node.BaseNode -> exn + list (string * string))
    (emb : Node.BaseNode -> Node.Vector)
    (meta : Node.BaseNode -> list (string * string))
    (self : QdrantVectorStore.t) (nodes : list Node.BaseNode)
    (log : list QdrantVectorStore.Call) :
  (forall node, In node nodes ->
     Node.getEmbedding node = inr (emb node)
     /\ nodeToMetadata node = inr (meta node)) ->
  (forall log' points,
      exists v, QdrantVectorStore.respond (QdrantVectorStore.db self) log'
                  (QdrantVectorStore.Upsert (QdrantVectorStore.collectionName self)
                     points) = inr v) ->
  (forall log' vectorSize,
      exists v, QdrantVectorStore.respond (QdrantVectorStore.db self) log'
                  (QdrantVectorStore.CreateCollection
                     (QdrantVectorStore.collectionName self) vectorSize) = inr v) ->
  let b := Z.to_nat (QdrantVectorStore.batchSize self) in
  let name_ := QdrantVectorStore.collectionName self in
  let setup :=
    match nodes, QdrantVectorStore._collectionInitialized self with
    | first :: _, false =>
        QdrantVectorStore.GetCollection name_
        :: match QdrantVectorStore.respond (QdrantVectorStore.db self) log
                   (QdrantVectorStore.GetCollection name_) with
           | inr _ => []
           | inl _ => [QdrantVectorStore.CreateCollection name_
                         (List.length (emb first))]
           end
    | _, _ => []
    end in
  let self' :=
    match nodes, QdrantVectorStore._collectionInitialized self with
    | _ :: _, false => QdrantVectorStore.with_initialized self
    | _, _ => self
    end in
  exists chunks : list (list QdrantVectorStore.PointStruct),
    QdrantVectorStore.add nodeToMetadata self nodes log
    = Some (inr (List.map Node.id_ (keptNodes b nodes)), self',
            (log ++ setup ++ List.map (QdrantVectorStore.Upsert name_) chunks)%list)
    /\ List.concat chunks = List.map (pointOf emb meta) (keptNodes b nodes)
    /\ Forall (fun c => (1 <= List.length c <= b)%nat) chunks.
Proof.
  intros Hok Hup Hcreate b name_ setup self'.
  unfold QdrantVectorStore.add.
  destruct nodes as [| first rest].
  - cbn [List.length Nat.ltb Nat.leb andb].
    destruct (qdrant_add_tail nodeToMetadata emb meta self [] log Hok Hup)
      as (chunks & Hrun & Hcat & Hall).
    exists chunks. subst setup self'. cbn [app]. split; [exact Hrun |].
    split; assumption.
  - cbn [List.length Nat.ltb Nat.leb andb].
    destruct (QdrantVectorStore._collectionInitialized self) eqn:Hflag; cbn [negb].
    + destruct (qdrant_add_tail nodeToMetadata emb meta self (first :: rest) log
                  Hok Hup) as (chunks & Hrun & Hcat & Hall).
      exists chunks. subst setup self'. cbn [app]. split; [exact Hrun |].
      split; assumption.
    + destruct (Hok first (or_introl eq_refl)) as [Hemb _]. rewrite Hemb.
      unfold QdrantVectorStore.initializeCollection,
        QdrantVectorStore.collectionExists, QdrantVectorStore.createCollection.
      subst setup self'. fold name_.
      destruct (QdrantVectorStore.respond (QdrantVectorStore.db self) log
                  (QdrantVectorStore.GetCollection name_)) as [e | v]; cbn [negb].
      * destruct (Hcreate (log ++ [QdrantVectorStore.GetCollection name_])%list
                    (List.length (emb first))) as [v Hv].
        fold name_ in Hv. rewrite Hv.
        destruct (qdrant_add_tail nodeToMetadata emb meta
                    (QdrantVectorStore.with_initialized self) (first :: rest)
                    ((log ++ [QdrantVectorStore.GetCollection name_])
                       ++ [QdrantVectorStore.CreateCollection name_
                             (List.length (emb first))])%list Hok Hup)
          as (chunks & Hrun & Hcat & Hall).
        exists chunks. rewrite Hrun. cbn [QdrantVectorStore.with_initialized
          QdrantVectorStore.batchSize QdrantVectorStore.collectionName].
        fold b name_. rewrite <- !app_assoc. split; [reflexivity |].
        split; assumption.
      * destruct (qdrant_add_tail nodeToMetadata emb meta
                    (QdrantVectorStore.with_initialized self) (first :: rest)
                    (log ++ [QdrantVectorStore.GetCollection name_])%list Hok Hup)
          as (chunks & Hrun & Hcat & Hall).
        exists chunks. rewrite Hrun. cbn [QdrantVectorStore.with_initialized
          QdrantVectorStore.batchSize QdrantVectorStore.collectionName].
        fold b name_. rewrite <- !app_assoc. split; [reflexivity |].
        split; assumption.
Qed.

Lemma qdrant_add_upserts_witness :
  let self := StoreFixtures.qdrantStore StoreFixtures.emptyDb 2 in
  let nodes := StoreFixtures.sampleNodes 5 in
  let emb := fun node : Node.BaseNode =>
               match Node.getEmbedding node with inr v => v | inl _ => [] end in
  let meta := fun node : Node.BaseNode => [("doc_id", Node.id_ node)] in
  exists chunks : list (list QdrantVectorStore.PointStruct),
    QdrantVectorStore.add StoreFixtures.docIdMetadata self nodes []
    = Some (inr (List.map Node.id_ (keptNodes 2 nodes)),
            QdrantVectorStore.with_initialized self,
            ([] ++ [QdrantVectorStore.GetCollection "default";
                    QdrantVectorStore.CreateCollection "default" 2]
                ++ List.map (QdrantVectorStore.Upsert "default") chunks)%list)
    /\ List.concat chunks = List.map (pointOf emb meta) (keptNodes 2 nodes)
    /\ Forall (fun c => (1 <= List.length c <= 2)%nat) chunks.
Proof.
  intros self nodes emb meta.
  apply (qdrant_add_upserts StoreFixtures.docIdMetadata emb meta self nodes []).
  - intros node Hin. unfold nodes, StoreFixtures.sampleNodes in Hin.
    apply in_map_iff in Hin. destruct Hin as (n & <- & _).
    split; reflexivity.
  - intros log' points. eexists. reflexivity.
  - intros log' vectorSize. eexists. reflexivity.
Defined.

(** X20.  [add] on a Qdrant store sends no point when the collection
    cannot be set up: with nodes to add and a collection not yet
    initialized, when asking for the collection throws and creating it
    throws [e], [add] throws [e] after these two calls, makes no upsert,
    and leaves the store not initialized, so that the next [add] tries
    again. *)
Theorem qdrant_add_setup_failure
    (nodeToMetadata : Node.BaseNode -> exn + list (string * string))
    (self : QdrantVectorStore.t) (first : Node.BaseNode)
    (rest : list Node.BaseNode) (v : Node.Vector) (e0 e : exn)
    (log : list QdrantVectorStore.Call) :
  QdrantVectorStore._collectionInitialized self = false ->
  Node.getEmbedding first = inr v ->
  QdrantVectorStore.respond (QdrantVectorStore.db self) log
    (QdrantVectorStore.GetCollection (QdrantVectorStore.collectionName self))
  = inl e0 ->
  QdrantVectorStore.respond (QdrantVectorStore.db self)
    (log ++ [QdrantVectorStore.GetCollection (QdrantVectorStore.collectionName self)])
    (QdrantVectorStore.CreateCollection (QdrantVectorStore.collectionName self)
       (List.length v))
  = inl e ->
  QdrantVectorStore.add nodeToMetadata self (first :: rest) log
  = Some (inl e, self,
          (log ++ [QdrantVectorStore.GetCollection
                     (QdrantVectorStore.collectionName self);
                   QdrantVectorStore.CreateCollection
                     (QdrantVectorStore.collectionName self) (List.length v)])%list).
Proof.
  intros Hflag Hemb Hget Hcreate.
  unfold QdrantVectorStore.add. cbn [List.length Nat.ltb Nat.leb andb].
  rewrite Hflag, Hemb. cbn [negb].
  unfold QdrantVectorStore.initializeCollection,
    QdrantVectorStore.collectionExists, QdrantVectorStore.createCollection.
  rewrite Hget. cbn [negb]. rewrite Hcreate. rewrite <- app_assoc. reflexivity.
Qed.

Lemma qdrant_add_setup_failure_witness :
  let db_ := {| QdrantVectorStore.respond := fun _ call_ =>
                  match call_ with
                  | QdrantVectorStore.GetCollection _ => inl (Error "Not found")
                  | QdrantVectorStore.CreateCollection _ _ => inl (Error "Forbidden")
                  | _ => inr JNull
                  end |} in
  let self := StoreFixtures.qdrantStore db_ 2 in
  QdrantVectorStore.add StoreFixtures.docIdMetadata self
    (StoreFixtures.sampleNode 0 :: StoreFixtures.sampleNodes 3) []
  = Some (inl (Error "Forbidden"), self,
          ([] ++ [QdrantVectorStore.GetCollection
                    (QdrantVectorStore.collectionName self);
                  QdrantVectorStore.CreateCollection
                    (QdrantVectorStore.collectionName self)
                    (List.length [0; 1])])%list).
Proof.
  intros db_ self.
  apply (qdrant_add_setup_failure StoreFixtures.docIdMetadata self
           (StoreFixtures.sampleNode 0) (StoreFixtures.sampleNodes 3)
           [0; 1] (Error "Not found") (Error "Forbidden") []);
    reflexivity.
Defined.

Lemma insertLoop_throws (collection_ : AstraDBVectorStore.Collection) (e : exn)
    (batches : list (list AstraDBVectorStore.Row)) :
  forall (log : list AstraDBVectorStore.Call) (k : nat),
    (forall log' batch,
        (List.length log' < List.length log + k)%nat ->
        AstraDBVectorStore.respond collection_ log'
          (AstraDBVectorStore.InsertMany batch) = None) ->
    (forall log' batch,
        List.length log' = (List.length log + k)%nat ->
        AstraDBVectorStore.respond collection_ log'
          (AstraDBVectorStore.InsertMany batch) = Some e) ->
    (k < List.length batches)%nat ->
    AstraDBVectorStore.insertLoop collection_ batches log
    = (Some e,
       (log ++ List.map AstraDBVectorStore.InsertMany (firstn (S k) batches))%list).
Proof.
  induction batches as [| b batches IH]; intros log k Hok Hfail Hk;
    [simpl in Hk; lia |].
  cbn [AstraDBVectorStore.insertLoop]. destruct k as [| k].
  - rewrite Hfail by lia. reflexivity.
  - rewrite Hok by lia.
    rewrite (IH (log ++ [AstraDBVectorStore.InsertMany b])%list k).
    + rewrite <- app_assoc. reflexivity.
    + intros log' batch Hlen. apply Hok. rewrite length_app in Hlen. simpl in Hlen. lia.
    + intros log' batch Hlen. apply Hfail. rewrite length_app in Hlen. simpl in Hlen. lia.
    + simpl in Hk. lia.
Qed.

(** X21.  [add] on an Astra store is not atomic.  When the rows make more
    than [k] batches and the collection resolves the first [k] calls and
    throws [e] on the next one, [add] throws [e]: the first [k] batches
    of twenty rows have been inserted and stay inserted, the batch after
    them was attempted, and the batches after that one are never sent. *)
Theorem astra_add_stops_at_failed_batch (self : AstraDBVectorStore.t)
    (collection_ : AstraDBVectorStore.Collection)
    (nodes : list Node.BaseNode) (rows : list AstraDBVectorStore.Row)
    (log : list AstraDBVectorStore.Call) (k : nat) (e : exn) :
  AstraDBVectorStore.collection self = Some collection_ ->
  Forall2 (fun node row => AstraDBVectorStore.toRow node = inr row) nodes rows ->
  (20 * k < List.length nodes)%nat ->
  (forall log' batch,
      (List.length log' < List.length log + k)%nat ->
      AstraDBVectorStore.respond collection_ log'
        (AstraDBVectorStore.InsertMany batch) = None) ->
  (forall log' batch,
      List.length log' = (List.length log + k)%nat ->
      AstraDBVectorStore.respond collection_ log'
        (AstraDBVectorStore.InsertMany batch) = Some e) ->
  exists batches,
    List.concat batches = rows
    /\ Forall (fun b => (1 <= List.length b <= 20)%nat) batches
    /\ Forall (fun b => List.length b = 20%nat) (removelast batches)
    /\ (k < List.length batches)%nat
    /\ AstraDBVectorStore.add self nodes log
       = Some (inl e,
               (log ++ List.map AstraDBVectorStore.InsertMany
                         (firstn (S k) batches))%list).
Proof.
  intros Hconn Hrows Hk Hok Hfail. unfold AstraDBVectorStore.add. rewrite Hconn.
  destruct nodes as [| node nodes]; [simpl in Hk; lia |].
  cbn [List.length Nat.eqb].
  destruct (map_fails_or_returns AstraDBVectorStore.toRow (node :: nodes))
    as [(e' & x & Hin & Hx & _) | (rows' & Hmap & Hall)].
  - exfalso. destruct (Forall2_In_left _ _ _ _ Hrows Hin) as (row & _ & Hrow).
    congruence.
  - assert (rows' = rows).
    { clear - Hall Hrows. revert rows' Hall.
      induction Hrows as [| n r ns rs Hnr _ IH]; intros rows' Hall;
        inversion Hall; subst; [reflexivity |].
      f_equal; [congruence | apply IH; assumption]. }
    subst rows'. rewrite Hmap.
    destruct (batchLoop_spec (List.length rows) 0 rows [] ltac:(lia) ltac:(lia))
      as (batches & Hrun & Hcat & Hsize & Hfull).
    rewrite Hrun. cbn [app].
    change (Z.to_nat 0) with 0%nat in Hcat. cbn [skipn] in Hcat.
    assert (Hcount : (k < List.length batches)%nat).
    { rewrite (batches_count _ Hsize Hfull), Hcat, <- (Forall2_length Hrows).
      apply Nat.div_le_lower_bound; [lia |]. cbn [List.length] in *. lia. }
    rewrite (insertLoop_throws collection_ e batches log k Hok Hfail Hcount).
    exists batches. repeat split; assumption.
Qed.

Lemma astra_add_stops_at_failed_batch_witness :
  let nodes := StoreFixtures.sampleNodes 45 in
  let collection_ :=
    {| AstraDBVectorStore.respond := fun log' _ =>
         if Nat.ltb (List.length log') 1 then None else Some (Error "Timeout") |} in
  let self :=
    {| AstraDBVectorStore.astraDBClient := StoreFixtures.astraClient;
       AstraDBVectorStore.idKey := "_id";
       AstraDBVectorStore.contentKey := None;
       AstraDBVectorStore.metadataKey := "metadata";
       AstraDBVectorStore.collection := Some collection_ |} in
  exists rows batches,
    Forall2 (fun node row => AstraDBVectorStore.toRow node = inr row) nodes rows
    /\ List.concat batches = rows
    /\ Forall (fun b => (1 <= List.length b <= 20)%nat) batches
    /\ Forall (fun b => List.length b = 20%nat) (removelast batches)
    /\ (1 < List.length batches)%nat
    /\ AstraDBVectorStore.add self nodes []
       = Some (inl (Error "Timeout"),
               ([] ++ List.map AstraDBVectorStore.InsertMany
                        (firstn 2 batches))%list).
Proof.
  intros nodes collection_ self.
  destruct (map_fails_or_returns AstraDBVectorStore.toRow nodes)
    as [(e & x & _ & _ & Hmap) | (rows & _ & Hall)].
  - vm_compute in Hmap. discriminate.
  - exists rows.
    destruct (astra_add_stops_at_failed_batch self collection_ nodes rows [] 1
                (Error "Timeout") eq_refl Hall) as (batches & H).
    + vm_compute. repeat constructor.
    + intros log' batch Hlen. cbn [AstraDBVectorStore.respond collection_].
      destruct log'; [reflexivity | simpl in Hlen; lia].
    + intros log' batch Hlen. cbn [AstraDBVectorStore.respond collection_].
      destruct log' as [| c [| c' log']]; simpl in Hlen; try lia. reflexivity.
    + exists batches. split; [exact Hall | exact H].
Defined.
